(** * A static file server on Python's [http.server]

    The repository holds two scripts.  [simple-server.py] hands the
    standard library's [SimpleHTTPRequestHandler] to a
    [socketserver.TCPServer] on port 8000.  [serve-test.py] does the same
    with a subclass, [MyHandler], whose [do_GET] replaces the request path
    ["/"] by ["/test-claude-ui.html"] before it calls the inherited method,
    and it wraps [serve_forever] in a handler for [KeyboardInterrupt].

    What the scripts do is decided almost entirely by the library classes
    they instantiate, so the development embeds those as well, following
    CPython 3.11 ([Lib/http/server.py], [Lib/posixpath.py],
    [Lib/urllib/parse.py], [Lib/mimetypes.py], [Lib/socketserver.py]).
    Each definition names the Python function it follows.

    Conventions of the embedding.
    - A Python [str] is a [string]: a sequence of 8-bit characters.  This is
      exact for ASCII text, and the properties that depend on how a path or
      a name is decoded are stated for ASCII text.  Outside ASCII the
      library decodes and encodes (ISO-8859-1 for the request line, UTF-8
      for escapes and file names, the tables of Unicode for [str.lower]);
      here a character outside ASCII stands for itself.
    - A handler instance ([self]) is a record threaded through the methods;
      a method that returns nothing maps a handler to a handler.  A method
      that an exception can leave returns an [outcome] with the handler.
    - The machine the server runs on (file system, clock, MIME database,
      file system encoding) is a record read by the methods and changed by
      none of them.  Times are whole seconds since the epoch.
    - What the server writes to standard error for a request (the access
      log, the report of an exception in a handler) is left out: it does
      not reach the client. *)

From Stdlib Require Import ZArith List Bool Lia Ascii String.
From Stdlib Require Import Numbers.DecimalString Sorted.
From stdpp Require Import base option list gmap strings.

Local Open Scope string_scope.
Local Open Scope Z_scope.

(** ** Python's [str] methods *)

Module str.

(** The quotation mark, for literals that contain one. *)
Definition dq : string := String (ascii_of_nat 34) EmptyString.

Definition ord (c : ascii) : Z := Z.of_nat (nat_of_ascii c).

(** [c.isspace()] for an ASCII character. *)
Definition isspace (c : ascii) : bool :=
  ((9 <=? ord c) && (ord c <=? 13)) || ((28 <=? ord c) && (ord c <=? 32)).

Definition isupper (c : ascii) : bool := (65 <=? ord c) && (ord c <=? 90).
Definition islower (c : ascii) : bool := (97 <=? ord c) && (ord c <=? 122).
Definition isalpha (c : ascii) : bool := isupper c || islower c.
Definition isdigit (c : ascii) : bool := (48 <=? ord c) && (ord c <=? 57).
Definition isascii (c : ascii) : bool := ord c <? 128.

(** [c in s] for a one-character [c]. *)
Fixpoint contains (c : ascii) (s : string) : bool :=
  match s with
  | EmptyString => false
  | String a s' => Ascii.eqb a c || contains c s'
  end.

Fixpoint map (f : ascii -> ascii) (s : string) : string :=
  match s with
  | EmptyString => EmptyString
  | String a s' => String (f a) (map f s')
  end.

(** [s.lower()], on ASCII letters. *)
Definition lower_char (c : ascii) : ascii :=
  if isupper c then ascii_of_nat (nat_of_ascii c + 32) else c.
Definition lower : string -> string := map lower_char.

Definition startswith (s pre : string) : bool := String.prefix pre s.

(** [s.endswith(suf)]: [s] is [suf], or the rest of [s] ends with it. *)
Fixpoint endswith (s suf : string) : bool :=
  String.eqb s suf ||
  match s with
  | EmptyString => false
  | String _ s' => endswith s' suf
  end.

(** [s.split(c, 1)[0]]: the part of [s] before the first [c]. *)
Fixpoint before (c : ascii) (s : string) : string :=
  match s with
  | EmptyString => EmptyString
  | String a s' => if Ascii.eqb a c then EmptyString else String a (before c s')
  end.

(** [s.split(c, 1)[1]] when [c] occurs in [s], and [""] when it does not. *)
Fixpoint after (c : ascii) (s : string) : string :=
  match s with
  | EmptyString => EmptyString
  | String a s' => if Ascii.eqb a c then s' else after c s'
  end.

(** [s.split(c)]: the pieces between the occurrences of [c]; never empty. *)
Fixpoint split (c : ascii) (s : string) : list string :=
  match s with
  | EmptyString => [EmptyString]
  | String a s' =>
      if Ascii.eqb a c then EmptyString :: split c s'
      else match split c s' with
           | w :: ws => String a w :: ws
           | [] => [String a EmptyString]
           end
  end.

(** [sep.join(ws)]. *)
Fixpoint join (sep : string) (ws : list string) : string :=
  match ws with
  | [] => EmptyString
  | [w] => w
  | w :: ws' => w ++ sep ++ join sep ws'
  end.

(** [s.rstrip()]: trailing white space removed. *)
Fixpoint rstrip (s : string) : string :=
  match s with
  | EmptyString => EmptyString
  | String a s' =>
      match rstrip s' with
      | EmptyString => if isspace a then EmptyString else String a EmptyString
      | r => String a r
      end
  end.

(** [s.rstrip(c)] for a one-character [c]. *)
Fixpoint rstrip_char (c : ascii) (s : string) : string :=
  match s with
  | EmptyString => EmptyString
  | String a s' =>
      match rstrip_char c s' with
      | EmptyString => if Ascii.eqb a c then EmptyString else String a EmptyString
      | r => String a r
      end
  end.

(** [s.lstrip(chars)] with the set of characters given as a predicate. *)
Fixpoint lstrip (drop : ascii -> bool) (s : string) : string :=
  match s with
  | EmptyString => EmptyString
  | String a s' => if drop a then lstrip drop s' else s
  end.

(** [s.replace(c, "")]. *)
Fixpoint remove (c : ascii) (s : string) : string :=
  match s with
  | EmptyString => EmptyString
  | String a s' => if Ascii.eqb a c then remove c s' else String a (remove c s')
  end.

(** [s.replace(c, by)] for a one-character [c]. *)
Fixpoint replace (c : ascii) (by_ : string) (s : string) : string :=
  match s with
  | EmptyString => EmptyString
  | String a s' =>
      if Ascii.eqb a c then by_ ++ replace c by_ s' else String a (replace c by_ s')
  end.

(** [s.find(c)] and [s.rfind(c)]: an index, or -1. *)
Fixpoint find (c : ascii) (s : string) : Z :=
  match s with
  | EmptyString => -1
  | String a s' =>
      if Ascii.eqb a c then 0
      else let i := find c s' in if i <? 0 then -1 else i + 1
  end.

Fixpoint rfind (c : ascii) (s : string) : Z :=
  match s with
  | EmptyString => -1
  | String a s' =>
      let i := rfind c s' in
      if 0 <=? i then i + 1 else if Ascii.eqb a c then 0 else -1
  end.

(** [s[:i]] and [s[i:]] for [0 <= i]. *)
Definition upto (i : Z) (s : string) : string :=
  String.substring 0 (Z.to_nat i) s.
Definition from (i : Z) (s : string) : string :=
  String.substring (Z.to_nat i) (String.length s - Z.to_nat i) s.

(** [str(n)] for a natural number. *)
Definition of_nat (n : nat) : string := NilEmpty.string_of_uint (Nat.to_uint n).

End str.

(** ** [posixpath] *)

Module posixpath.

(** [posixpath.join(a, b)]. *)
Definition join (a b : string) : string :=
  if str.startswith b "/" then b
  else if String.eqb a "" || str.endswith a "/" then a ++ b
  else a ++ "/" ++ b.

(** One turn of the loop of [normpath].  [new_comps] is kept as a stack, its
    last component first, so that [append] conses and [pop] takes the tail. *)
Definition normpath_step (initial_slashes : Z) (new_comps : list string)
    (comp : string) : list string :=
  if String.eqb comp "" || String.eqb comp "." then new_comps
  else if negb (String.eqb comp "..")
          || ((initial_slashes =? 0) && bool_decide (new_comps = []))
          || match new_comps with
             | top :: _ => String.eqb top ".."
             | [] => false
             end
       then comp :: new_comps
       else match new_comps with
            | _ :: rest => rest
            | [] => new_comps
            end.

(** [posixpath.normpath(path)]. *)
Definition normpath (path : string) : string :=
  if String.eqb path "" then "."
  else
    let initial_slashes :=
      if str.startswith path "/" then
        if str.startswith path "//" && negb (str.startswith path "///")
        then 2 else 1
      else 0 in
    let comps := str.split "/" path in
    let new_comps := fold_left (normpath_step initial_slashes) comps [] in
    let path := str.join "/" (rev new_comps) in
    let path :=
      if initial_slashes =? 2 then "//" ++ path
      else if initial_slashes =? 1 then "/" ++ path
      else path in
    if String.eqb path "" then "." else path.

(** [posixpath.dirname(p)]. *)
Definition dirname (p : string) : string :=
  let i := str.rfind "/" p + 1 in
  let head := str.upto i p in
  if negb (String.eqb head "") && negb (String.eqb (str.rstrip_char "/" head) "")
  then str.rstrip_char "/" head else head.

(** The loop of [genericpath._splitext] that skips leading dots: is there a
    character other than a dot among the [n] characters from index [i]? *)
Fixpoint has_stem (p : string) (i : nat) (n : nat) : bool :=
  match n with
  | O => false
  | S n' =>
      match String.get i p with
      | Some c => if Ascii.eqb c "." then has_stem p (S i) n' else true
      | None => true
      end
  end.

(** [posixpath.splitext(p)]: [(root, ext)]. *)
Definition splitext (p : string) : string * string :=
  let sepIndex := str.rfind "/" p in
  let dotIndex := str.rfind "." p in
  if (sepIndex <? dotIndex)
     && has_stem p (Z.to_nat (sepIndex + 1)) (Z.to_nat (dotIndex - (sepIndex + 1)))
  then (str.upto dotIndex p, str.from dotIndex p)
  else (p, "").

End posixpath.

(** ** [html] *)

Module html.

(** [html.escape(s, quote=False)]. *)
Definition escape (s : string) : string :=
  let s := str.replace "&" "&amp;" s in
  let s := str.replace "<" "&lt;" s in
  str.replace ">" "&gt;" s.

End html.

(** ** [urllib.parse] *)

Module urllib_parse.

Definition hexval (c : ascii) : option Z :=
  let n := str.ord c in
  if str.isdigit c then Some (n - 48)
  else if (65 <=? n) && (n <=? 70) then Some (n - 55)
  else if (97 <=? n) && (n <=? 102) then Some (n - 87)
  else None.

Definition chr (n : Z) : ascii := ascii_of_nat (Z.to_nat n).

(** [unquote(s, errors='surrogatepass')]: a ["%"] followed by two
    hexadecimal digits becomes the byte they denote; any other ["%"] stays.
    The decoding of the bytes as UTF-8 is the identity on this
    representation of [str]. *)
Fixpoint unquote (s : string) : string :=
  match s with
  | EmptyString => EmptyString
  | String a s' =>
      if Ascii.eqb a "%" then
        match s' with
        | String h1 (String h2 rest) =>
            match hexval h1, hexval h2 with
            | Some x, Some y => String (chr (16 * x + y)) (unquote rest)
            | _, _ => String a (unquote s')
            end
        | _ => String a (unquote s')
        end
      else String a (unquote s')
  end.

Definition hexdigit (n : Z) : ascii :=
  if n <? 10 then chr (48 + n) else chr (55 + n).

(** [_ALWAYS_SAFE] together with the default [safe='/']. *)
Definition safe (c : ascii) : bool :=
  str.isalpha c || str.isdigit c || str.contains c "_.-~/".

(** [quote(s)]. *)
Fixpoint quote (s : string) : string :=
  match s with
  | EmptyString => EmptyString
  | String a s' =>
      if safe a then String a (quote s')
      else
        let n := str.ord a in
        String "%" (String (hexdigit (n / 16)) (String (hexdigit (n mod 16)) (quote s')))
  end.

Record SplitResult := {
  scheme : string;
  netloc : string;
  path : string;
  query : string;
  fragment : string;
}.

Definition scheme_chars (c : ascii) : bool :=
  str.isalpha c || str.isdigit c || str.contains c "+-.".

Fixpoint all_chars (P : ascii -> bool) (s : string) : bool :=
  match s with
  | EmptyString => true
  | String a s' => P a && all_chars P s'
  end.

(** [_WHATWG_C0_CONTROL_OR_SPACE]. *)
Definition c0_control_or_space (c : ascii) : bool := str.ord c <=? 32.

(** The prefix of [s] before the first of ["/"], ["?"] and ["#"], and the
    rest: the two results of [_splitnetloc] past the leading ["//"]. *)
Fixpoint splitnetloc (s : string) : string * string :=
  match s with
  | EmptyString => (EmptyString, EmptyString)
  | String a s' =>
      if str.contains a "/?#" then (EmptyString, s)
      else let '(n, r) := splitnetloc s' in (String a n, r)
  end.

(** [urlsplit(url)].  The checks by which [urlsplit] raises [ValueError] for
    a malformed host are left out; they apply only when [url] names a host. *)
Definition urlsplit (url : string) : SplitResult :=
  let url := str.lstrip c0_control_or_space url in
  let url := str.remove "009" url in
  let url := str.remove "013" url in
  let url := str.remove "010" url in
  let i := str.find ":" url in
  let '(scheme, url) :=
    if (0 <? i)
       && match url with
          | String c _ => str.isascii c && str.isalpha c
          | EmptyString => false
          end
       && all_chars scheme_chars (str.upto i url)
    then (str.lower (str.upto i url), str.from (i + 1) url)
    else ("", url) in
  let '(netloc, url) :=
    if str.startswith url "//" then splitnetloc (str.from 2 url)
    else ("", url) in
  let '(url, fragment) :=
    if str.contains "#" url then (str.before "#" url, str.after "#" url)
    else (url, "") in
  let '(url, query) :=
    if str.contains "?" url then (str.before "?" url, str.after "?" url)
    else (url, "") in
  {| scheme := scheme; netloc := netloc; path := url;
     query := query; fragment := fragment |}.

Definition uses_netloc : list string :=
  [""; "ftp"; "http"; "gopher"; "nntp"; "telnet"; "imap"; "wais"; "file";
   "mms"; "https"; "shttp"; "snews"; "prospero"; "rtsp"; "rtspu"; "rsync";
   "svn"; "svn+ssh"; "sftp"; "nfs"; "git"; "git+ssh"; "ws"; "wss"].

(** [urlunsplit(parts)]. *)
Definition urlunsplit (parts : SplitResult) : string :=
  let url := path parts in
  let url :=
    if negb (String.eqb (netloc parts) "")
       || (negb (String.eqb (scheme parts) "")
           && bool_decide (scheme parts ∈ uses_netloc)
           && negb (str.startswith url "//"))
    then
      let url :=
        if negb (String.eqb url "") && negb (str.startswith url "/")
        then "/" ++ url else url in
      "//" ++ netloc parts ++ url
    else url in
  let url :=
    if negb (String.eqb (scheme parts) "") then scheme parts ++ ":" ++ url
    else url in
  let url :=
    if negb (String.eqb (query parts) "") then url ++ "?" ++ query parts
    else url in
  if negb (String.eqb (fragment parts) "") then url ++ "#" ++ fragment parts
  else url.

(** [_splittype(url)]: a scheme is a non-empty prefix without ["/"] that a
    colon ends. *)
Definition splittype (url : string) : option string * string :=
  let i := str.find ":" url in
  if (0 <? i) && negb (str.contains "/" (str.upto i url))
  then (Some (str.lower (str.upto i url)), str.from (i + 1) url)
  else (None, url).

End urllib_parse.

(** ** [mimetypes] *)

Module mimetypes.

Definition suffix_map : gmap string string :=
  list_to_map
    [(".svgz", ".svg.gz"); (".tgz", ".tar.gz"); (".taz", ".tar.gz");
     (".tz", ".tar.gz"); (".tbz2", ".tar.bz2"); (".txz", ".tar.xz")].

Definition encodings_map : gmap string string :=
  list_to_map
    [(".gz", "gzip"); (".Z", "compress"); (".bz2", "bzip2"); (".xz", "xz");
     (".br", "br")].

(** The built-in table [_types_map_default] of CPython 3.11.  The table a
    running server consults, [types_map], starts from it and is extended by
    the [mime.types] files of the system, so the file server takes the
    table from the machine it runs on. *)
Definition types_map_default : gmap string string :=
  list_to_map [
    (".js", "application/javascript");
    (".mjs", "application/javascript");
    (".json", "application/json");
    (".webmanifest", "application/manifest+json");
    (".doc", "application/msword");
    (".dot", "application/msword");
    (".wiz", "application/msword");
    (".nq", "application/n-quads");
    (".nt", "application/n-triples");
    (".bin", "application/octet-stream");
    (".a", "application/octet-stream");
    (".dll", "application/octet-stream");
    (".exe", "application/octet-stream");
    (".o", "application/octet-stream");
    (".obj", "application/octet-stream");
    (".so", "application/octet-stream");
    (".oda", "application/oda");
    (".pdf", "application/pdf");
    (".p7c", "application/pkcs7-mime");
    (".ps", "application/postscript");
    (".ai", "application/postscript");
    (".eps", "application/postscript");
    (".trig", "application/trig");
    (".m3u", "application/vnd.apple.mpegurl");
    (".m3u8", "application/vnd.apple.mpegurl");
    (".xls", "application/vnd.ms-excel");
    (".xlb", "application/vnd.ms-excel");
    (".ppt", "application/vnd.ms-powerpoint");
    (".pot", "application/vnd.ms-powerpoint");
    (".ppa", "application/vnd.ms-powerpoint");
    (".pps", "application/vnd.ms-powerpoint");
    (".pwz", "application/vnd.ms-powerpoint");
    (".wasm", "application/wasm");
    (".bcpio", "application/x-bcpio");
    (".cpio", "application/x-cpio");
    (".csh", "application/x-csh");
    (".dvi", "application/x-dvi");
    (".gtar", "application/x-gtar");
    (".hdf", "application/x-hdf");
    (".h5", "application/x-hdf5");
    (".latex", "application/x-latex");
    (".mif", "application/x-mif");
    (".cdf", "application/x-netcdf");
    (".nc", "application/x-netcdf");
    (".p12", "application/x-pkcs12");
    (".pfx", "application/x-pkcs12");
    (".ram", "application/x-pn-realaudio");
    (".pyc", "application/x-python-code");
    (".pyo", "application/x-python-code");
    (".sh", "application/x-sh");
    (".shar", "application/x-shar");
    (".swf", "application/x-shockwave-flash");
    (".sv4cpio", "application/x-sv4cpio");
    (".sv4crc", "application/x-sv4crc");
    (".tar", "application/x-tar");
    (".tcl", "application/x-tcl");
    (".tex", "application/x-tex");
    (".texi", "application/x-texinfo");
    (".texinfo", "application/x-texinfo");
    (".roff", "application/x-troff");
    (".t", "application/x-troff");
    (".tr", "application/x-troff");
    (".man", "application/x-troff-man");
    (".me", "application/x-troff-me");
    (".ms", "application/x-troff-ms");
    (".ustar", "application/x-ustar");
    (".src", "application/x-wais-source");
    (".xsl", "application/xml");
    (".rdf", "application/xml");
    (".wsdl", "application/xml");
    (".xpdl", "application/xml");
    (".zip", "application/zip");
    (".3gp", "audio/3gpp");
    (".3gpp", "audio/3gpp");
    (".3g2", "audio/3gpp2");
    (".3gpp2", "audio/3gpp2");
    (".aac", "audio/aac");
    (".adts", "audio/aac");
    (".loas", "audio/aac");
    (".ass", "audio/aac");
    (".au", "audio/basic");
    (".snd", "audio/basic");
    (".mp3", "audio/mpeg");
    (".mp2", "audio/mpeg");
    (".opus", "audio/opus");
    (".aif", "audio/x-aiff");
    (".aifc", "audio/x-aiff");
    (".aiff", "audio/x-aiff");
    (".ra", "audio/x-pn-realaudio");
    (".wav", "audio/x-wav");
    (".avif", "image/avif");
    (".bmp", "image/bmp");
    (".gif", "image/gif");
    (".ief", "image/ief");
    (".jpg", "image/jpeg");
    (".jpe", "image/jpeg");
    (".jpeg", "image/jpeg");
    (".heic", "image/heic");
    (".heif", "image/heif");
    (".png", "image/png");
    (".svg", "image/svg+xml");
    (".tiff", "image/tiff");
    (".tif", "image/tiff");
    (".ico", "image/vnd.microsoft.icon");
    (".ras", "image/x-cmu-raster");
    (".pnm", "image/x-portable-anymap");
    (".pbm", "image/x-portable-bitmap");
    (".pgm", "image/x-portable-graymap");
    (".ppm", "image/x-portable-pixmap");
    (".rgb", "image/x-rgb");
    (".xbm", "image/x-xbitmap");
    (".xpm", "image/x-xpixmap");
    (".xwd", "image/x-xwindowdump");
    (".eml", "message/rfc822");
    (".mht", "message/rfc822");
    (".mhtml", "message/rfc822");
    (".nws", "message/rfc822");
    (".css", "text/css");
    (".csv", "text/csv");
    (".html", "text/html");
    (".htm", "text/html");
    (".n3", "text/n3");
    (".txt", "text/plain");
    (".bat", "text/plain");
    (".c", "text/plain");
    (".h", "text/plain");
    (".ksh", "text/plain");
    (".pl", "text/plain");
    (".srt", "text/plain");
    (".rtx", "text/richtext");
    (".tsv", "text/tab-separated-values");
    (".vtt", "text/vtt");
    (".py", "text/x-python");
    (".etx", "text/x-setext");
    (".sgm", "text/x-sgml");
    (".sgml", "text/x-sgml");
    (".vcf", "text/x-vcard");
    (".xml", "text/xml");
    (".mp4", "video/mp4");
    (".mpeg", "video/mpeg");
    (".m1v", "video/mpeg");
    (".mpa", "video/mpeg");
    (".mpe", "video/mpeg");
    (".mpg", "video/mpeg");
    (".mov", "video/quicktime");
    (".qt", "video/quicktime");
    (".webm", "video/webm");
    (".avi", "video/x-msvideo");
    (".movie", "video/x-sgi-movie")
  ].

(** The loop [while ext.lower() in suffix_map] of [guess_type].  A value of
    [suffix_map] ends in [".gz"], [".bz2"] or [".xz"], none of them a key,
    so the loop body runs at most once; [fuel] bounds the turns. *)
Fixpoint suffix_loop (fuel : nat) (base ext : string) : string * string :=
  match fuel with
  | O => (base, ext)
  | S fuel' =>
      match suffix_map !! str.lower ext with
      | Some full =>
          let '(base', ext') := posixpath.splitext (base ++ full) in
          suffix_loop fuel' base' ext'
      | None => (base, ext)
      end
  end.

(** [mimetypes.guess_type(url)[0]] over the table [types_map]. *)
Definition guess_type (types_map : gmap string string) (url : string)
    : option string :=
  let '(scheme, url) := urllib_parse.splittype url in
  if bool_decide (scheme = Some "data") then
    let comma := str.find "," url in
    if comma <? 0 then None
    else
      let semi := str.find ";" (str.upto comma url) in
      let type := if 0 <=? semi then str.upto semi url else str.upto comma url in
      if str.contains "=" type || negb (str.contains "/" type)
      then Some "text/plain" else Some type
  else
    let '(base, ext) := posixpath.splitext url in
    let '(base, ext) := suffix_loop 2 base ext in
    let '(base, ext) :=
      if bool_decide (is_Some (encodings_map !! ext))
      then posixpath.splitext base else (base, ext) in
    types_map !! str.lower ext.

End mimetypes.

(** ** The machine: file system, clock and MIME database *)

Module os.

(** What a path names, as [os.stat] sees it, symbolic links followed.  A
    regular file has its bytes and its modification time in whole seconds
    since the epoch; [readable] says whether [open] succeeds for the
    server's user.  A directory has the names [listdir] returns, in the
    order it returns them; [listable] says whether it succeeds. *)
Inductive node :=
  | RegularFile (readable : bool) (data : string) (st_mtime : Z)
  | Directory (listable : bool) (entries : list string).

(** The machine.  [links] holds the paths that are symbolic links; what a
    link leads to, if anything, is in [files] under the link's own path.
    [filesystemencoding] is [sys.getfilesystemencoding()]. *)
Record machine := {
  files : gmap string node;
  links : gset string;
  clock : Z;
  types_map : gmap string string;
  filesystemencoding : string;
}.

(** How a call with a path fails: with [OSError] (no such file, no
    permission and the like), or with [ValueError] for a path that holds a
    NUL character. *)
Inductive error :=
  | OSError
  | ValueError.

Definition NUL : ascii := "000"%char.

(** An open file, with the two fields of [os.fstat] the server reads. *)
Record file_object := {
  content : string;
  st_size : nat;
  f_mtime : Z;
}.

(** Path lookup: [None] stands for the two errors of [os.stat], which
    [isdir] and [isfile] both catch.  [files] is keyed by absolute paths in
    normal form.  A path with a trailing slash names what the path without
    it names, provided that is a directory; the root is ["/"]. *)
Definition stat (m : machine) (p : string) : option node :=
  if str.contains NUL p then None
  else
    let q := str.rstrip_char "/" p in
    if String.eqb q "" then
      if String.eqb p "" then None else files m !! "/"
    else
      match files m !! q with
      | Some (Directory l es) => Some (Directory l es)
      | Some (RegularFile r d t) =>
          if str.endswith p "/" then None else Some (RegularFile r d t)
      | None => None
      end.

Definition isdir (m : machine) (p : string) : bool :=
  match stat m p with
  | Some (Directory _ _) => true
  | _ => false
  end.

Definition isfile (m : machine) (p : string) : bool :=
  match stat m p with
  | Some (RegularFile _ _ _) => true
  | _ => false
  end.

(** [os.path.islink(p)]: [os.lstat] does not follow a link that the path
    ends in, and follows it when a slash comes after. *)
Definition islink (m : machine) (p : string) : bool :=
  negb (str.contains NUL p) && bool_decide (p ∈ links m).

(** [open(p, 'rb')]. *)
Definition open (m : machine) (p : string) : file_object + error :=
  if str.contains NUL p then inr ValueError
  else
    match stat m p with
    | Some (RegularFile true d t) =>
        inl {| content := d; st_size := String.length d; f_mtime := t |}
    | _ => inr OSError
    end.

(** [os.listdir(p)]. *)
Definition listdir (m : machine) (p : string) : list string + error :=
  if str.contains NUL p then inr ValueError
  else
    match stat m p with
    | Some (Directory true es) => inl es
    | _ => inr OSError
    end.

End os.

(** ** [http.server] *)

Module http_server.

Import os.

(** A point in time as [email.utils] reads it off a header: the offset from
    UTC in seconds ([None] for a date without time zone) and the instant in
    seconds since the epoch (a date without time zone being read as UTC). *)
Record datetime := {
  tzinfo : option Z;
  timestamp : Z;
}.

(** The value of a header field.  The textual format of dates is left out:
    a value that [email.utils.parsedate_to_datetime] accepts is the
    [datetime] it parses to, a value that [email.utils.formatdate] prints
    is the [datetime] it prints, and any other value is its text. *)
Inductive hvalue :=
  | Text (s : string)
  | Date (d : datetime).

Inductive line :=
  | StatusLine (version : string) (code : Z) (message : string)
  | Header (keyword : string) (value : hvalue)
  | BlankLine.

(** What [wfile.write] is called with: the flushed header lines of a
    response, or bytes of a body. *)
Inductive chunk :=
  | Lines (ls : list line)
  | Bytes (data : string).

(** A request as [parse_request] leaves it in the handler: the method, the
    path and the version of the request line, and the header fields.  The
    path is [self.path]: of the slashes a request line has at the start of
    its path [parse_request] has kept one.  A request line of two words
    has the version ["HTTP/0.9"]; one of three words has the version it
    names, which can be ["HTTP/0.9"] too. *)
Record request := {
  r_command : string;
  r_path : string;
  r_version : string;
  r_headers : list (string * hvalue);
}.

(** The handler instance, [self]. *)
Record handler := {
  directory : string;
  command : string;
  path : string;
  request_version : string;
  headers : list (string * hvalue);
  close_connection : bool;
  _headers_buffer : list line;
  wfile : list chunk;
}.

Definition set_path (p : string) (self : handler) : handler :=
  {| directory := directory self; command := command self; path := p;
     request_version := request_version self;
     headers := headers self; close_connection := close_connection self;
     _headers_buffer := _headers_buffer self; wfile := wfile self |}.

Definition set_close_connection (b : bool) (self : handler) : handler :=
  {| directory := directory self; command := command self; path := path self;
     request_version := request_version self;
     headers := headers self; close_connection := b;
     _headers_buffer := _headers_buffer self; wfile := wfile self |}.

Definition set_headers_buffer (ls : list line) (self : handler) : handler :=
  {| directory := directory self; command := command self; path := path self;
     request_version := request_version self;
     headers := headers self; close_connection := close_connection self;
     _headers_buffer := ls; wfile := wfile self |}.

(** [self.wfile.write(c)].  The stream is not buffered: every call hands
    its bytes to the socket. *)
Definition write (c : chunk) (self : handler) : handler :=
  {| directory := directory self; command := command self; path := path self;
     request_version := request_version self;
     headers := headers self; close_connection := close_connection self;
     _headers_buffer := _headers_buffer self; wfile := wfile self ++ [c] |}.

(** How a method ends: it returns a value, or an exception leaves it that
    nothing in the handler catches. *)
Inductive outcome (A : Type) : Type :=
  | Return (a : A)
  | Raise (e : error).

Arguments Return {A} a.
Arguments Raise {A} e.

(** [self.headers.get(name)]: field names compare without regard to case. *)
Fixpoint get (name : string) (hs : list (string * hvalue)) : option hvalue :=
  match hs with
  | [] => None
  | (k, v) :: hs' =>
      if String.eqb (str.lower k) (str.lower name) then Some v else get name hs'
  end.

(** [email.utils.parsedate_to_datetime(v)]: [None] stands for the
    exceptions [send_head] catches. *)
Definition parsedate_to_datetime (v : hvalue) : option datetime :=
  match v with
  | Date d => Some d
  | Text _ => None
  end.

Definition nl : string := String "010" EmptyString.

(** [repr(s)] for a string of printable characters without quotes. *)
Definition repr (s : string) : string := "'" ++ s ++ "'".

Module BaseHTTPRequestHandler.

Definition protocol_version : string := "HTTP/1.0".
Definition sys_version : string := "Python/3.11.2".

(** The entries of [responses] for the codes the file server sends. *)
Definition responses (code : Z) : option (string * string) :=
  if code =? 200 then Some ("OK", "Request fulfilled, document follows")
  else if code =? 301
  then Some ("Moved Permanently", "Object moved permanently -- see URI list")
  else if code =? 304
  then Some ("Not Modified", "Document has not changed since given time")
  else if code =? 404 then Some ("Not Found", "Nothing matches the given URI")
  else if code =? 501
  then Some ("Not Implemented", "Server does not support this operation")
  else None.

(** [DEFAULT_ERROR_MESSAGE % {code, message, explain}]. *)
Definition error_message_format (code : Z) (message explain : string) : string :=
  let c := str.of_nat (Z.to_nat code) in
  str.join nl
    [ "<!DOCTYPE HTML>";
      "<html lang=" ++ str.dq ++ "en" ++ str.dq ++ ">";
      "    <head>";
      "        <meta charset=" ++ str.dq ++ "utf-8" ++ str.dq ++ ">";
      "        <title>Error response</title>";
      "    </head>";
      "    <body>";
      "        <h1>Error response</h1>";
      "        <p>Error code: " ++ c ++ "</p>";
      "        <p>Message: " ++ message ++ ".</p>";
      "        <p>Error code explanation: " ++ c ++ " - " ++ explain ++ ".</p>";
      "    </body>";
      "</html>";
      "" ].

Definition error_content_type : string := "text/html;charset=utf-8".

(** [self.date_time_string(timestamp)]. *)
Definition date_time_string (t : Z) : hvalue :=
  Date {| tzinfo := Some 0; timestamp := t |}.

(** The test [self.request_version != 'HTTP/0.9'], under which the three
    methods below write header lines. *)
Definition has_headers (self : handler) : bool :=
  negb (String.eqb (request_version self) "HTTP/0.9").

(** [send_response_only(code, message)]. *)
Definition send_response_only (code : Z) (message : option string)
    (self : handler) : handler :=
  if has_headers self then
    let message :=
      match message with
      | Some msg => msg
      | None =>
          match responses code with
          | Some (shortmsg, _) => shortmsg
          | None => ""
          end
      end in
    set_headers_buffer
      (_headers_buffer self ++ [StatusLine protocol_version code message]) self
  else self.

(** [send_header(keyword, value)]. *)
Definition send_header (keyword : string) (value : hvalue) (self : handler)
    : handler :=
  let self :=
    if has_headers self
    then set_headers_buffer (_headers_buffer self ++ [Header keyword value]) self
    else self in
  if String.eqb (str.lower keyword) "connection" then
    match value with
    | Text v =>
        if String.eqb (str.lower v) "close" then set_close_connection true self
        else if String.eqb (str.lower v) "keep-alive"
        then set_close_connection false self
        else self
    | Date _ => self
    end
  else self.

(** [flush_headers()]. *)
Definition flush_headers (self : handler) : handler :=
  let self := write (Lines (_headers_buffer self)) self in
  set_headers_buffer [] self.

(** [end_headers()]. *)
Definition end_headers (self : handler) : handler :=
  if has_headers self then
    let self := set_headers_buffer (_headers_buffer self ++ [BlankLine]) self in
    flush_headers self
  else self.

(** [send_response(code, message)]. *)
Definition send_response (server_version : string) (m : machine) (code : Z)
    (message : option string) (self : handler) : handler :=
  let self := send_response_only code message self in
  let self :=
    send_header "Server" (Text (server_version ++ " " ++ sys_version)) self in
  send_header "Date" (date_time_string (clock m)) self.

(** [send_error(code, message)]. *)
Definition send_error (server_version : string) (m : machine) (code : Z)
    (message : option string) (self : handler) : handler :=
  let '(shortmsg, longmsg) :=
    match responses code with
    | Some r => r
    | None => ("???", "???")
    end in
  let message := default shortmsg message in
  let explain := longmsg in
  let self := send_response server_version m code (Some message) self in
  let self := send_header "Connection" (Text "close") self in
  let body :=
    if (200 <=? code)
       && negb ((code =? 204) || (code =? 205) || (code =? 304))
    then Some (error_message_format code (html.escape message) (html.escape explain))
    else None in
  let self :=
    match body with
    | Some b =>
        let self := send_header "Content-Type" (Text error_content_type) self in
        send_header "Content-Length" (Text (str.of_nat (String.length b))) self
    | None => self
    end in
  let self := end_headers self in
  match body with
  | Some b =>
      if negb (String.eqb (command self) "HEAD") && negb (String.eqb b "")
      then write (Bytes b) self else self
  | None => self
  end.

End BaseHTTPRequestHandler.

Module SimpleHTTPRequestHandler.

Import BaseHTTPRequestHandler.

Definition server_version : string := "SimpleHTTP/0.6".

Definition extensions_map : gmap string string :=
  list_to_map
    [(".gz", "application/gzip"); (".Z", "application/octet-stream");
     (".bz2", "application/x-bzip2"); (".xz", "application/x-xz")].

(** [guess_type(path)]. *)
Definition guess_type (m : machine) (p : string) : string :=
  let '(base, ext) := posixpath.splitext p in
  match extensions_map !! ext with
  | Some t => t
  | None =>
      let ext := str.lower ext in
      match extensions_map !! ext with
      | Some t => t
      | None =>
          match mimetypes.guess_type (types_map m) p with
          | Some guess => if String.eqb guess "" then "application/octet-stream" else guess
          | None => "application/octet-stream"
          end
      end
  end.

(** The body of the loop [for word in words] of [translate_path]. *)
Definition translate_step (fspath word : string) : string :=
  if negb (String.eqb (posixpath.dirname word) "")
     || String.eqb word "." || String.eqb word ".."
  then fspath
  else posixpath.join fspath word.

(** [translate_path(path)].  [unquote(path, errors='surrogatepass')] does
    not fail on the escapes of ASCII characters, for which the model is
    exact. *)
Definition translate_path (self : handler) (p : string) : string :=
  let p := str.before "?" p in
  let p := str.before "#" p in
  let trailing_slash := str.endswith (str.rstrip p) "/" in
  let p := urllib_parse.unquote p in
  let p := posixpath.normpath p in
  let words := str.split "/" p in
  let words := List.filter (fun w => negb (String.eqb w "")) words in
  let fspath := fold_left translate_step words (directory self) in
  if trailing_slash then fspath ++ "/" else fspath.

(** [list.sort(key=lambda a: a.lower())]: a stable sort by insertion. *)
Fixpoint insert_by_lower (x : string) (l : list string) : list string :=
  match l with
  | [] => [x]
  | y :: l' =>
      if String.leb (str.lower x) (str.lower y) then x :: l
      else y :: insert_by_lower x l'
  end.

Definition sort_by_lower (l : list string) : list string :=
  fold_right insert_by_lower [] l.

(** One turn of the loop [for name in list] of [list_directory]: a slash
    after the name of a directory, an [@] after the name of a symbolic
    link; a link to a directory is shown with the [@] and linked with the
    slash. *)
Definition list_item (m : machine) (fspath name : string) : string :=
  let fullname := posixpath.join fspath name in
  let '(displayname, linkname) :=
    if isdir m fullname then (name ++ "/", name ++ "/") else (name, name) in
  let displayname := if islink m fullname then name ++ "@" else displayname in
  "<li><a href=" ++ str.dq ++ urllib_parse.quote linkname ++ str.dq ++ ">"
    ++ html.escape displayname ++ "</a></li>".

(** [list_directory(path)].  The page is encoded in the file system
    encoding, in which an ASCII character is the byte of its code. *)
Definition list_directory (m : machine) (fspath : string) (self : handler)
    : outcome (option file_object) * handler :=
  match listdir m fspath with
  | inr OSError =>
      (Return None,
       send_error server_version m 404 (Some "No permission to list directory") self)
  | inr ValueError => (Raise ValueError, self)
  | inl names =>
      let names := sort_by_lower names in
      let displaypath := html.escape (urllib_parse.unquote (path self)) in
      let enc := filesystemencoding m in
      let title := "Directory listing for " ++ displaypath in
      let r :=
        app
        [ "<!DOCTYPE HTML>";
          "<html lang=" ++ str.dq ++ "en" ++ str.dq ++ ">";
          "<head>";
          "<meta charset=" ++ str.dq ++ enc ++ str.dq ++ ">";
          "<title>" ++ title ++ "</title>" ++ nl ++ "</head>";
          "<body>" ++ nl ++ "<h1>" ++ title ++ "</h1>";
          "<hr>" ++ nl ++ "<ul>" ]
        (app (List.map (list_item m fspath) names)
             [ "</ul>" ++ nl ++ "<hr>" ++ nl ++ "</body>" ++ nl ++ "</html>" ++ nl ]) in
      let encoded := str.join nl r in
      let f :=
        {| content := encoded; st_size := String.length encoded;
           f_mtime := clock m |} in
      let self := send_response server_version m 200 None self in
      let self :=
        send_header "Content-type" (Text ("text/html; charset=" ++ enc)) self in
      let self :=
        send_header "Content-Length" (Text (str.of_nat (String.length encoded))) self in
      (Return (Some f), end_headers self)
  end.

(** The test of [send_head] for a copy the client already has: the request
    carries [If-Modified-Since] and no [If-None-Match], the date is well
    formed and in UTC, and the file is not newer. *)
Definition not_modified (self : handler) (f : file_object) : bool :=
  match get "If-Modified-Since" (headers self), get "If-None-Match" (headers self) with
  | Some v, None =>
      match parsedate_to_datetime v with
      | None => false
      | Some ims =>
          let tz := default 0 (tzinfo ims) in
          (tz =? 0) && (f_mtime f <=? timestamp ims)
      end
  | _, _ => false
  end.

(** The second half of [send_head], from [ctype = self.guess_type(path)]
    on: the file at [fspath] is opened and the headers for it are sent.
    [open] is inside [try ... except OSError]: a [ValueError] leaves
    [send_head] before anything is written. *)
Definition send_head_file (m : machine) (self : handler) (fspath : string)
    : outcome (option file_object) * handler :=
  let ctype := guess_type m fspath in
  if str.endswith fspath "/" then
    (Return None, send_error server_version m 404 (Some "File not found") self)
  else
    match open m fspath with
    | inr OSError =>
        (Return None, send_error server_version m 404 (Some "File not found") self)
    | inr ValueError => (Raise ValueError, self)
    | inl f =>
        if not_modified self f then
          let self := send_response server_version m 304 None self in
          (Return None, end_headers self)
        else
          let self := send_response server_version m 200 None self in
          let self := send_header "Content-type" (Text ctype) self in
          let self :=
            send_header "Content-Length" (Text (str.of_nat (st_size f))) self in
          let self :=
            send_header "Last-Modified" (date_time_string (f_mtime f)) self in
          (Return (Some f), end_headers self)
    end.

(** [send_head()].  The first half deals with a directory: a redirect, an
    index file to send in its place, or the listing. *)
Definition send_head (m : machine) (self : handler)
    : outcome (option file_object) * handler :=
  let fspath := translate_path self (path self) in
  if isdir m fspath then
    let parts := urllib_parse.urlsplit (path self) in
    if negb (str.endswith (urllib_parse.path parts) "/") then
      let self := send_response server_version m 301 None self in
      let new_parts :=
        {| urllib_parse.scheme := urllib_parse.scheme parts;
           urllib_parse.netloc := urllib_parse.netloc parts;
           urllib_parse.path := urllib_parse.path parts ++ "/";
           urllib_parse.query := urllib_parse.query parts;
           urllib_parse.fragment := urllib_parse.fragment parts |} in
      let new_url := urllib_parse.urlunsplit new_parts in
      let self := send_header "Location" (Text new_url) self in
      let self := send_header "Content-Length" (Text "0") self in
      (Return None, end_headers self)
    else if isfile m (posixpath.join fspath "index.html")
    then send_head_file m self (posixpath.join fspath "index.html")
    else if isfile m (posixpath.join fspath "index.htm")
    then send_head_file m self (posixpath.join fspath "index.htm")
    else list_directory m fspath self
  else send_head_file m self fspath.

(** [shutil.COPY_BUFSIZE], where the server does not run on Windows. *)
Definition COPY_BUFSIZE : Z := 64 * 1024.

(** [fsrc.read(length)] on what is left of a file: the bytes read, and what
    is left after them. *)
Fixpoint read (length : Z) (fsrc : string) : string * string :=
  match fsrc with
  | EmptyString => (EmptyString, EmptyString)
  | String a rest =>
      if length <=? 0 then (EmptyString, fsrc)
      else let '(buf, rest) := read (length - 1) rest in (String a buf, rest)
  end.

(** [shutil.copyfileobj(fsrc, fdst)] onto [self.wfile]: the loop reads and
    writes until a read gives nothing.  Every turn but the last takes bytes
    off the file, so the loop has ended when [fuel] is more than the number
    of bytes. *)
Fixpoint copyfileobj (fuel : nat) (fsrc : string) (self : handler) : handler :=
  match fuel with
  | O => self
  | S fuel' =>
      let '(buf, rest) := read COPY_BUFSIZE fsrc in
      if String.eqb buf "" then self
      else copyfileobj fuel' rest (write (Bytes buf) self)
  end.

(** [copyfile(source, outputfile)]. *)
Definition copyfile (f : file_object) (self : handler) : handler :=
  copyfileobj (S (String.length (content f))) (content f) self.

(** [do_GET()]. *)
Definition do_GET (m : machine) (self : handler) : outcome unit * handler :=
  match send_head m self with
  | (Return (Some f), self) => (Return tt, copyfile f self)
  | (Return None, self) => (Return tt, self)
  | (Raise e, self) => (Raise e, self)
  end.

(** [do_HEAD()]. *)
Definition do_HEAD (m : machine) (self : handler) : outcome unit * handler :=
  match send_head m self with
  | (Return _, self) => (Return tt, self)
  | (Raise e, self) => (Raise e, self)
  end.

(** A handler class, as far as the server uses it: the class attribute
    [server_version] and the lookup of a method by its name, which is what
    [hasattr] and [getattr] do in [handle_one_request]. *)
Record handler_class := {
  cls_server_version : string;
  getattr : string -> option (machine -> handler -> outcome unit * handler);
}.

Definition class : handler_class :=
  {| cls_server_version := server_version;
     getattr := fun mname =>
       if String.eqb mname "do_GET" then Some do_GET
       else if String.eqb mname "do_HEAD" then Some do_HEAD
       else None |}.

End SimpleHTTPRequestHandler.

Abbreviation handler_class := SimpleHTTPRequestHandler.handler_class.
Abbreviation getattr := SimpleHTTPRequestHandler.getattr.
Abbreviation cls_server_version := SimpleHTTPRequestHandler.cls_server_version.

(** [handle_one_request()], from the dispatch on: the request line and the
    header fields have been parsed into [self]. *)
Definition handle_one_request (cls : handler_class) (m : machine)
    (self : handler) : outcome unit * handler :=
  let mname := "do_" ++ command self in
  match getattr cls mname with
  | None =>
      (Return tt,
       BaseHTTPRequestHandler.send_error (cls_server_version cls) m 501
         (Some ("Unsupported method (" ++ repr (command self) ++ ")")) self)
  | Some method => method m self
  end.

(** The handler instance the server creates for a connection;
    [SimpleHTTPRequestHandler.__init__] sets [directory] to [os.getcwd()]. *)
Definition new_handler (cwd : string) (r : request) : handler :=
  {| directory := cwd; command := r_command r; path := r_path r;
     request_version := r_version r;
     headers := r_headers r; close_connection := true;
     _headers_buffer := []; wfile := [] |}.

(** What the client of one connection receives: what was written when the
    method returned, or when an exception left it.  The server reports the
    exception on standard error, closes the connection and goes on. *)
Definition handle (cls : handler_class) (m : machine) (cwd : string)
    (r : request) : list chunk :=
  wfile (handle_one_request cls m (new_handler cwd r)).2.

(** *** Reading a response *)

Fixpoint first_status (ls : list line) : option Z :=
  match ls with
  | [] => None
  | StatusLine _ code _ :: _ => Some code
  | _ :: ls' => first_status ls'
  end.

Fixpoint first_header (name : string) (ls : list line) : option hvalue :=
  match ls with
  | [] => None
  | Header k v :: ls' =>
      if String.eqb (str.lower k) (str.lower name) then Some v
      else first_header name ls'
  | _ :: ls' => first_header name ls'
  end.

(** The status code of a response. *)
Fixpoint status (w : list chunk) : option Z :=
  match w with
  | [] => None
  | Lines ls :: _ => first_status ls
  | Bytes _ :: w' => status w'
  end.

(** The value of a header field of a response. *)
Fixpoint header (name : string) (w : list chunk) : option hvalue :=
  match w with
  | [] => None
  | Lines ls :: _ => first_header name ls
  | Bytes _ :: w' => header name w'
  end.

(** The body of a response: the bytes written after the header lines. *)
Fixpoint body (w : list chunk) : string :=
  match w with
  | [] => EmptyString
  | Lines _ :: w' => body w'
  | Bytes d :: w' => d ++ body w'
  end.

End http_server.

(** ** The process: sockets, output and the interpreter's exit *)

Module socketserver.

Import os http_server.

(** A socket address: host and port.  The host [""] is every interface. *)
Definition address : Type := string * Z.

Inductive exception :=
  | OSError (errno : Z) (strerror : string)
  | KeyboardInterrupt
  | SystemExit (code : Z).

Inductive syscall :=
  | Chdir (d : string)
  | Bind (a : address) (ok : bool)
  | Listen (a : address)
  | Close (a : address).

(** The state a script runs in and changes: its working directory, the
    addresses on which some process of the machine listens, what it has
    printed, the responses it has sent and the system calls it has made. *)
Record world := {
  cwd : string;
  listening : gset address;
  stdout : list string;
  stderr : list string;
  sent : list (list chunk);
  trace : list syscall;
}.

Definition set_cwd (d : string) (w : world) : world :=
  {| cwd := d; listening := listening w; stdout := stdout w;
     stderr := stderr w; sent := sent w; trace := trace w ++ [Chdir d] |}.

Definition set_listening (l : gset address) (calls : list syscall) (w : world)
    : world :=
  {| cwd := cwd w; listening := l; stdout := stdout w;
     stderr := stderr w; sent := sent w; trace := trace w ++ calls |}.

(** [print(s)]. *)
Definition print (s : string) (w : world) : world :=
  {| cwd := cwd w; listening := listening w; stdout := stdout w ++ [s];
     stderr := stderr w; sent := sent w; trace := trace w |}.

Definition eprint (s : string) (w : world) : world :=
  {| cwd := cwd w; listening := listening w; stdout := stdout w;
     stderr := stderr w ++ [s]; sent := sent w; trace := trace w |}.

Definition send (resp : list chunk) (w : world) : world :=
  {| cwd := cwd w; listening := listening w; stdout := stdout w;
     stderr := stderr w; sent := sent w ++ [resp]; trace := trace w |}.

Record TCPServer := {
  server_address : address;
  RequestHandlerClass : handler_class;
}.

(** Two addresses cannot both be bound: the same port, and the same host or
    every interface on one side ([allow_reuse_address] is [False]). *)
Definition conflicts (a b : address) : bool :=
  (a.2 =? b.2) && (String.eqb a.1 b.1 || String.eqb a.1 "" || String.eqb b.1 "").

Definition address_in_use (w : world) (a : address) : bool :=
  bool_decide (set_Exists (fun b => conflicts a b = true) (listening w)).

Definition EADDRINUSE : Z := 98.

(** [TCPServer(server_address, RequestHandlerClass)]: [server_bind] and
    [server_activate].  When [bind] fails the constructor closes its
    socket, which was never bound, and raises the error again. *)
Definition TCPServer_init (a : address) (cls : handler_class) (w : world)
    : (TCPServer + exception) * world :=
  if address_in_use w a then
    (inr (OSError EADDRINUSE "Address already in use"),
     set_listening (listening w) [Bind a false] w)
  else
    (inl {| server_address := a; RequestHandlerClass := cls |},
     set_listening ({[ a ]} ∪ listening w) [Bind a true; Listen a] w).

(** [server_close()]. *)
Definition server_close (httpd : TCPServer) (w : world) : world :=
  set_listening (listening w ∖ {[ server_address httpd ]})
    [Close (server_address httpd)] w.

(** What reaches the process while it is in [serve_forever]: a connection
    with its request, or the interrupt signal, on which Python raises
    [KeyboardInterrupt] in the main thread. *)
Inductive event :=
  | Connection (r : request)
  | SIGINT.

(** [serve_forever()] over the events that arrive.  A connection is served
    by a new handler instance; one request is read from it, the protocol
    being HTTP/1.0.  [None] means that the loop is still waiting when the
    events end. *)
Fixpoint serve_forever (m : machine) (httpd : TCPServer) (evs : list event)
    (w : world) : option exception * world :=
  match evs with
  | [] => (None, w)
  | Connection r :: evs' =>
      serve_forever m httpd evs'
        (send (handle (RequestHandlerClass httpd) m (cwd w) r) w)
  | SIGINT :: _ => (Some KeyboardInterrupt, w)
  end.

(** How the process ends: an exit status, death by a signal, or not yet. *)
Inductive termination :=
  | Exited (status : Z)
  | Killed (signal : Z)
  | Serving.

(** What CPython 3.11 does with an exception no handler caught:
    [SystemExit(code)] exits with [code]; [KeyboardInterrupt] prints the
    traceback and ends the process by the interrupt signal; any other
    exception prints the traceback and exits with status 1.  Of the
    traceback the last line is kept. *)
Definition uncaught (e : exception) (w : world) : termination * world :=
  match e with
  | SystemExit code => (Exited code, w)
  | KeyboardInterrupt => (Killed 2, eprint "KeyboardInterrupt" w)
  | OSError errno strerror =>
      (Exited 1,
       eprint ("OSError: [Errno " ++ str.of_nat (Z.to_nat errno) ++ "] " ++ strerror) w)
  end.

End socketserver.

(** ** [serve-test.py] *)

Module serve_test.

Import os http_server socketserver.

Definition PORT : Z := 8000.

Module MyHandler.

(** The first statement of [do_GET]:
    [if self.path == '/': self.path = '/test-claude-ui.html']. *)
Definition default_to_test_page (self : handler) : handler :=
  if String.eqb (path self) "/" then set_path "/test-claude-ui.html" self
  else self.

(** [MyHandler.do_GET]: that statement, then the parent class's method. *)
Definition do_GET (m : machine) (self : handler) : outcome unit * handler :=
  let self := default_to_test_page self in
  SimpleHTTPRequestHandler.do_GET m self.

(** [class MyHandler(http.server.SimpleHTTPRequestHandler)]: [do_GET] is
    the method above, every other attribute is the base class's. *)
Definition class : handler_class :=
  {| cls_server_version := cls_server_version SimpleHTTPRequestHandler.class;
     getattr := fun mname =>
       if String.eqb mname "do_GET" then Some do_GET
       else getattr SimpleHTTPRequestHandler.class mname |}.

End MyHandler.

Definition Handler : handler_class := MyHandler.class.

(** The banner the script prints. *)
Definition banner : string :=
  str.join nl
    [ "";
      "┌──────────────────────────────────────────────────────┐";
      "│                                                      │";
      "│   Simple Test Server for Claude 3.7 Sonnet UI        │";
      "│                                                      │";
      "│   URL: http://localhost:" ++ str.of_nat (Z.to_nat PORT) ++ "                         │";
      "│                                                      │";
      "│   This server has NO dependencies and serves         │";
      "│   the standalone test HTML UI.                       │";
      "│                                                      │";
      "└──────────────────────────────────────────────────────┘";
      "" ].

(** The script.  [script_dir] is [os.path.dirname(os.path.abspath(__file__))]. *)
Definition main (m : machine) (script_dir : string) (evs : list event)
    (w : world) : termination * world :=
  let w := set_cwd script_dir w in
  match TCPServer_init ("", PORT) Handler w with
  | (inr e, w) => uncaught e w
  | (inl httpd, w) =>
      let w := print banner w in
      match serve_forever m httpd evs w with
      | (Some KeyboardInterrupt, w) =>
          let w := print (nl ++ "Server stopped by user") w in
          let w := server_close httpd w in
          uncaught (SystemExit 0) w
      | (Some e, w) => uncaught e w
      | (None, w) => (Serving, w)
      end
  end.

End serve_test.

(** ** [simple-server.py] *)

Module simple_server.

Import os http_server socketserver.

Definition PORT : Z := 8000.

Definition handler : handler_class := SimpleHTTPRequestHandler.class.

(** The script.  Leaving the [with] block, also by an exception, calls
    [httpd.__exit__], which is [server_close]. *)
Definition main (m : machine) (evs : list event) (w : world)
    : termination * world :=
  match TCPServer_init ("", PORT) handler w with
  | (inr e, w) => uncaught e w
  | (inl httpd, w) =>
      let w := print ("Server running at http://localhost:" ++ str.of_nat (Z.to_nat PORT)) w in
      let w := print "Press Ctrl+C to stop" w in
      match serve_forever m httpd evs w with
      | (Some e, w) =>
          let w := server_close httpd w in
          uncaught e w
      | (None, w) => (Serving, w)
      end
  end.

End simple_server.

(** * Properties *)

Import os http_server socketserver.

(** ** Vocabulary *)

(** *** Handlers and responses *)

(** What no method of the handler changes: the request and the root. *)
Definition same_request (a b : handler) : Prop :=
  directory a = directory b /\ command a = command b /\ path a = path b
  /\ headers a = headers b /\ request_version a = request_version b.

(** A handler that has sent nothing yet. *)
Definition unsent (self : handler) : Prop :=
  _headers_buffer self = [] /\ wfile self = [].

(** A handler that has sent nothing yet, for a request whose answer has
    header lines: one of any version but HTTP/0.9. *)
Definition fresh (self : handler) : Prop :=
  unsent self /\ BaseHTTPRequestHandler.has_headers self = true.

(** What [end_headers] writes of the lines [ls]: one block, or nothing when
    the answer has no header lines. *)
Definition block (h : bool) (ls : list line) : list chunk :=
  if h then [Lines ls] else [].

(** The writes of [copyfileobj] for the bytes [s]: the results of
    [read(COPY_BUFSIZE)] before the empty one. *)
Fixpoint reads (fuel : nat) (s : string) : list string :=
  match fuel with
  | O => []
  | S fuel' =>
      let '(buf, rest) := SimpleHTTPRequestHandler.read SimpleHTTPRequestHandler.COPY_BUFSIZE s in
      if String.eqb buf "" then [] else buf :: reads fuel' rest
  end.

Definition blocks (s : string) : list chunk :=
  List.map Bytes (reads (S (String.length s)) s).

(** The lines that open every response of the file server. *)
Definition opening (m : machine) (code : Z) (reason : string) : list line :=
  [ StatusLine "HTTP/1.0" code reason;
    Header "Server" (Text "SimpleHTTP/0.6 Python/3.11.2");
    Header "Date" (BaseHTTPRequestHandler.date_time_string (clock m)) ].

(** The reason phrase of a status line. *)
Definition reason_of (code : Z) (msg : option string) : string :=
  match msg with
  | Some t => t
  | None =>
      match BaseHTTPRequestHandler.responses code with
      | Some (shortmsg, _) => shortmsg
      | None => ""
      end
  end.

(** What [send_head] writes for a file it sends. *)
Definition file_head (m : machine) (ctype : string) (f : file_object)
    : list line :=
  [ StatusLine "HTTP/1.0" 200 "OK";
    Header "Server" (Text "SimpleHTTP/0.6 Python/3.11.2");
    Header "Date" (BaseHTTPRequestHandler.date_time_string (clock m));
    Header "Content-type" (Text ctype);
    Header "Content-Length" (Text (str.of_nat (st_size f)));
    Header "Last-Modified" (BaseHTTPRequestHandler.date_time_string (f_mtime f));
    BlankLine ].

(** The 404 page of [send_head]. *)
Definition not_found_page : string :=
  Eval vm_compute in
    BaseHTTPRequestHandler.error_message_format 404 "File not found"
      "Nothing matches the given URI".

(** What [send_error(404, "File not found")] writes first. *)
Definition not_found_head (m : machine) : list line :=
  [ StatusLine "HTTP/1.0" 404 "File not found";
    Header "Server" (Text "SimpleHTTP/0.6 Python/3.11.2");
    Header "Date" (BaseHTTPRequestHandler.date_time_string (clock m));
    Header "Connection" (Text "close");
    Header "Content-Type" (Text "text/html;charset=utf-8");
    Header "Content-Length" (Text "335");
    BlankLine ].

(** The client holds a copy that is still good: the request has an
    [If-Modified-Since] date in UTC, no [If-None-Match], and the file was
    not modified after that date. *)
Definition holds_copy (hs : list (string * hvalue)) (mtime : Z) : Prop :=
  exists d, get "If-Modified-Since" hs = Some (Date d)
            /\ get "If-None-Match" hs = None
            /\ default 0 (tzinfo d) = 0
            /\ mtime <= timestamp d.

(** A time that [datetime] holds: one of the years 1 to 9999.  For the
    times outside them [email.utils.formatdate] raises [ValueError]; the
    properties about a response are stated for a clock and for file times
    within them, where [date_time_string] is exact. *)
Definition in_years (t : Z) : bool :=
  (-62135596800 <=? t) && (t <=? 253402300799).

(** The path [MyHandler] and its parent hand to the static file code for
    the request path [p]. *)
Definition resolved (cls : handler_class) (p : string) : string -> Prop :=
  fun q =>
    (cls = simple_server.handler /\ q = p)
    \/ (cls = serve_test.Handler
        /\ q = if String.eqb p "/" then "/test-claude-ui.html" else p).

(** *** Paths *)

(** Text in ASCII. *)
Definition is_ascii (s : string) : bool := urllib_parse.all_chars str.isascii s.

(** A character that stands for itself in a request path: an ASCII
    character that is no separator of the path, the query or the fragment,
    no escape and no white space. *)
Definition plain_char (c : ascii) : bool :=
  str.isascii c && negb (str.contains c "/?#%") && negb (str.isspace c).

(** A name of one file or directory, made of plain characters. *)
Definition plain_name (w : string) : bool :=
  negb (String.eqb w "") && negb (String.eqb w ".") && negb (String.eqb w "..")
  && urllib_parse.all_chars plain_char w.

(** The request path for the names [ws]: ["/a/b/c"] for [["a"; "b"; "c"]]. *)
Definition url_of (ws : list string) : string := "/" ++ str.join "/" ws.

(** The file system path for the names [ws] under [root]. *)
Definition under (root : string) (ws : list string) : string :=
  fold_left posixpath.join ws root.



(** *** Content types *)

(** The extension of a path, as [guess_type] takes it. *)
Definition extension (p : string) : string := (posixpath.splitext p).2.

(** A stem with a character that is no dot. *)
Definition has_name_char (stem : string) : bool :=
  negb (urllib_parse.all_chars (fun c => Ascii.eqb c ".") stem).

(** An extension that none of the special tables knows: not one of the
    handler's own [extensions_map], no abbreviation of [suffix_map] and no
    encoding of [encodings_map]. *)
Definition ordinary (e : string) : bool :=
  bool_decide (SimpleHTTPRequestHandler.extensions_map !! e = None)
  && bool_decide (SimpleHTTPRequestHandler.extensions_map !! str.lower e = None)
  && bool_decide (mimetypes.suffix_map !! str.lower e = None)
  && bool_decide (mimetypes.encodings_map !! e = None).

(** The type a table gives for an extension, with the fallback. *)
Definition from_table (types_map : gmap string string) (e : string) : string :=
  match types_map !! str.lower e with
  | Some t => if String.eqb t "" then "application/octet-stream" else t
  | None => "application/octet-stream"
  end.

(** The abbreviations of [mimetypes.suffix_map], in lower case, with the
    extension each stands for once the compression is taken off. *)
Definition abbreviations : list (string * string) :=
  [ (".svgz", ".svg"); (".tgz", ".tar"); (".taz", ".tar"); (".tz", ".tar");
    (".tbz2", ".tar"); (".txz", ".tar") ].

(** *** The process *)

(** The requests of the connections that arrive before the first interrupt. *)
Fixpoint served (evs : list event) : list request :=
  match evs with
  | Connection r :: evs' => r :: served evs'
  | _ => []
  end.

(** Does an interrupt arrive? *)
Definition interrupted (evs : list event) : bool :=
  existsb (fun e => match e with SIGINT => true | Connection _ => false end) evs.

(** *** Answers *)

(** The page [send_error] sends for a code and a message. *)
Definition error_page (code : Z) (message : string) : string :=
  BaseHTTPRequestHandler.error_message_format code (html.escape message)
    (html.escape
       match BaseHTTPRequestHandler.responses code with
       | Some (_, longmsg) => longmsg
       | None => "???"
       end).

(** The header lines [send_error] writes before it. *)
Definition error_head (m : machine) (code : Z) (message : string) : list line :=
  (opening m code message
   ++ [ Header "Connection" (Text "close");
        Header "Content-Type" (Text "text/html;charset=utf-8");
        Header "Content-Length" (Text (str.of_nat (String.length (error_page code message))));
        BlankLine ])%list.

(** What the client receives of an error: the header lines when the answer
    has them ([h]), and the page, which is left out of the answer to a HEAD
    request. *)
Definition error_reply (m : machine) (h : bool) (command : string) (code : Z)
    (message : string) : list chunk :=
  (block h (error_head m code message)
   ++ if String.eqb command "HEAD" then [] else [Bytes (error_page code message)])%list.

(** The header lines of the other answers of [send_head]. *)
Definition listing_head (m : machine) (page : string) : list line :=
  (opening m 200 "OK"
   ++ [ Header "Content-type" (Text ("text/html; charset=" ++ filesystemencoding m));
        Header "Content-Length" (Text (str.of_nat (String.length page)));
        BlankLine ])%list.

Definition redirect_head (m : machine) (location : string) : list line :=
  (opening m 301 "Moved Permanently"
   ++ [ Header "Location" (Text location);
        Header "Content-Length" (Text "0");
        BlankLine ])%list.

Definition not_modified_head (m : machine) : list line :=
  (opening m 304 "Not Modified" ++ [BlankLine])%list.

(** How [send_head] can end and what it has written then: a file and its
    header lines, a listing and its header lines, a redirect, the answer to
    a client that holds a good copy, a 404 error, or a [ValueError] before
    anything was written. *)
Inductive answer (m : machine) (h : bool) (command : string)
    : outcome (option file_object) -> list chunk -> Prop :=
  | answer_file ctype f :
      st_size f = String.length (content f) ->
      answer m h command (Return (Some f)) (block h (file_head m ctype f))
  | answer_listing f :
      st_size f = String.length (content f) ->
      answer m h command (Return (Some f)) (block h (listing_head m (content f)))
  | answer_redirect location :
      answer m h command (Return None) (block h (redirect_head m location))
  | answer_not_modified :
      answer m h command (Return None) (block h (not_modified_head m))
  | answer_error message :
      answer m h command (Return None) (error_reply m h command 404 message)
  | answer_raise :
      answer m h command (Raise ValueError) [].

(** What the client receives when [send_head] goes on with the file at
    [fspath] and [do_GET] copies it. *)
Definition file_reply (m : machine) (self : handler) (fspath : string)
    : list chunk :=
  let h := BaseHTTPRequestHandler.has_headers self in
  if str.endswith fspath "/"
  then error_reply m h (command self) 404 "File not found"
  else match open m fspath with
       | inr os.OSError => error_reply m h (command self) 404 "File not found"
       | inr ValueError => []
       | inl f =>
           if SimpleHTTPRequestHandler.not_modified self f
           then block h (not_modified_head m)
           else (block h (file_head m (SimpleHTTPRequestHandler.guess_type m fspath) f)
                 ++ blocks (content f))%list
       end.

(** What [do_GET] writes when [send_head] goes on with the listing of the
    directory at [fspath]. *)
Definition listing_reply (m : machine) (self : handler) (fspath : string)
    : list chunk :=
  match SimpleHTTPRequestHandler.list_directory m fspath self with
  | (Return (Some f), s) => (wfile s ++ blocks (content f))%list
  | (_, s) => wfile s
  end.

(** The chunks of a response that are header lines. *)
Definition is_lines (c : chunk) : bool :=
  match c with
  | Lines _ => true
  | Bytes _ => false
  end.

(** The chunks that are bytes of a body. *)
Definition is_bytes (c : chunk) : bool := negb (is_lines c).

(** A response as the file server writes it: one block of header lines,
    opened by the status line with one of five codes, the [Server] and the
    [Date] field and closed by the blank line, and after it the writes of
    the body, none of them empty: with status 200 the blocks of at most
    64 KiB that [copyfileobj] reads, with an error at most one write (the
    page), with 301 and 304 none. *)
Definition one_response (m : machine) (w : list chunk) : Prop :=
  exists code reason fields pieces,
    w = Lines (opening m code reason ++ fields ++ [BlankLine]) :: List.map Bytes pieces
    /\ In code [200; 301; 304; 404; 501]
    /\ Forall (fun l => exists k v, l = Header k v) fields
    /\ Forall (fun b => b <> "") pieces
    /\ (code = 200 ->
        Forall (fun b => Z.of_nat (String.length b)
                         <= SimpleHTTPRequestHandler.COPY_BUFSIZE) pieces)
    /\ (code <> 200 -> (List.length pieces <= 1)%nat)
    /\ (code = 301 \/ code = 304 -> pieces = []).



(** The [Content-Length] field of a response, when there is one, is the
    number of bytes of its body; a response without the field has no
    body. *)
Definition length_announced (w : list chunk) : Prop :=
  match header "Content-Length" w with
  | Some v => v = Text (str.of_nat (String.length (body w)))
  | None => body w = ""
  end.

(** The message of the error for a method the handler class lacks. *)
Definition unsupported (command : string) : string :=
  "Unsupported method (" ++ repr command ++ ")".

(** A character of a method name that [repr] prints as it is: printable,
    and neither the quote nor the backslash. *)
Definition token_char (c : ascii) : bool :=
  (33 <=? str.ord c) && (str.ord c <=? 126)
  && negb (Ascii.eqb c "'") && negb (Ascii.eqb c (ascii_of_nat 92)).

(** The one header field that would keep the connection open. *)
Definition keeps_open (keyword : string) (value : hvalue) : bool :=
  String.eqb (str.lower keyword) "connection"
  && match value with
     | Text v => negb (String.eqb (str.lower v) "close")
                 && String.eqb (str.lower v) "keep-alive"
     | Date _ => false
     end.

(** *** Names and quoted paths *)

(** A name of a file or a directory: not empty, not ["."] or [".."], and
    without a slash. *)
Definition file_name (w : string) : bool :=
  negb (String.eqb w "") && negb (String.eqb w ".") && negb (String.eqb w "..")
  && negb (str.contains "/" w).

(** Such a name in ASCII, which [quote] and [unquote] take to its escapes
    and back. *)
Definition ascii_name (w : string) : bool := file_name w && is_ascii w.

(** The part of a request path that names the file: what comes before the
    first ["?"] and the first ["#"]. *)
Definition file_part (p : string) : string := str.before "#" (str.before "?" p).

(** A segment of a path: not empty and without a slash; ["."] and [".."]
    are segments. *)
Definition segment (w : string) : bool :=
  negb (String.eqb w "") && negb (str.contains "/" w).

(** The characters [quote] produces. *)
Definition url_char (c : ascii) : bool :=
  urllib_parse.safe c || Ascii.eqb c "%".

(** A request path with its query, if it has one. *)
Definition with_query (p q : string) : string :=
  if String.eqb q "" then p else p ++ "?" ++ q.

(** The text of a query: no white space and no ["#"]. *)
Definition query_text (q : string) : bool :=
  urllib_parse.all_chars (fun c => negb (str.isspace c) && negb (Ascii.eqb c "#")) q.

(** ** Requests used in examples *)

(** The requests [GET p v] and [HEAD p v], written as their request lines
    are, with the header fields [hs]. *)
Definition GET (p v : string) (hs : list (string * hvalue)) : request :=
  {| r_command := "GET"; r_path := p; r_version := v; r_headers := hs |}.

Definition HEAD (p v : string) (hs : list (string * hvalue)) : request :=
  {| r_command := "HEAD"; r_path := p; r_version := v; r_headers := hs |}.

(** A directory [/srv/www] with the test page, a script and a
    subdirectory, and no index file. *)
Definition www : gmap string node :=
  list_to_map
    [ ("/srv/www", Directory true ["test-claude-ui.html"; "app.js"; "docs"]);
      ("/srv/www/test-claude-ui.html", RegularFile true "<html>claude</html>" 1700000000);
      ("/srv/www/app.js", RegularFile true "console.log(1)" 1700000000);
      ("/srv/www/docs", Directory true []) ].

(** The machine with CPython's built-in MIME table. *)
Definition host : machine :=
  {| files := www; links := ∅; clock := 1750000000;
     types_map := mimetypes.types_map_default; filesystemencoding := "utf-8" |}.

(** The same machine where a system [mime.types] file lists
    [text/javascript] for [js], as Debian 12 does. *)
Definition debian : machine :=
  {| files := www; links := ∅; clock := 1750000000;
     types_map := <[ ".js" := "text/javascript" ]> mimetypes.types_map_default;
     filesystemencoding := "utf-8" |}.

(** A process started in [/srv/www] while nothing listens, and one started
    while another process listens on port 8000. *)
Definition idle : world :=
  {| cwd := "/srv/www"; listening := ∅; stdout := []; stderr := [];
     sent := []; trace := [] |}.

Definition taken : world :=
  {| cwd := "/srv/www"; listening := {[ ("", 8000) ]}; stdout := [];
     stderr := []; sent := []; trace := [] |}.

(** A second example: the directory with more in it. *)
Definition shelf : gmap string node :=
  list_to_map
    [ ("/srv/www", Directory true
         ["notes"; "a b?.txt"; "README"; ".profile"; "pkg.tar.gz"; "src.TGZ";
          "app.js.br"; "old"; "locked"]);
      ("/srv/www/a b?.txt", RegularFile true "text" 1700000000);
      ("/srv/www/README", RegularFile true "read me" 1700000000);
      ("/srv/www/.profile", RegularFile true "export" 1700000000);
      ("/srv/www/pkg.tar.gz", RegularFile true "gz" 1700000000);
      ("/srv/www/src.TGZ", RegularFile true "tgz" 1700000000);
      ("/srv/www/app.js.br", RegularFile true "br" 1700000000);
      ("/srv/www/notes", Directory true ["b.txt"; "A.txt"]);
      ("/srv/www/notes/A.txt", RegularFile true "A" 1700000000);
      ("/srv/www/notes/b.txt", RegularFile true "b" 1700000000);
      ("/srv/www/old", Directory true ["index.htm"]);
      ("/srv/www/old/index.htm", RegularFile true "<html>old</html>" 1700000000);
      ("/srv/www/locked", Directory true ["index.html"; "index.htm"]);
      ("/srv/www/locked/index.html", RegularFile false "<html>secret</html>" 1700000000);
      ("/srv/www/locked/index.htm", RegularFile true "<html>open</html>" 1700000000) ].

(** The machine with that directory and CPython's built-in MIME table. *)
Definition library : machine :=
  {| files := shelf; links := ∅; clock := 1750000000;
     types_map := mimetypes.types_map_default; filesystemencoding := "utf-8" |}.

(** ** The handlers leave the request alone *)

Lemma same_request_refl a : same_request a a.
Proof. repeat split. Qed.

Lemma same_request_trans a b c :
  same_request a b -> same_request b c -> same_request a c.
Proof.
  intros (? & ? & ? & ? & ?) (? & ? & ? & ? & ?); repeat split; congruence.
Qed.

(** Whether a handler writes header lines is decided by its request. *)
Lemma has_headers_same a b :
  same_request a b ->
  BaseHTTPRequestHandler.has_headers a = BaseHTTPRequestHandler.has_headers b.
Proof.
  intros (_ & _ & _ & _ & Hv). unfold BaseHTTPRequestHandler.has_headers.
  now rewrite Hv.
Qed.

(** [send_header] appends one line to the buffer, when the answer has header
    lines, and writes nothing. *)
Lemma send_header_spec k v self :
  same_request (BaseHTTPRequestHandler.send_header k v self) self
  /\ _headers_buffer (BaseHTTPRequestHandler.send_header k v self)
     = (_headers_buffer self
        ++ if BaseHTTPRequestHandler.has_headers self then [Header k v] else [])%list
  /\ wfile (BaseHTTPRequestHandler.send_header k v self) = wfile self.
Proof.
  unfold BaseHTTPRequestHandler.send_header.
  destruct (BaseHTTPRequestHandler.has_headers self);
    (destruct (String.eqb (str.lower k) "connection"); [destruct v as [t|d]|];
     [destruct (String.eqb (str.lower t) "close");
        [|destruct (String.eqb (str.lower t) "keep-alive")]|..]);
    cbn [_headers_buffer wfile set_headers_buffer set_close_connection];
    rewrite ?app_nil_r; repeat split.
Qed.

Lemma send_header_frame k v self :
  same_request (BaseHTTPRequestHandler.send_header k v self) self.
Proof. apply send_header_spec. Qed.

Lemma send_header_buffer k v self :
  _headers_buffer (BaseHTTPRequestHandler.send_header k v self)
  = (_headers_buffer self
     ++ if BaseHTTPRequestHandler.has_headers self then [Header k v] else [])%list.
Proof. apply send_header_spec. Qed.

Lemma send_header_wfile k v self :
  wfile (BaseHTTPRequestHandler.send_header k v self) = wfile self.
Proof. apply send_header_spec. Qed.

Lemma end_headers_frame self :
  same_request (BaseHTTPRequestHandler.end_headers self) self.
Proof.
  unfold BaseHTTPRequestHandler.end_headers.
  destruct (BaseHTTPRequestHandler.has_headers self); repeat split.
Qed.

(** [end_headers] writes the buffer, closed by the blank line, when the
    answer has header lines. *)
Lemma end_headers_wfile self :
  wfile (BaseHTTPRequestHandler.end_headers self)
  = (wfile self
     ++ block (BaseHTTPRequestHandler.has_headers self)
          (_headers_buffer self ++ [BlankLine]))%list.
Proof.
  unfold BaseHTTPRequestHandler.end_headers, block.
  destruct (BaseHTTPRequestHandler.has_headers self);
    [reflexivity|now rewrite app_nil_r].
Qed.

Lemma write_frame c self : same_request (write c self) self.
Proof. repeat split. Qed.

Lemma write_wfile c self : wfile (write c self) = (wfile self ++ [c])%list.
Proof. reflexivity. Qed.

Lemma send_response_only_spec code msg self :
  same_request (BaseHTTPRequestHandler.send_response_only code msg self) self
  /\ wfile (BaseHTTPRequestHandler.send_response_only code msg self) = wfile self
  /\ exists reason,
       (msg = None ->
        reason = match BaseHTTPRequestHandler.responses code with
                 | Some (shortmsg, _) => shortmsg
                 | None => ""
                 end)
       /\ (forall t, msg = Some t -> reason = t)
       /\ _headers_buffer (BaseHTTPRequestHandler.send_response_only code msg self)
          = (_headers_buffer self
             ++ if BaseHTTPRequestHandler.has_headers self
                then [StatusLine BaseHTTPRequestHandler.protocol_version code reason]
                else [])%list.
Proof.
  unfold BaseHTTPRequestHandler.send_response_only.
  destruct (BaseHTTPRequestHandler.has_headers self).
  - split; [repeat split|]. split; [reflexivity|].
    eexists. split; [|split; [|reflexivity]].
    + now intros ->.
    + now intros t ->.
  - split; [repeat split|]. split; [reflexivity|].
    exists match msg with
           | Some t => t
           | None => match BaseHTTPRequestHandler.responses code with
                     | Some (shortmsg, _) => shortmsg
                     | None => ""
                     end
           end.
    split; [now intros ->|]. split; [now intros t ->|now rewrite app_nil_r].
Qed.

(** [send_response] buffers the status line and the two standard header
    lines. *)
Lemma send_response_spec v m code msg self :
  same_request (BaseHTTPRequestHandler.send_response v m code msg self) self
  /\ wfile (BaseHTTPRequestHandler.send_response v m code msg self) = wfile self
  /\ exists reason,
       (msg = None ->
        reason = match BaseHTTPRequestHandler.responses code with
                 | Some (shortmsg, _) => shortmsg
                 | None => ""
                 end)
       /\ (forall t, msg = Some t -> reason = t)
       /\ _headers_buffer (BaseHTTPRequestHandler.send_response v m code msg self)
          = (_headers_buffer self
             ++ if BaseHTTPRequestHandler.has_headers self
                then [StatusLine BaseHTTPRequestHandler.protocol_version code reason;
                      Header "Server" (Text (v ++ " " ++ BaseHTTPRequestHandler.sys_version));
                      Header "Date" (BaseHTTPRequestHandler.date_time_string (clock m))]
                else [])%list.
Proof.
  unfold BaseHTTPRequestHandler.send_response.
  set (s0 := BaseHTTPRequestHandler.send_response_only code msg self).
  destruct (send_response_only_spec code msg self) as (Hf & Hw & reason & Hn & Hs & Hb).
  fold s0 in Hf, Hw, Hb.
  assert (Hh0 : BaseHTTPRequestHandler.has_headers s0 = BaseHTTPRequestHandler.has_headers self)
    by now apply has_headers_same.
  split; [|split].
  - eapply same_request_trans; [apply send_header_frame|].
    eapply same_request_trans; [apply send_header_frame|]. exact Hf.
  - now rewrite !send_header_wfile.
  - exists reason. split; [exact Hn|]. split; [exact Hs|].
    rewrite !send_header_buffer, Hb.
    rewrite (has_headers_same _ _ (send_header_frame _ _ s0)), Hh0.
    destruct (BaseHTTPRequestHandler.has_headers self);
      rewrite <- !app_assoc; reflexivity.
Qed.

Lemma send_response_frame v m code msg self :
  same_request (BaseHTTPRequestHandler.send_response v m code msg self) self.
Proof. apply send_response_spec. Qed.

(** Peels the library calls off a handler, one frame lemma at a time. *)
Ltac frame :=
  repeat lazymatch goal with
    | |- same_request ?a ?a => apply same_request_refl
    | |- same_request (BaseHTTPRequestHandler.send_header _ _ _) _ =>
        eapply same_request_trans; [apply send_header_frame|]
    | |- same_request (BaseHTTPRequestHandler.end_headers _) _ =>
        eapply same_request_trans; [apply end_headers_frame|]
    | |- same_request (write _ _) _ =>
        eapply same_request_trans; [apply write_frame|]
    | |- same_request (BaseHTTPRequestHandler.send_response _ _ _ _ _) _ =>
        eapply same_request_trans; [apply send_response_frame|]
    end.

Lemma send_error_frame v m code msg self :
  same_request (BaseHTTPRequestHandler.send_error v m code msg self) self.
Proof.
  unfold BaseHTTPRequestHandler.send_error.
  destruct (BaseHTTPRequestHandler.responses code) as [[shortmsg longmsg]|];
    destruct ((200 <=? code) && _); cbv beta iota zeta;
    try match goal with
      | |- same_request (if ?b then _ else _) _ => destruct b
      end;
    frame.
Qed.

Lemma list_directory_frame m fspath self :
  same_request (SimpleHTTPRequestHandler.list_directory m fspath self).2 self.
Proof.
  unfold SimpleHTTPRequestHandler.list_directory.
  destruct (listdir m fspath) as [names|[]]; cbv beta iota zeta delta [snd];
    [frame|apply send_error_frame|apply same_request_refl].
Qed.

Lemma send_head_file_frame m self fspath :
  same_request (SimpleHTTPRequestHandler.send_head_file m self fspath).2 self.
Proof.
  unfold SimpleHTTPRequestHandler.send_head_file. cbv zeta.
  destruct (str.endswith fspath "/"); [apply send_error_frame|].
  destruct (open m fspath) as [f0|[]];
    [|apply send_error_frame|apply same_request_refl].
  destruct (SimpleHTTPRequestHandler.not_modified self f0);
    cbv beta iota zeta delta [snd]; frame.
Qed.

Lemma send_head_frame m self :
  same_request (SimpleHTTPRequestHandler.send_head m self).2 self.
Proof.
  unfold SimpleHTTPRequestHandler.send_head. cbv zeta.
  set (fspath := SimpleHTTPRequestHandler.translate_path self (path self)).
  destruct (isdir m fspath); [|apply send_head_file_frame].
  destruct (negb _); [cbv beta iota zeta delta [snd]; frame|].
  destruct (isfile m (posixpath.join fspath "index.html"));
    [apply send_head_file_frame|].
  destruct (isfile m (posixpath.join fspath "index.htm"));
    [apply send_head_file_frame|].
  apply list_directory_frame.
Qed.

(** [copyfileobj] writes the blocks that [read] gives, one after the
    other. *)
Lemma copyfileobj_wfile fuel s self :
  same_request (SimpleHTTPRequestHandler.copyfileobj fuel s self) self
  /\ wfile (SimpleHTTPRequestHandler.copyfileobj fuel s self)
     = (wfile self ++ List.map Bytes (reads fuel s))%list
  /\ _headers_buffer (SimpleHTTPRequestHandler.copyfileobj fuel s self)
     = _headers_buffer self
  /\ close_connection (SimpleHTTPRequestHandler.copyfileobj fuel s self)
     = close_connection self.
Proof.
  revert s self. induction fuel as [|fuel IH]; intros s self;
    cbn [SimpleHTTPRequestHandler.copyfileobj reads].
  - rewrite app_nil_r. repeat split.
  - destruct (SimpleHTTPRequestHandler.read SimpleHTTPRequestHandler.COPY_BUFSIZE s)
      as [buf rest].
    destruct (String.eqb buf ""); [rewrite app_nil_r; repeat split|].
    destruct (IH rest (write (Bytes buf) self)) as (Hf & Hw & Hb & Hc).
    split; [eapply same_request_trans; [exact Hf|apply write_frame]|].
    split; [rewrite Hw, write_wfile, <- app_assoc; reflexivity|].
    split; [rewrite Hb; reflexivity|rewrite Hc; reflexivity].
Qed.

Lemma copyfile_frame f self :
  same_request (SimpleHTTPRequestHandler.copyfile f self) self.
Proof. apply copyfileobj_wfile. Qed.

Lemma copyfile_wfile f self :
  wfile (SimpleHTTPRequestHandler.copyfile f self)
  = (wfile self ++ blocks (content f))%list.
Proof. apply copyfileobj_wfile. Qed.

Lemma do_GET_frame m self :
  same_request (SimpleHTTPRequestHandler.do_GET m self).2 self.
Proof.
  unfold SimpleHTTPRequestHandler.do_GET. pose proof (send_head_frame m self) as H.
  destruct (SimpleHTTPRequestHandler.send_head m self) as [[[f|]|e] self'];
    cbv beta iota zeta delta [snd] in H |- *; try exact H.
  eapply same_request_trans; [apply copyfile_frame|exact H].
Qed.

Lemma do_HEAD_frame m self :
  same_request (SimpleHTTPRequestHandler.do_HEAD m self).2 self.
Proof.
  unfold SimpleHTTPRequestHandler.do_HEAD. pose proof (send_head_frame m self) as H.
  destruct (SimpleHTTPRequestHandler.send_head m self) as [[f|e] self']; exact H.
Qed.

(** ** The default document of [serve-test.py] *)

(** C1.  In [serve-test.py] a GET request for ["/"] has its path replaced by
    ["/test-claude-ui.html"] before the parent class's [do_GET] runs, so on
    the same machine, in the same directory, with the same version and the
    same header fields the client receives exactly what it receives for a
    GET request for ["/test-claude-ui.html"]: the same status line, header
    lines and body. *)
Theorem C1_root_serves_default_document :
  forall (m : machine) (self : handler) (cwd v : string)
         (hs : list (string * hvalue)),
    (path self = "/" ->
     serve_test.MyHandler.do_GET m self
     = SimpleHTTPRequestHandler.do_GET m (set_path "/test-claude-ui.html" self))
    /\ handle serve_test.Handler m cwd (GET "/" v hs)
       = handle serve_test.Handler m cwd (GET "/test-claude-ui.html" v hs).
Proof.
  intros m self cwd v hs. split.
  - intros Hp. unfold serve_test.MyHandler.do_GET,
      serve_test.MyHandler.default_to_test_page.
    rewrite Hp. reflexivity.
  - reflexivity.
Qed.

(** C9.  The rewrite of [MyHandler.do_GET] fires only for the path ["/"]: a
    handler with any other path, ["/?x=1"] included, reaches the parent
    class's [do_GET] unchanged.  In every case the rewrite leaves the
    command, the version, the header fields and the root directory as they
    were, and so does the whole of [do_GET]. *)
Theorem C9_rewrite_only_root_only_path :
  forall (m : machine) (self : handler),
    serve_test.MyHandler.do_GET m self
    = SimpleHTTPRequestHandler.do_GET m (serve_test.MyHandler.default_to_test_page self)
    /\ (path self <> "/" -> serve_test.MyHandler.default_to_test_page self = self)
    /\ (path self = "/" ->
        serve_test.MyHandler.default_to_test_page self
        = set_path "/test-claude-ui.html" self)
    /\ command (serve_test.MyHandler.default_to_test_page self) = command self
    /\ headers (serve_test.MyHandler.default_to_test_page self) = headers self
    /\ directory (serve_test.MyHandler.default_to_test_page self) = directory self
    /\ request_version (serve_test.MyHandler.default_to_test_page self)
       = request_version self
    /\ wfile (serve_test.MyHandler.default_to_test_page self) = wfile self
    /\ command (serve_test.MyHandler.do_GET m self).2 = command self
    /\ headers (serve_test.MyHandler.do_GET m self).2 = headers self.
Proof.
  intros m self.
  assert (Hrw : same_request
                  (set_path (path (serve_test.MyHandler.default_to_test_page self)) self)
                  (serve_test.MyHandler.default_to_test_page self)
                /\ wfile (serve_test.MyHandler.default_to_test_page self) = wfile self).
  { unfold serve_test.MyHandler.default_to_test_page.
    destruct (String.eqb_spec (path self) "/"); repeat split. }
  destruct Hrw as [(Hd & Hc & _ & Hh & Hv) Hw]. cbn in Hd, Hc, Hh, Hv.
  split; [reflexivity|].
  split.
  { intros Hne. unfold serve_test.MyHandler.default_to_test_page.
    destruct (String.eqb_spec (path self) "/"); [contradiction|reflexivity]. }
  split.
  { intros He. unfold serve_test.MyHandler.default_to_test_page.
    rewrite He. reflexivity. }
  repeat split; try congruence.
  - unfold serve_test.MyHandler.do_GET.
    destruct (do_GET_frame m (serve_test.MyHandler.default_to_test_page self))
      as (_ & Hc' & _ & _). congruence.
  - unfold serve_test.MyHandler.do_GET.
    destruct (do_GET_frame m (serve_test.MyHandler.default_to_test_page self))
      as (_ & _ & _ & Hh' & _). congruence.
Qed.

(** A request for the root with a query string is not rewritten. *)
Lemma C9_query_on_root_not_rewritten :
  serve_test.MyHandler.default_to_test_page
    (new_handler "/srv/www" (GET "/?x=1" "HTTP/1.1" []))
  = new_handler "/srv/www" (GET "/?x=1" "HTTP/1.1" []).
Proof.
  apply (C9_rewrite_only_root_only_path host
           (new_handler "/srv/www" (GET "/?x=1" "HTTP/1.1" []))).
  cbn. discriminate.
Defined.

(** [getattr] on [MyHandler] for a method other than [do_GET]. *)
Lemma do_prefix_inj (c : string) : "do_" ++ c = "do_GET" -> c = "GET".
Proof. cbn. intros H. injection H as H. exact H. Qed.

(** C10.  [MyHandler] overrides [do_GET] only.  A request whose method is
    not GET, for ["/"] or any other path, is answered by [MyHandler]
    exactly as by the parent class: the method is looked up in
    [SimpleHTTPRequestHandler] and runs on the handler with its path as
    received. *)
Theorem C10_other_methods_inherited :
  forall (m : machine) (cwd : string) (r : request),
    r_command r <> "GET" ->
    getattr serve_test.Handler ("do_" ++ r_command r)
    = getattr SimpleHTTPRequestHandler.class ("do_" ++ r_command r)
    /\ handle serve_test.Handler m cwd r
       = handle SimpleHTTPRequestHandler.class m cwd r.
Proof.
  intros m cwd r Hne.
  assert (Hg : getattr serve_test.Handler ("do_" ++ r_command r)
               = getattr SimpleHTTPRequestHandler.class ("do_" ++ r_command r)).
  { cbn [getattr serve_test.Handler serve_test.MyHandler.class
         SimpleHTTPRequestHandler.getattr].
    destruct (String.eqb_spec ("do_" ++ r_command r) "do_GET") as [He|_];
      [|reflexivity].
    apply do_prefix_inj in He. contradiction. }
  split; [exact Hg|].
  unfold handle, handle_one_request.
  cbn [command new_handler]. rewrite Hg. reflexivity.
Qed.

(** A HEAD request for ["/"] is served from the directory itself: the
    parent's [do_HEAD] sees the path ["/"]. *)
Lemma C10_head_on_root :
  handle serve_test.Handler host "/srv/www" (HEAD "/" "HTTP/1.1" [])
  = wfile (SimpleHTTPRequestHandler.do_HEAD host
             (new_handler "/srv/www" (HEAD "/" "HTTP/1.1" []))).2.
Proof.
  destruct (C10_other_methods_inherited host "/srv/www" (HEAD "/" "HTTP/1.1" []))
    as [_ H].
  - cbn. discriminate.
  - rewrite H. reflexivity.
Defined.

(** ** Starting and stopping the server *)

Lemma address_in_use_elem (w : world) (a : address) :
  a ∈ listening w -> address_in_use w a = true.
Proof.
  intros Hin. unfold address_in_use. apply bool_decide_eq_true.
  exists a. split; [exact Hin|].
  destruct a as [h p]. unfold conflicts. cbn.
  rewrite Z.eqb_refl, String.eqb_refl. reflexivity.
Qed.

(** [serve_forever] over connections only goes on waiting. *)
Lemma serve_forever_connections m httpd rs w :
  (serve_forever m httpd (List.map Connection rs) w).1 = None.
Proof.
  revert w. induction rs as [|r rs IH]; intros w; cbn; [reflexivity|apply IH].
Qed.

(** It changes nothing but the responses sent. *)
Lemma serve_forever_world m httpd evs w :
  let w' := (serve_forever m httpd evs w).2 in
  cwd w' = cwd w /\ listening w' = listening w /\ stdout w' = stdout w
  /\ stderr w' = stderr w /\ trace w' = trace w.
Proof.
  revert w. induction evs as [|[r|] evs IH]; intros w; cbn.
  - repeat split.
  - specialize (IH (send (handle (RequestHandlerClass httpd) m (cwd w) r) w)).
    cbn in IH. exact IH.
  - repeat split.
Qed.

(** The interrupt ends [serve_forever] with [KeyboardInterrupt], whatever
    was served before and whatever would have come after. *)
Lemma serve_forever_interrupt m httpd rs evs w :
  (serve_forever m httpd (List.map Connection rs ++ SIGINT :: evs) w).1
  = Some KeyboardInterrupt.
Proof.
  revert w. induction rs as [|r rs IH]; intros w; cbn; [reflexivity|apply IH].
Qed.

(** What [serve_forever] has sent, and how it ends. *)
Lemma serve_forever_sent m httpd evs w :
  sent (serve_forever m httpd evs w).2
  = (sent w ++ List.map (handle (RequestHandlerClass httpd) m (cwd w)) (served evs))%list.
Proof.
  revert w. induction evs as [|[r|] evs IH]; intros w; cbn [serve_forever served List.map].
  - now rewrite app_nil_r.
  - rewrite IH. cbn [sent send cwd]. now rewrite <- app_assoc.
  - cbn. now rewrite app_nil_r.
Qed.

Lemma serve_forever_result m httpd evs w :
  (serve_forever m httpd evs w).1
  = if interrupted evs then Some KeyboardInterrupt else None.
Proof.
  revert w. induction evs as [|[r|] evs IH]; intros w; cbn; [reflexivity|apply IH|reflexivity].
Qed.

(** C7.  When a process already listens on every interface at port 8000,
    starting either script fails in the constructor of [TCPServer] with
    [OSError] (address already in use).  No handler catches it: the
    interpreter prints the error and exits with status 1.  The script has
    called [bind] once and has not listened, nothing was printed to
    standard output and nothing was served, and the set of listening
    addresses is as before, the first instance's address in it. *)
Theorem C7_second_instance_fails_to_bind :
  forall (m : machine) (script_dir : string) (evs : list event) (w : world),
    ("", 8000) ∈ listening w ->
    (TCPServer_init ("", 8000) serve_test.Handler w).1
      = inr (OSError EADDRINUSE "Address already in use")
    /\ (let (t, w') := serve_test.main m script_dir evs w in
        t = Exited 1
        /\ stderr w' = (stderr w ++ ["OSError: [Errno 98] Address already in use"])%list
        /\ trace w' = (trace w ++ [Chdir script_dir; Bind ("", 8000) false])%list
        /\ listening w' = listening w /\ ("", 8000) ∈ listening w'
        /\ stdout w' = stdout w /\ sent w' = sent w)
    /\ (let (t, w') := simple_server.main m evs w in
        t = Exited 1
        /\ stderr w' = (stderr w ++ ["OSError: [Errno 98] Address already in use"])%list
        /\ trace w' = (trace w ++ [Bind ("", 8000) false])%list
        /\ listening w' = listening w /\ ("", 8000) ∈ listening w'
        /\ stdout w' = stdout w /\ sent w' = sent w).
Proof.
  intros m script_dir evs w Hin.
  pose proof (address_in_use_elem w _ Hin) as Hw.
  assert (Hw' : address_in_use (set_cwd script_dir w) ("", 8000) = true)
    by (apply address_in_use_elem; exact Hin).
  split; [|split].
  - unfold TCPServer_init. rewrite Hw. reflexivity.
  - unfold serve_test.main, TCPServer_init, serve_test.PORT. rewrite Hw'.
    cbn. rewrite <- app_assoc. repeat split; try reflexivity. exact Hin.
  - unfold simple_server.main, TCPServer_init, simple_server.PORT. rewrite Hw.
    cbn. repeat split; try reflexivity. exact Hin.
Qed.

Lemma C7_witness :
  (serve_test.main host "/srv/www" [Connection (GET "/" "HTTP/1.1" [])] taken).1 = Exited 1
  /\ (simple_server.main host [Connection (GET "/" "HTTP/1.1" [])] taken).1 = Exited 1.
Proof.
  assert (Hin : ("", 8000) ∈ listening taken) by (cbn; set_solver).
  destruct (C7_second_instance_fails_to_bind host "/srv/www"
              [Connection (GET "/" "HTTP/1.1" [])] taken Hin) as (_ & H1 & H2).
  destruct (serve_test.main host "/srv/www" [Connection (GET "/" "HTTP/1.1" [])] taken).
  destruct (simple_server.main host [Connection (GET "/" "HTTP/1.1" [])] taken).
  split; [apply H1|apply H2].
Defined.

(** In [simple-server.py] nothing catches [KeyboardInterrupt]: interrupted
    while it serves, the process is ended by the signal, not by an exit
    with status 0. *)
Lemma C4_simple_server_killed_by_interrupt :
  (simple_server.main host [Connection (GET "/" "HTTP/1.1" []); SIGINT] idle).1 = Killed 2.
Proof. vm_compute. reflexivity. Qed.

(** C4, as the scripts have it.  Let the address be free at the start, and
    let the interrupt arrive after any number of connections were served.
    [serve-test.py] catches [KeyboardInterrupt], prints its notice, closes
    the listening socket and exits with status 0.  [simple-server.py] has
    no handler: leaving the [with] block closes the listening socket, the
    exception reaches the interpreter, and the process is ended by the
    interrupt signal.  In both the socket no longer listens. *)
Theorem C4_interrupt_closes_socket :
  forall (m : machine) (script_dir : string) (rs : list request)
         (evs : list event) (w : world),
    address_in_use w ("", 8000) = false ->
    (let (t, w') :=
       serve_test.main m script_dir (List.map Connection rs ++ SIGINT :: evs) w in
     t = Exited 0
     /\ listening w' = (listening w) ∖ {[ ("", 8000) ]}
     /\ (("", 8000) ∉ listening w')
     /\ trace w' = (trace w ++ [Chdir script_dir; Bind ("", 8000) true;
                                Listen ("", 8000); Close ("", 8000)])%list
     /\ stdout w' = (stdout w ++ [serve_test.banner; (nl ++ "Server stopped by user")%string])%list
     /\ stderr w' = stderr w)
    /\ (let (t, w') :=
          simple_server.main m (List.map Connection rs ++ SIGINT :: evs) w in
        t = Killed 2
        /\ listening w' = (listening w) ∖ {[ ("", 8000) ]}
        /\ (("", 8000) ∉ listening w')
        /\ trace w' = (trace w ++ [Bind ("", 8000) true; Listen ("", 8000);
                                   Close ("", 8000)])%list
        /\ stderr w' = (stderr w ++ ["KeyboardInterrupt"])%list).
Proof.
  intros m script_dir rs evs w Hfree.
  assert (Hfree' : address_in_use (set_cwd script_dir w) ("", 8000) = false)
    by exact Hfree.
  split.
  - unfold serve_test.main, TCPServer_init, serve_test.PORT. rewrite Hfree'.
    match goal with
    | |- context [serve_forever ?m ?h ?e ?w0] =>
        pose proof (serve_forever_interrupt m h rs evs w0) as Hi;
        pose proof (serve_forever_world m h e w0) as Hw;
        destruct (serve_forever m h e w0) as [e' w1]
    end.
    cbn [fst] in Hi. subst e'. cbn in Hw. destruct Hw as (_ & Hl & Ho & He & Ht).
    cbn. rewrite Hl, Ho, He, Ht.
    repeat split.
    + apply set_eq. intros x.
      rewrite !elem_of_difference, elem_of_union. tauto.
    + apply not_elem_of_difference. right. apply elem_of_singleton. reflexivity.
    + rewrite <- !app_assoc. reflexivity.
    + rewrite <- !app_assoc. reflexivity.
  - unfold simple_server.main, TCPServer_init, simple_server.PORT. rewrite Hfree.
    match goal with
    | |- context [serve_forever ?m ?h ?e ?w0] =>
        pose proof (serve_forever_interrupt m h rs evs w0) as Hi;
        pose proof (serve_forever_world m h e w0) as Hw;
        destruct (serve_forever m h e w0) as [e' w1]
    end.
    cbn [fst] in Hi. subst e'. cbn in Hw. destruct Hw as (_ & Hl & Ho & He & Ht).
    cbn. rewrite Hl, He, Ht.
    repeat split.
    + apply set_eq. intros x.
      rewrite !elem_of_difference, elem_of_union. tauto.
    + apply not_elem_of_difference. right. apply elem_of_singleton. reflexivity.
    + rewrite <- !app_assoc. reflexivity.
Qed.

Lemma C4_witness :
  (serve_test.main host "/srv/www" [Connection (GET "/" "HTTP/1.1" []); SIGINT] idle).1 = Exited 0.
Proof.
  assert (Hfree : address_in_use idle ("", 8000) = false) by (vm_compute; reflexivity).
  destruct (C4_interrupt_closes_socket host "/srv/www" [GET "/" "HTTP/1.1" []] [] idle Hfree)
    as [H _].
  cbn [List.map app] in H.
  destruct (serve_test.main host "/srv/www" [Connection (GET "/" "HTTP/1.1" []); SIGINT] idle).
  apply H.
Defined.

(** ** Strings: the lemmas the path translation rests on *)

#[local] Arguments String.append !_ _ / : simpl nomatch.

Lemma append_nil_r (s : string) : s ++ "" = s.
Proof. induction s as [|a s IH]; cbn; [reflexivity|now rewrite IH]. Qed.

Lemma append_assoc (s t u : string) : (s ++ t) ++ u = s ++ (t ++ u).
Proof. induction s as [|a s IH]; cbn; [reflexivity|now rewrite IH]. Qed.

Lemma contains_app c s t :
  str.contains c (s ++ t) = str.contains c s || str.contains c t.
Proof.
  induction s as [|a s IH]; cbn; [reflexivity|].
  rewrite IH. now rewrite orb_assoc.
Qed.

Lemma before_absent c s : str.contains c s = false -> str.before c s = s.
Proof.
  induction s as [|a s IH]; cbn; [reflexivity|].
  intros H. apply orb_false_iff in H as [Ha Hs].
  rewrite Ha. now rewrite IH.
Qed.

Lemma endswith_app s t : str.endswith (s ++ t) t = true.
Proof.
  induction s as [|a s IH]; cbn.
  - destruct t; cbn; rewrite ?String.eqb_refl, ?Ascii.eqb_refl; reflexivity.
  - rewrite IH. apply orb_true_r.
Qed.

(** A string that ends with a non-empty [w] without slash does not end with
    a slash. *)
Lemma endswith_slash_word w :
  w <> "" -> str.contains "/" w = false -> str.endswith w "/" = false.
Proof.
  induction w as [|a w IH]; [congruence|].
  intros _ H. cbn in H. apply orb_false_iff in H as [Ha Hw].
  cbn [str.endswith]. destruct w as [|b w].
  - cbn. rewrite Ha. reflexivity.
  - rewrite IH by (congruence || exact Hw).
    cbn. destruct (Ascii.eqb a "/"); reflexivity.
Qed.

Lemma endswith_slash_app s w :
  w <> "" -> str.contains "/" w = false -> str.endswith (s ++ w) "/" = false.
Proof.
  intros Hne Hw. induction s as [|a s IH]; cbn [append].
  - now apply endswith_slash_word.
  - cbn [str.endswith]. rewrite IH.
    destruct (s ++ w) as [|b u] eqn:E.
    + destruct s; cbn in E; congruence.
    + cbn. destruct (Ascii.eqb a "/"); reflexivity.
Qed.

Lemma all_chars_contains P c s :
  urllib_parse.all_chars P s = true -> P c = false -> str.contains c s = false.
Proof.
  intros Hs Hc. induction s as [|a s IH]; cbn in *; [reflexivity|].
  apply andb_true_iff in Hs as [Ha Hs]. rewrite (IH Hs), orb_false_r.
  destruct (Ascii.eqb_spec a c) as [->|]; [congruence|reflexivity].
Qed.

Lemma all_chars_app P s t :
  urllib_parse.all_chars P (s ++ t)
  = urllib_parse.all_chars P s && urllib_parse.all_chars P t.
Proof.
  induction s as [|a s IH]; cbn; [reflexivity|]. rewrite IH. apply andb_assoc.
Qed.

Lemma rstrip_no_space s :
  urllib_parse.all_chars (fun c => negb (str.isspace c)) s = true ->
  str.rstrip s = s.
Proof.
  induction s as [|a s IH]; cbn; [reflexivity|].
  intros H. apply andb_true_iff in H as [Ha Hs]. rewrite (IH Hs).
  destruct s; [|reflexivity].
  apply negb_true_iff in Ha. rewrite Ha. reflexivity.
Qed.

Lemma unquote_absent s :
  str.contains "%" s = false -> urllib_parse.unquote s = s.
Proof.
  induction s as [|a s IH]; cbn; [reflexivity|].
  intros H. apply orb_false_iff in H as [Ha Hs].
  rewrite Ha, (IH Hs). reflexivity.
Qed.

Lemma split_word c w : str.contains c w = false -> str.split c w = [w].
Proof.
  induction w as [|a w IH]; cbn; [reflexivity|].
  intros H. apply orb_false_iff in H as [Ha Hw].
  rewrite Ha, (IH Hw). reflexivity.
Qed.

Lemma split_app c w s :
  str.contains c w = false ->
  str.split c (w ++ String c s) = w :: str.split c s.
Proof.
  induction w as [|a w IH]; cbn.
  - intros _. rewrite Ascii.eqb_refl. reflexivity.
  - intros H. apply orb_false_iff in H as [Ha Hw].
    rewrite Ha, (IH Hw). reflexivity.
Qed.

Lemma split_join c ws :
  ws <> [] -> Forall (fun w => str.contains c w = false) ws ->
  str.split c (str.join (String c "") ws) = ws.
Proof.
  intros Hne Hall. induction Hall as [|w ws Hw Hall IH]; [congruence|].
  destruct ws as [|w' ws].
  - cbn. now apply split_word.
  - change (str.join (String c "") (w :: w' :: ws))
      with (w ++ String c (str.join (String c "") (w' :: ws))).
    rewrite split_app by exact Hw. f_equal. apply IH. congruence.
Qed.

Lemma rfind_absent c s : str.contains c s = false -> str.rfind c s = -1.
Proof.
  induction s as [|a s IH]; cbn; [reflexivity|].
  intros H. apply orb_false_iff in H as [Ha Hs].
  rewrite (IH Hs), Ha. reflexivity.
Qed.

Lemma dirname_word w : str.contains "/" w = false -> posixpath.dirname w = "".
Proof.
  intros H. unfold posixpath.dirname. rewrite (rfind_absent _ _ H).
  cbn. destruct w; reflexivity.
Qed.

(** ** Plain paths *)

Lemma plain_name_inv w :
  plain_name w = true ->
  w <> "" /\ w <> "." /\ w <> ".."
  /\ urllib_parse.all_chars plain_char w = true.
Proof.
  unfold plain_name. intros H.
  repeat (apply andb_true_iff in H as [H ?]).
  repeat split; try assumption;
    intros ->; cbn in *; congruence.
Qed.

Lemma plain_char_not c (d : ascii) :
  str.contains d "/?#%" = true -> plain_char c = true -> Ascii.eqb c d = false.
Proof.
  intros Hd Hc. destruct (Ascii.eqb_spec c d) as [->|]; [|reflexivity].
  unfold plain_char in Hc. rewrite Hd, andb_false_r in Hc. discriminate.
Qed.

Lemma plain_name_lacks (d : ascii) w :
  str.contains d "/?#%" = true -> plain_name w = true ->
  str.contains d w = false.
Proof.
  intros Hd Hw. apply plain_name_inv in Hw as (_ & _ & _ & Hw).
  induction w as [|a w IH]; cbn in *; [reflexivity|].
  apply andb_true_iff in Hw as [Ha Hw].
  rewrite (plain_char_not _ _ Hd Ha), (IH Hw). reflexivity.
Qed.

Lemma plain_name_no_space w :
  plain_name w = true ->
  urllib_parse.all_chars (fun c => negb (str.isspace c)) w = true.
Proof.
  intros Hw. apply plain_name_inv in Hw as (_ & _ & _ & Hw).
  induction w as [|a w IH]; cbn in *; [reflexivity|].
  apply andb_true_iff in Hw as [Ha Hw]. rewrite (IH Hw), andb_true_r.
  unfold plain_char in Ha. apply andb_true_iff in Ha as [_ Ha]. exact Ha.
Qed.

Lemma contains_join (d : ascii) ws :
  Ascii.eqb "/" d = false ->
  Forall (fun w => str.contains d w = false) ws ->
  str.contains d (str.join "/" ws) = false.
Proof.
  intros Hd Hall. induction Hall as [|w ws Hw Hall IH]; [reflexivity|].
  destruct ws as [|w' ws]; [exact Hw|].
  change (str.join "/" (w :: w' :: ws))
    with (w ++ String "/" (str.join "/" (w' :: ws))).
  rewrite contains_app, Hw. cbn [str.contains orb]. rewrite Hd, IH. reflexivity.
Qed.

Lemma no_space_join ws :
  Forall (fun w => plain_name w = true) ws ->
  urllib_parse.all_chars (fun c => negb (str.isspace c)) (str.join "/" ws) = true.
Proof.
  intros Hall. induction Hall as [|w ws Hw Hall IH]; [reflexivity|].
  destruct ws as [|w' ws]; [now apply plain_name_no_space|].
  change (str.join "/" (w :: w' :: ws))
    with (w ++ String "/" (str.join "/" (w' :: ws))).
  rewrite all_chars_app, (plain_name_no_space _ Hw).
  cbn [urllib_parse.all_chars andb]. rewrite IH. reflexivity.
Qed.

(** The joined names end with the last of them. *)
Lemma join_last ws w :
  exists pre, str.join "/" (ws ++ [w])%list = pre ++ w.
Proof.
  induction ws as [|v ws [pre IH]].
  - exists "". reflexivity.
  - destruct ws as [|v' ws].
    + exists (v ++ "/"). cbn. now rewrite append_assoc.
    + exists (v ++ "/" ++ pre).
      change (str.join "/" ((v :: v' :: ws) ++ [w])%list)
        with (v ++ "/" ++ str.join "/" ((v' :: ws) ++ [w])%list).
      rewrite IH, !append_assoc. reflexivity.
Qed.

Lemma url_of_ends_with_name ws :
  ws <> [] -> Forall (fun w => plain_name w = true) ws ->
  str.endswith (url_of ws) "/" = false.
Proof.
  intros Hne Hall. destruct (exists_last Hne) as (ws' & w & ->).
  apply Forall_app in Hall as [_ Hw]. apply Forall_inv in Hw.
  destruct (join_last ws' w) as [pre E]. unfold url_of. rewrite E.
  rewrite <- append_assoc. apply endswith_slash_app.
  - now apply plain_name_inv in Hw.
  - now apply (plain_name_lacks "/").
Qed.

Lemma normpath_fold_plain n ws acc :
  Forall (fun w => plain_name w = true) ws ->
  fold_left (posixpath.normpath_step n) ws acc = (rev ws ++ acc)%list.
Proof.
  intros Hall. revert acc. induction Hall as [|w ws Hw Hall IH]; intros acc.
  - reflexivity.
  - cbn [fold_left]. rewrite IH. cbn [rev]. rewrite <- app_assoc. cbn [app].
    f_equal. unfold posixpath.normpath_step.
    apply plain_name_inv in Hw as (H0 & H1 & H2 & _).
    apply String.eqb_neq in H0, H1, H2. rewrite H0, H1, H2. reflexivity.
Qed.

Lemma url_of_cons w ws :
  plain_name w = true ->
  exists a u, Ascii.eqb a "/" = false /\ url_of (w :: ws) = String "/" (String a u).
Proof.
  intros Hw. pose proof (plain_name_lacks "/" w eq_refl Hw) as Hs.
  apply plain_name_inv in Hw as (H0 & _).
  destruct w as [|a w]; [congruence|].
  cbn in Hs. apply orb_false_iff in Hs as [Ha _].
  destruct ws as [|w' ws].
  - exists a, w. split; [exact Ha|reflexivity].
  - exists a, (w ++ "/" ++ str.join "/" (w' :: ws)). split; [exact Ha|reflexivity].
Qed.

(** A plain path is in normal form. *)
Lemma normpath_plain ws :
  ws <> [] -> Forall (fun w => plain_name w = true) ws ->
  posixpath.normpath (url_of ws) = url_of ws.
Proof.
  intros Hne Hall.
  assert (Hsl : Forall (fun w => str.contains "/" w = false) ws).
  { eapply Forall_impl; [exact Hall|]. intros w. now apply plain_name_lacks. }
  destruct ws as [|w ws]; [congruence|].
  destruct (url_of_cons w ws) as (a & u & Ha & E); [now inversion Hall|].
  unfold posixpath.normpath.
  assert (Hsplit : str.split "/" (url_of (w :: ws)) = "" :: w :: ws).
  { unfold url_of. change ("/" ++ str.join "/" (w :: ws))
      with ("" ++ String "/" (str.join "/" (w :: ws))).
    rewrite split_app by reflexivity. f_equal. now apply split_join. }
  assert (H0 : String.eqb (url_of (w :: ws)) "" = false) by (rewrite E; reflexivity).
  assert (H1 : str.startswith (url_of (w :: ws)) "/" = true) by (rewrite E; reflexivity).
  assert (H2 : str.startswith (url_of (w :: ws)) "//" = false).
  { rewrite E. unfold str.startswith. cbn [String.prefix].
    destruct (ascii_dec "/" "/") as [_|]; [|congruence].
    destruct (ascii_dec "/" a) as [<-|_]; [discriminate|reflexivity]. }
  rewrite Hsplit, H0, H1, H2. cbn [andb Z.eqb Pos.eqb].
  change (fold_left (posixpath.normpath_step 1) ("" :: w :: ws) [])
    with (fold_left (posixpath.normpath_step 1) (w :: ws) []).
  rewrite normpath_fold_plain by exact Hall.
  rewrite app_nil_r, rev_involutive.
  fold (url_of (w :: ws)). rewrite H0. reflexivity.
Qed.

Lemma translate_fold_plain ws root :
  Forall (fun w => plain_name w = true) ws ->
  fold_left SimpleHTTPRequestHandler.translate_step ws root = under root ws.
Proof.
  intros Hall. revert root. induction Hall as [|w ws Hw Hall IH]; intros root.
  - reflexivity.
  - cbn [fold_left under]. unfold under in IH. rewrite IH. f_equal.
    unfold SimpleHTTPRequestHandler.translate_step.
    rewrite dirname_word by now apply (plain_name_lacks "/").
    apply plain_name_inv in Hw as (_ & H1 & H2 & _).
    apply String.eqb_neq in H1, H2. rewrite H1, H2. reflexivity.
Qed.

Lemma filter_nonempty_plain ws :
  Forall (fun w => plain_name w = true) ws ->
  List.filter (fun w => negb (String.eqb w "")) ws = ws.
Proof.
  intros Hall. induction Hall as [|w ws Hw Hall IH]; [reflexivity|].
  cbn [List.filter]. apply plain_name_inv in Hw as (H0 & _).
  apply String.eqb_neq in H0. rewrite H0. cbn. now rewrite IH.
Qed.

(** The translation of a plain path: the names, joined onto the root. *)
Lemma translate_path_plain self ws :
  ws <> [] -> Forall (fun w => plain_name w = true) ws ->
  SimpleHTTPRequestHandler.translate_path self (url_of ws)
  = under (directory self) ws.
Proof.
  intros Hne Hall.
  assert (Hlack : forall d : ascii, str.contains d "?#%" = true ->
                    str.contains d (url_of ws) = false).
  { intros d Hd. unfold url_of.
    assert (Hd' : Ascii.eqb "/" d = false).
    { destruct (Ascii.eqb_spec "/" d) as [<-|]; [discriminate|reflexivity]. }
    cbn [append str.contains]. rewrite Hd'. cbn [orb].
    apply contains_join; [exact Hd'|].
    eapply Forall_impl; [exact Hall|]. intros w Hw.
    apply plain_name_lacks; [|exact Hw].
    change (str.contains d "/?#%") with (Ascii.eqb "/" d || str.contains d "?#%").
    rewrite Hd. apply orb_true_r. }
  assert (Hsp : urllib_parse.all_chars (fun c => negb (str.isspace c)) (url_of ws) = true).
  { unfold url_of. cbn [append urllib_parse.all_chars].
    rewrite no_space_join by exact Hall. reflexivity. }
  unfold SimpleHTTPRequestHandler.translate_path.
  rewrite (before_absent "?") by (apply Hlack; reflexivity).
  rewrite (before_absent "#") by (apply Hlack; reflexivity).
  rewrite rstrip_no_space by exact Hsp.
  rewrite url_of_ends_with_name by assumption.
  rewrite unquote_absent by (apply Hlack; reflexivity).
  rewrite normpath_plain by assumption.
  assert (Hsplit : str.split "/" (url_of ws) = "" :: ws).
  { unfold url_of. change ("/" ++ str.join "/" ws)
      with ("" ++ String "/" (str.join "/" ws)).
    rewrite split_app by reflexivity. f_equal. apply split_join; [exact Hne|].
    eapply Forall_impl; [exact Hall|]. intros w. now apply plain_name_lacks. }
  rewrite Hsplit. cbn [List.filter String.eqb negb].
  rewrite filter_nonempty_plain by exact Hall.
  now apply translate_fold_plain.
Qed.

(** Joining a plain name onto a path appends it, after a slash if need be. *)
Lemma join_plain a w :
  plain_name w = true -> exists pre, posixpath.join a w = pre ++ w.
Proof.
  intros Hw. unfold posixpath.join.
  assert (Hs : str.startswith w "/" = false).
  { pose proof (plain_name_lacks "/" w eq_refl Hw) as Hc.
    destruct w as [|c w]; [reflexivity|].
    cbn in Hc. apply orb_false_iff in Hc as [Hc _].
    unfold str.startswith. cbn [String.prefix].
    destruct (ascii_dec "/" c) as [<-|_]; [discriminate|reflexivity]. }
  rewrite Hs. destruct (_ || _).
  - now exists a.
  - exists (a ++ "/"). now rewrite append_assoc.
Qed.

Lemma under_snoc root ws w :
  under root (ws ++ [w]) = posixpath.join (under root ws) w.
Proof. unfold under. now rewrite fold_left_app. Qed.

Lemma under_ends_with_name root ws :
  ws <> [] -> Forall (fun w => plain_name w = true) ws ->
  str.endswith (under root ws) "/" = false.
Proof.
  intros Hne Hall. destruct (exists_last Hne) as (ws' & w & ->).
  apply Forall_app in Hall as [_ Hw]. apply Forall_inv in Hw.
  rewrite under_snoc. destruct (join_plain (under root ws') w Hw) as [pre ->].
  apply endswith_slash_app.
  - now apply plain_name_inv in Hw.
  - now apply (plain_name_lacks "/").
Qed.

(** ** What [do_GET] sends *)

Lemma unsent_new_handler cwd r : unsent (new_handler cwd r).
Proof. split; reflexivity. Qed.

Lemma has_headers_new_handler cwd r :
  r_version r <> "HTTP/0.9" ->
  BaseHTTPRequestHandler.has_headers (new_handler cwd r) = true.
Proof.
  intros Hv. unfold BaseHTTPRequestHandler.has_headers. cbn [request_version new_handler].
  apply String.eqb_neq in Hv. now rewrite Hv.
Qed.

Lemma fresh_new_handler cwd r :
  r_version r <> "HTTP/0.9" -> fresh (new_handler cwd r).
Proof.
  intros Hv. split; [apply unsent_new_handler|now apply has_headers_new_handler].
Qed.

Lemma default_to_test_page_frame self :
  unsent self -> unsent (serve_test.MyHandler.default_to_test_page self)
  /\ BaseHTTPRequestHandler.has_headers (serve_test.MyHandler.default_to_test_page self)
     = BaseHTTPRequestHandler.has_headers self
  /\ command (serve_test.MyHandler.default_to_test_page self) = command self
  /\ close_connection (serve_test.MyHandler.default_to_test_page self)
     = close_connection self.
Proof.
  unfold serve_test.MyHandler.default_to_test_page.
  destruct (String.eqb _ _); intros [? ?]; repeat split; assumption.
Qed.

Lemma fresh_default_to_test_page self :
  fresh self -> fresh (serve_test.MyHandler.default_to_test_page self).
Proof.
  intros [Hu Hh]. destruct (default_to_test_page_frame self Hu) as (Hu' & Hh' & _).
  split; [exact Hu'|congruence].
Qed.

Lemma send_response_unsent m code msg self :
  unsent self ->
  let self' :=
    BaseHTTPRequestHandler.send_response SimpleHTTPRequestHandler.server_version
      m code msg self in
  wfile self' = []
  /\ _headers_buffer self'
     = if BaseHTTPRequestHandler.has_headers self
       then opening m code (reason_of code msg) else [].
Proof.
  intros [Hb Hw] self'.
  destruct (send_response_spec SimpleHTTPRequestHandler.server_version m code msg self)
    as (_ & Hw' & reason & Hn & Hs & Hb').
  fold self' in Hw', Hb'. split; [congruence|].
  rewrite Hb', Hb.
  assert (Hr : reason = reason_of code msg).
  { destruct msg as [t|]; [now apply Hs|now apply Hn]. }
  rewrite Hr. destruct (BaseHTTPRequestHandler.has_headers self); reflexivity.
Qed.

(** Rewrites the test for header lines of a handler that the library calls
    were applied to into the test of the handler they started from. *)
Ltac same_headers :=
  repeat match goal with
    | |- context [BaseHTTPRequestHandler.has_headers
                    (BaseHTTPRequestHandler.send_header ?k ?v ?s)] =>
        rewrite (has_headers_same _ _ (send_header_frame k v s))
    | |- context [BaseHTTPRequestHandler.has_headers
                    (BaseHTTPRequestHandler.send_response ?sv ?m ?c ?msg ?s)] =>
        rewrite (has_headers_same _ _ (send_response_frame sv m c msg s))
    | |- context [BaseHTTPRequestHandler.has_headers
                    (BaseHTTPRequestHandler.end_headers ?s)] =>
        rewrite (has_headers_same _ _ (end_headers_frame s))
    end.

Lemma send_error_unsent m code msg self :
  unsent self -> code = 404 \/ code = 501 ->
  wfile (BaseHTTPRequestHandler.send_error SimpleHTTPRequestHandler.server_version
           m code (Some msg) self)
  = error_reply m (BaseHTTPRequestHandler.has_headers self) (command self) code msg.
Proof.
  intros Hunsent Hcode.
  unfold BaseHTTPRequestHandler.send_error, error_reply, error_head, error_page.
  assert (Hr : exists s l, BaseHTTPRequestHandler.responses code = Some (s, l)).
  { destruct Hcode as [-> | ->]; eexists _, _; reflexivity. }
  destruct Hr as (s & l & ->). cbv beta iota zeta.
  assert (Hb : (200 <=? code) && negb ((code =? 204) || (code =? 205) || (code =? 304)) = true).
  { destruct Hcode as [-> | ->]; reflexivity. }
  rewrite Hb. cbv beta iota zeta.
  change (default s (Some msg)) with msg.
  set (page := BaseHTTPRequestHandler.error_message_format code (html.escape msg) (html.escape l)).
  assert (Hne : negb (String.eqb page "") = true) by reflexivity.
  rewrite Hne, andb_true_r.
  set (s3 := BaseHTTPRequestHandler.end_headers _).
  assert (H3 : wfile s3
               = block (BaseHTTPRequestHandler.has_headers self)
                   (opening m code msg
                    ++ [ Header "Connection" (Text "close");
                         Header "Content-Type" (Text "text/html;charset=utf-8");
                         Header "Content-Length" (Text (str.of_nat (String.length page)));
                         BlankLine ])%list
               /\ command s3 = command self).
  { unfold s3. rewrite end_headers_wfile, !send_header_wfile, !send_header_buffer.
    same_headers. split.
    - destruct (send_response_unsent m code (Some msg) self Hunsent) as [-> ->].
      cbn [reason_of].
      destruct (BaseHTTPRequestHandler.has_headers self); reflexivity.
    - match goal with
      | |- command ?x = _ => assert (Hf : same_request x self) by frame
      end.
      apply Hf. }
  destruct H3 as [H3 Hc]. rewrite Hc.
  destruct (String.eqb (command self) "HEAD"); cbn [negb].
  - rewrite H3. now rewrite app_nil_r.
  - rewrite write_wfile, H3. reflexivity.
Qed.

(** *** The writes of a body *)

Lemma read_spec n s :
  let r := SimpleHTTPRequestHandler.read n s in
  r.1 ++ r.2 = s
  /\ Z.of_nat (String.length r.1) <= Z.max 0 n
  /\ (r.1 = "" -> s = "" \/ n <= 0).
Proof.
  revert n. induction s as [|a s IH]; intros n; cbn [SimpleHTTPRequestHandler.read].
  - cbn. repeat split; [lia|now left].
  - destruct (n <=? 0) eqn:En.
    + apply Z.leb_le in En. cbn. repeat split; [lia|now right].
    + apply Z.leb_gt in En. specialize (IH (n - 1)). cbv zeta in IH.
      destruct (SimpleHTTPRequestHandler.read (n - 1) s) as [buf rest].
      cbn [fst snd] in *. destruct IH as (E & Hl & _).
      split; [cbn; now rewrite E|]. split; [cbn [String.length]; lia|discriminate].
Qed.

Lemma length_append (s t : string) :
  String.length (s ++ t) = (String.length s + String.length t)%nat.
Proof. induction s as [|a s IH]; cbn; [reflexivity|now rewrite IH]. Qed.

(** With more fuel than bytes the loop of [copyfileobj] ends by an empty
    read: the blocks it wrote make up the file, none of them is empty and
    none is longer than [COPY_BUFSIZE]. *)
Lemma reads_spec fuel s :
  (String.length s < fuel)%nat ->
  body (List.map Bytes (reads fuel s)) = s
  /\ Forall (fun b => b <> ""
                      /\ Z.of_nat (String.length b) <= SimpleHTTPRequestHandler.COPY_BUFSIZE)
       (reads fuel s).
Proof.
  revert s. induction fuel as [|fuel IH]; intros s Hf; [lia|].
  cbn [reads].
  pose proof (read_spec SimpleHTTPRequestHandler.COPY_BUFSIZE s) as Hr. cbv zeta in Hr.
  destruct (SimpleHTTPRequestHandler.read SimpleHTTPRequestHandler.COPY_BUFSIZE s)
    as [buf rest].
  cbn [fst snd] in Hr. destruct Hr as (E & Hl & He).
  destruct (String.eqb_spec buf "") as [->|Hne].
  - destruct (He eq_refl) as [->|Hn]; [split; [reflexivity|constructor]|].
    unfold SimpleHTTPRequestHandler.COPY_BUFSIZE in Hn. lia.
  - assert (Hrest : (String.length rest < fuel)%nat).
    { rewrite <- E, length_append in Hf.
      destruct buf; [congruence|cbn [String.length] in Hf; lia]. }
    destruct (IH rest Hrest) as [Hb Hall].
    split.
    + cbn [List.map body]. now rewrite Hb.
    + constructor; [|exact Hall]. split; [exact Hne|].
      unfold SimpleHTTPRequestHandler.COPY_BUFSIZE in *. lia.
Qed.

(** More fuel changes nothing. *)
Lemma reads_fuel fuel fuel' s :
  (String.length s < fuel)%nat -> (String.length s < fuel')%nat ->
  reads fuel s = reads fuel' s.
Proof.
  revert fuel' s. induction fuel as [|fuel IH]; intros fuel' s Hf Hf'; [lia|].
  destruct fuel' as [|fuel']; [lia|].
  cbn [reads].
  pose proof (read_spec SimpleHTTPRequestHandler.COPY_BUFSIZE s) as Hr. cbv zeta in Hr.
  destruct (SimpleHTTPRequestHandler.read SimpleHTTPRequestHandler.COPY_BUFSIZE s)
    as [buf rest].
  cbn [fst snd] in Hr. destruct Hr as (E & _ & _).
  destruct (String.eqb_spec buf "") as [->|Hne]; [reflexivity|].
  assert (Hrest : (String.length rest < String.length s)%nat).
  { rewrite <- E, length_append. destruct buf; [congruence|cbn [String.length]; lia]. }
  f_equal. apply IH; lia.
Qed.

Lemma body_blocks s : body (blocks s) = s.
Proof. unfold blocks. apply reads_spec. lia. Qed.

Lemma blocks_pieces s :
  exists pieces,
    blocks s = List.map Bytes pieces
    /\ Forall (fun b => b <> ""
                        /\ Z.of_nat (String.length b) <= SimpleHTTPRequestHandler.COPY_BUFSIZE)
         pieces.
Proof.
  exists (reads (S (String.length s)) s). split; [reflexivity|].
  apply reads_spec. lia.
Qed.

(** A file of at most 64 KiB goes out in one write, an empty file in
    none. *)
Lemma read_all n s :
  Z.of_nat (String.length s) <= n -> SimpleHTTPRequestHandler.read n s = (s, "").
Proof.
  revert n. induction s as [|a s IH]; intros n Hn; cbn [SimpleHTTPRequestHandler.read];
    [reflexivity|].
  cbn [String.length] in Hn.
  destruct (n <=? 0) eqn:En; [apply Z.leb_le in En; lia|].
  rewrite IH by lia. reflexivity.
Qed.

Lemma blocks_small s :
  Z.of_nat (String.length s) <= SimpleHTTPRequestHandler.COPY_BUFSIZE ->
  blocks s = if String.eqb s "" then [] else [Bytes s].
Proof.
  intros Hs. unfold blocks. cbn [reads]. rewrite (read_all _ s Hs).
  destruct (String.eqb s ""); [reflexivity|].
  destruct (String.length s); reflexivity.
Qed.

Lemma body_app w1 w2 : body (w1 ++ w2) = body w1 ++ body w2.
Proof.
  induction w1 as [|[ls|d] w1 IH]; cbn [app body]; [reflexivity|exact IH|].
  rewrite IH. clear. induction d as [|a d IHd]; cbn; [reflexivity|now rewrite IHd].
Qed.

Lemma body_block h ls : body (block h ls) = "".
Proof. destruct h; reflexivity. Qed.

Section Unsent.

Import SimpleHTTPRequestHandler.

Variable m : machine.
Variable self : handler.
Hypothesis Hunsent : unsent self.

Let h : bool := BaseHTTPRequestHandler.has_headers self.

(** What [send_head_file] hands back and writes, case by case. *)
Lemma send_head_file_unsent fspath :
  let r := send_head_file m self fspath in
  (r.1, wfile r.2)
  = if str.endswith fspath "/"
    then (Return None, error_reply m h (command self) 404 "File not found")
    else match open m fspath with
         | inr os.OSError =>
             (Return None, error_reply m h (command self) 404 "File not found")
         | inr ValueError => (Raise ValueError, [])
         | inl f =>
             if not_modified self f then (Return None, block h (not_modified_head m))
             else (Return (Some f), block h (file_head m (guess_type m fspath) f))
         end.
Proof.
  unfold send_head_file, h. cbv zeta.
  destruct (str.endswith fspath "/").
  { cbn [fst snd]. rewrite send_error_unsent by (assumption || now left). reflexivity. }
  destruct (open m fspath) as [f|[]].
  2:{ cbn [fst snd]. rewrite send_error_unsent by (assumption || now left). reflexivity. }
  2:{ cbn [fst snd]. destruct Hunsent as [_ ->]. reflexivity. }
  destruct (not_modified self f); cbn [fst snd].
  - rewrite end_headers_wfile. same_headers.
    destruct (send_response_unsent m 304 None self Hunsent) as [-> ->].
    destruct (BaseHTTPRequestHandler.has_headers self); reflexivity.
  - rewrite end_headers_wfile, !send_header_wfile, !send_header_buffer. same_headers.
    destruct (send_response_unsent m 200 None self Hunsent) as [-> ->].
    destruct (BaseHTTPRequestHandler.has_headers self); reflexivity.
Qed.

Lemma list_directory_unsent fspath :
  let r := list_directory m fspath self in
  match listdir m fspath with
  | inr os.OSError =>
      r.1 = Return None
      /\ wfile r.2 = error_reply m h (command self) 404 "No permission to list directory"
  | inr ValueError => r.1 = Raise ValueError /\ wfile r.2 = []
  | inl _ =>
      exists f, r.1 = Return (Some f) /\ st_size f = String.length (content f)
                /\ wfile r.2 = block h (listing_head m (content f))
  end.
Proof.
  unfold list_directory, h. destruct (listdir m fspath) as [names|[]]; cbv zeta.
  - eexists. cbn [fst snd]. split; [reflexivity|]. split; [reflexivity|].
    rewrite end_headers_wfile, !send_header_wfile, !send_header_buffer. same_headers.
    destruct (send_response_unsent m 200 None self Hunsent) as [-> ->].
    destruct (BaseHTTPRequestHandler.has_headers self); reflexivity.
  - cbn [fst snd]. split; [reflexivity|].
    rewrite send_error_unsent by (assumption || now left). reflexivity.
  - cbn [fst snd]. split; [reflexivity|]. apply Hunsent.
Qed.

Lemma open_size fspath f : open m fspath = inl f -> st_size f = String.length (content f).
Proof.
  unfold open. destruct (str.contains NUL fspath); [discriminate|].
  destruct (stat m fspath) as [[[] d t|]|]; try discriminate.
  intros H. injection H as <-. reflexivity.
Qed.

Lemma send_head_file_answer fspath :
  answer m h (command self) (send_head_file m self fspath).1
    (wfile (send_head_file m self fspath).2).
Proof.
  pose proof (send_head_file_unsent fspath) as H. cbv zeta in H.
  destruct (send_head_file m self fspath) as [f s]. cbn [fst snd] in *.
  destruct (str.endswith fspath "/"); [injection H as -> ->; constructor|].
  destruct (open m fspath) as [f0|[]] eqn:Ho; [|injection H as -> ->; constructor..].
  destruct (not_modified self f0); injection H as -> ->; constructor.
  exact (open_size fspath f0 Ho).
Qed.

(** Whatever the request, [send_head] ends in one of the six ways. *)
Lemma send_head_answer :
  answer m h (command self) (send_head m self).1 (wfile (send_head m self).2).
Proof.
  unfold send_head. cbv zeta.
  set (fspath := translate_path self (path self)).
  destruct (isdir m fspath); [|apply send_head_file_answer].
  destruct (negb _).
  { cbn [fst snd]. rewrite end_headers_wfile, !send_header_wfile, !send_header_buffer.
    same_headers.
    destruct (send_response_unsent m 301 None self Hunsent) as [-> ->].
    unfold h. destruct (BaseHTTPRequestHandler.has_headers self);
      [eapply answer_redirect|apply (answer_redirect m false (command self) "")]. }
  destruct (isfile m (posixpath.join fspath "index.html"));
    [apply send_head_file_answer|].
  destruct (isfile m (posixpath.join fspath "index.htm"));
    [apply send_head_file_answer|].
  pose proof (list_directory_unsent fspath) as H. cbv zeta in H.
  destruct (listdir m fspath) as [names|[]].
  - destruct H as (f & -> & Hsz & ->). now constructor.
  - destruct H as [-> ->]. constructor.
  - destruct H as [-> ->]. constructor.
Qed.

(** What the client receives when [send_head] goes on with the file at
    [fspath] and [do_GET] copies it. *)
Lemma copy_after_head_file fspath :
  wfile (match send_head_file m self fspath with
         | (Return (Some f), s) => (Return tt, copyfile f s)
         | (Return None, s) => (Return tt, s)
         | (Raise e, s) => (Raise e, s)
         end).2
  = file_reply m self fspath.
Proof.
  pose proof (send_head_file_unsent fspath) as H.
  cbv zeta in H. unfold file_reply. cbv zeta. fold h.
  destruct (send_head_file m self fspath) as [f s].
  cbn [fst snd] in H.
  destruct (str.endswith fspath "/"); [injection H as -> H; exact H|].
  destruct (open m fspath) as [f0|[]]; [|injection H as -> H; exact H..].
  destruct (not_modified self f0);
    injection H as -> H; [exact H|].
  cbn [snd]. rewrite copyfile_wfile, H. reflexivity.
Qed.

(** A path that names no directory is answered from the file it names. *)
Lemma do_GET_not_directory :
  isdir m (translate_path self (path self)) = false ->
  wfile (do_GET m self).2 = file_reply m self (translate_path self (path self)).
Proof.
  intros Hdir. unfold do_GET, send_head.
  cbv zeta. rewrite Hdir. apply copy_after_head_file.
Qed.

End Unsent.

(** ** How a request is dispatched *)

Lemma handle_simple_server m cwd r :
  handle simple_server.handler m cwd r
  = if String.eqb (r_command r) "GET"
    then wfile (SimpleHTTPRequestHandler.do_GET m (new_handler cwd r)).2
    else if String.eqb (r_command r) "HEAD"
    then wfile (SimpleHTTPRequestHandler.do_HEAD m (new_handler cwd r)).2
    else error_reply m (negb (String.eqb (r_version r) "HTTP/0.9")) (r_command r) 501
           (unsupported (r_command r)).
Proof.
  unfold handle, handle_one_request.
  change (getattr simple_server.handler ("do_" ++ command (new_handler cwd r)))
    with (if String.eqb (r_command r) "GET" then Some SimpleHTTPRequestHandler.do_GET
          else if String.eqb (r_command r) "HEAD" then Some SimpleHTTPRequestHandler.do_HEAD
          else None).
  destruct (String.eqb (r_command r) "GET"); [reflexivity|].
  destruct (String.eqb (r_command r) "HEAD"); [reflexivity|].
  cbn [snd].
  change (cls_server_version simple_server.handler)
    with SimpleHTTPRequestHandler.server_version.
  rewrite send_error_unsent; [reflexivity|apply unsent_new_handler|now right].
Qed.

Lemma handle_serve_test m cwd r :
  handle serve_test.Handler m cwd r
  = if String.eqb (r_command r) "GET"
    then wfile (SimpleHTTPRequestHandler.do_GET m
                  (serve_test.MyHandler.default_to_test_page (new_handler cwd r))).2
    else if String.eqb (r_command r) "HEAD"
    then wfile (SimpleHTTPRequestHandler.do_HEAD m (new_handler cwd r)).2
    else error_reply m (negb (String.eqb (r_version r) "HTTP/0.9")) (r_command r) 501
           (unsupported (r_command r)).
Proof.
  unfold handle, handle_one_request.
  change (getattr serve_test.Handler ("do_" ++ command (new_handler cwd r)))
    with (if String.eqb (r_command r) "GET" then Some serve_test.MyHandler.do_GET
          else if String.eqb (r_command r) "GET" then Some SimpleHTTPRequestHandler.do_GET
          else if String.eqb (r_command r) "HEAD" then Some SimpleHTTPRequestHandler.do_HEAD
          else None).
  destruct (String.eqb (r_command r) "GET"); [reflexivity|].
  destruct (String.eqb (r_command r) "HEAD"); [reflexivity|].
  cbn [snd].
  change (cls_server_version serve_test.Handler) with SimpleHTTPRequestHandler.server_version.
  rewrite send_error_unsent; [reflexivity|apply unsent_new_handler|now right].
Qed.

(** What [do_GET] and [do_HEAD] write, by the answer of [send_head]. *)
Lemma do_GET_wfile m self :
  wfile (SimpleHTTPRequestHandler.do_GET m self).2
  = match (SimpleHTTPRequestHandler.send_head m self).1 with
    | Return (Some f) =>
        (wfile (SimpleHTTPRequestHandler.send_head m self).2 ++ blocks (content f))%list
    | _ => wfile (SimpleHTTPRequestHandler.send_head m self).2
    end.
Proof.
  unfold SimpleHTTPRequestHandler.do_GET.
  destruct (SimpleHTTPRequestHandler.send_head m self) as [[[f|]|e] s];
    cbn [fst snd]; [apply copyfile_wfile|reflexivity..].
Qed.

Lemma do_HEAD_wfile m self :
  wfile (SimpleHTTPRequestHandler.do_HEAD m self).2
  = wfile (SimpleHTTPRequestHandler.send_head m self).2.
Proof.
  unfold SimpleHTTPRequestHandler.do_HEAD.
  destruct (SimpleHTTPRequestHandler.send_head m self) as [[f|e] s]; reflexivity.
Qed.

(** ** Serving an existing file *)

Lemma not_modified_holds_copy self f :
  SimpleHTTPRequestHandler.not_modified self f = true
  <-> holds_copy (headers self) (f_mtime f).
Proof.
  unfold SimpleHTTPRequestHandler.not_modified, holds_copy.
  destruct (get "If-Modified-Since" (headers self)) as [[t|d]|];
    destruct (get "If-None-Match" (headers self)) as [v|]; cbn;
    split; try discriminate;
    try (intros (d' & H & H' & _); discriminate).
  - intros H. apply andb_true_iff in H as [Hz Ht].
    exists d. repeat split; [now apply Z.eqb_eq|now apply Z.leb_le].
  - intros (d' & H & _ & Hz & Ht). injection H as <-.
    apply andb_true_iff. split; [now apply Z.eqb_eq|now apply Z.leb_le].
Qed.

Lemma no_copy_not_modified self f :
  ~ holds_copy (headers self) (f_mtime f) ->
  SimpleHTTPRequestHandler.not_modified self f = false.
Proof.
  intros H. destruct (SimpleHTTPRequestHandler.not_modified self f) eqn:E; [|reflexivity].
  apply not_modified_holds_copy in E. contradiction.
Qed.

(** A path that [stat] finds has no NUL character in it. *)
Lemma stat_no_nul m p n : stat m p = Some n -> str.contains NUL p = false.
Proof. unfold stat. destruct (str.contains NUL p); [discriminate|reflexivity]. Qed.

Lemma stat_open m p data mtime :
  stat m p = Some (RegularFile true data mtime) ->
  open m p = inl {| content := data; st_size := String.length data; f_mtime := mtime |}
  /\ isdir m p = false.
Proof.
  intros H. unfold open, isdir. now rewrite (stat_no_nul m p _ H), H.
Qed.

Lemma url_of_not_root ws :
  ws <> [] -> Forall (fun w => plain_name w = true) ws -> url_of ws <> "/".
Proof.
  intros Hne Hall. destruct ws as [|w ws]; [congruence|].
  destruct (url_of_cons w ws) as (a & u & _ & E); [now inversion Hall|].
  rewrite E. discriminate.
Qed.

(** [MyHandler] handles a GET request for a path other than ["/"] as its
    parent class does. *)
Lemma handle_GET_not_root m cwd p v hs :
  p <> "/" ->
  handle serve_test.Handler m cwd (GET p v hs)
  = handle SimpleHTTPRequestHandler.class m cwd (GET p v hs).
Proof.
  intros Hp. unfold handle, handle_one_request. cbn.
  unfold serve_test.MyHandler.do_GET, serve_test.MyHandler.default_to_test_page.
  cbn. apply String.eqb_neq in Hp. rewrite Hp. reflexivity.
Qed.

(** The answer with a file: what it reads as. *)
Lemma file_reply_file m self fspath f :
  BaseHTTPRequestHandler.has_headers self = true ->
  str.endswith fspath "/" = false ->
  open m fspath = inl f ->
  SimpleHTTPRequestHandler.not_modified self f = false ->
  let w := file_reply m self fspath in
  w = Lines (file_head m (SimpleHTTPRequestHandler.guess_type m fspath) f)
      :: blocks (content f)
  /\ status w = Some 200
  /\ body w = content f
  /\ header "Content-type" w
     = Some (Text (SimpleHTTPRequestHandler.guess_type m fspath))
  /\ header "Content-Length" w = Some (Text (str.of_nat (st_size f)))
  /\ header "Last-Modified" w
     = Some (BaseHTTPRequestHandler.date_time_string (f_mtime f)).
Proof.
  intros Hh Hslash Hopen Hmod w. unfold w, file_reply. cbv zeta.
  rewrite Hh, Hslash, Hopen, Hmod. cbn [block app].
  generalize (SimpleHTTPRequestHandler.guess_type m fspath). intros ctype.
  split; [reflexivity|]. split; [reflexivity|].
  split; [cbn [body]; apply body_blocks|].
  repeat split.
Qed.

(** The answer for a file that cannot be opened, or for a path with a
    slash at its end that names no directory. *)
Lemma file_reply_missing m self fspath :
  BaseHTTPRequestHandler.has_headers self = true ->
  str.endswith fspath "/" = true \/ open m fspath = inr os.OSError ->
  command self <> "HEAD" ->
  let w := file_reply m self fspath in
  w = [Lines (not_found_head m); Bytes not_found_page]
  /\ status w = Some 404
  /\ body w = not_found_page
  /\ header "Content-Type" w = Some (Text "text/html;charset=utf-8").
Proof.
  intros Hh Hmiss Hcmd w. apply String.eqb_neq in Hcmd.
  assert (Hw : w = [Lines (not_found_head m); Bytes not_found_page]).
  { unfold w, file_reply. cbv zeta. rewrite Hh.
    destruct (str.endswith fspath "/") eqn:E.
    - unfold error_reply. rewrite Hcmd. reflexivity.
    - destruct Hmiss as [|Ho]; [discriminate|]. rewrite Ho.
      unfold error_reply. rewrite Hcmd. reflexivity. }
  rewrite Hw. repeat split.
Qed.

(** A conditional request for the test page, by a client that fetched it
    when it was last modified, is answered with 304 and an empty body,
    though the file exists and the path has no [..] segment. *)
Lemma C2_conditional_request_not_200 :
  let hs := [("If-Modified-Since", Date {| tzinfo := Some 0; timestamp := 1700000000 |})] in
  stat host "/srv/www/test-claude-ui.html"
    = Some (RegularFile true "<html>claude</html>" 1700000000)
  /\ status (handle serve_test.Handler host "/srv/www"
               (GET "/test-claude-ui.html" "HTTP/1.1" hs))
     = Some 304
  /\ body (handle serve_test.Handler host "/srv/www"
             (GET "/test-claude-ui.html" "HTTP/1.1" hs))
     = ""
  /\ status (handle simple_server.handler host "/srv/www"
               (GET "/test-claude-ui.html" "HTTP/1.1" hs))
     = Some 304.
Proof. vm_compute. repeat split. Qed.

(** C2, as the code has it.  Let the names [ws] be plain (ASCII characters
    other than ["/"], ["?"], ["#"], ["%"] and white space, none of the
    names empty, ["."] or [".."]), and let the path made of them under the
    working directory name a regular file that can be opened.  Let the
    request be of a version other than HTTP/0.9 and not come from a client
    that holds a copy still good, and let the clock and the file's time lie
    in the years 1 to 9999.  Then both servers answer the GET request for
    ["/" + "/".join(ws)] with status 200, the bytes of the file as the body
    and their number as [Content-Length]. *)
Theorem C2_plain_path_of_readable_file_200 :
  forall (m : machine) (cwd : string) (ws : list string) (v : string)
         (hs : list (string * hvalue)) (data : string) (mtime : Z),
    ws <> [] ->
    Forall (fun w => plain_name w = true) ws ->
    stat m (under cwd ws) = Some (RegularFile true data mtime) ->
    v <> "HTTP/0.9" ->
    ~ holds_copy hs mtime ->
    in_years (clock m) = true ->
    in_years mtime = true ->
    forall cls, cls = simple_server.handler \/ cls = serve_test.Handler ->
    let w := handle cls m cwd (GET (url_of ws) v hs) in
    status w = Some 200
    /\ body w = data
    /\ header "Content-Length" w = Some (Text (str.of_nat (String.length data))).
Proof.
  intros m cwd ws v hs data mtime Hne Hall Hstat Hv Hcopy _ _ cls Hcls w.
  assert (Hw : w = handle SimpleHTTPRequestHandler.class m cwd (GET (url_of ws) v hs)).
  { destruct Hcls as [->| ->]; [reflexivity|].
    apply handle_GET_not_root. now apply url_of_not_root. }
  rewrite Hw. clear w Hw.
  set (self := new_handler cwd (GET (url_of ws) v hs)).
  set (f := {| content := data; st_size := String.length data; f_mtime := mtime |}).
  assert (Htr : SimpleHTTPRequestHandler.translate_path self (path self) = under cwd ws).
  { apply (translate_path_plain self ws Hne Hall). }
  destruct (stat_open m _ _ _ Hstat) as [Hopen Hdir].
  change (handle SimpleHTTPRequestHandler.class m cwd (GET (url_of ws) v hs))
    with (wfile (SimpleHTTPRequestHandler.do_GET m self).2).
  rewrite (do_GET_not_directory m self (unsent_new_handler _ _)) by (rewrite Htr; exact Hdir).
  rewrite Htr.
  destruct (file_reply_file m self (under cwd ws) f) as (_ & Hs & Hb & _ & Hl & _).
  - now apply has_headers_new_handler.
  - now apply under_ends_with_name.
  - exact Hopen.
  - now apply no_copy_not_modified.
  - repeat split; assumption.
Qed.

Lemma C2_witness :
  status (handle serve_test.Handler host "/srv/www"
            (GET "/test-claude-ui.html" "HTTP/1.1" []))
  = Some 200
  /\ body (handle serve_test.Handler host "/srv/www"
             (GET "/test-claude-ui.html" "HTTP/1.1" []))
     = "<html>claude</html>".
Proof.
  assert (Hne : ["test-claude-ui.html"] <> @nil string) by discriminate.
  assert (Hall : Forall (fun w => plain_name w = true) ["test-claude-ui.html"]).
  { repeat constructor. }
  assert (Hstat : stat host (under "/srv/www" ["test-claude-ui.html"])
                  = Some (RegularFile true "<html>claude</html>" 1700000000)).
  { vm_compute. reflexivity. }
  assert (Hv : "HTTP/1.1" <> "HTTP/0.9") by discriminate.
  assert (Hcopy : ~ holds_copy [] 1700000000).
  { intros (d & H & _). discriminate. }
  destruct (C2_plain_path_of_readable_file_200 host "/srv/www"
              ["test-claude-ui.html"] "HTTP/1.1" [] _ _ Hne Hall Hstat Hv Hcopy
              eq_refl eq_refl serve_test.Handler (or_intror eq_refl)) as (Hs & Hb & _).
  split; assumption.
Defined.

(** ** Paths that name no file *)

Lemma handle_GET_resolved cls m cwd p q v hs :
  resolved cls p q ->
  handle cls m cwd (GET p v hs)
  = wfile (SimpleHTTPRequestHandler.do_GET m (new_handler cwd (GET q v hs))).2.
Proof.
  intros [[-> ->]|[-> ->]]; [reflexivity|].
  unfold handle, handle_one_request. cbn.
  unfold serve_test.MyHandler.do_GET, serve_test.MyHandler.default_to_test_page.
  cbn. destruct (String.eqb p "/"); reflexivity.
Qed.

(** While connections arrive and no interrupt, a script that could bind
    goes on serving: it has answered every connection, in order. *)
Lemma serve_test_serving m d rs w :
  address_in_use w ("", 8000) = false ->
  let r := serve_test.main m d (List.map Connection rs) w in
  r.1 = Serving
  /\ sent r.2 = (sent w ++ List.map (handle serve_test.Handler m d) rs)%list
  /\ ("", 8000) ∈ listening r.2.
Proof.
  intros Hfree r. unfold r, serve_test.main, TCPServer_init, serve_test.PORT.
  change (address_in_use (set_cwd d w) ("", 8000)) with (address_in_use w ("", 8000)).
  rewrite Hfree.
  match goal with
  | |- context [serve_forever ?m ?h ?e ?w0] =>
      pose proof (serve_forever_sent m h e w0) as Hs;
      pose proof (serve_forever_connections m h rs w0) as Hr;
      pose proof (serve_forever_world m h e w0) as Hw;
      destruct (serve_forever m h e w0) as [e' w1]
  end.
  cbn [fst snd] in Hs, Hr, Hw. subst e'. destruct Hw as (_ & Hl & _).
  cbn [fst snd]. split; [reflexivity|]. split.
  - rewrite Hs. cbn [sent print set_listening set_cwd cwd RequestHandlerClass].
    f_equal. clear. induction rs as [|r rs IH]; [reflexivity|].
    cbn [List.map served]. now rewrite IH.
  - rewrite Hl. cbn. apply elem_of_union. left. now apply elem_of_singleton.
Qed.

Lemma simple_server_serving m rs w :
  address_in_use w ("", 8000) = false ->
  let r := simple_server.main m (List.map Connection rs) w in
  r.1 = Serving
  /\ sent r.2 = (sent w ++ List.map (handle simple_server.handler m (cwd w)) rs)%list
  /\ ("", 8000) ∈ listening r.2.
Proof.
  intros Hfree r. unfold r, simple_server.main, TCPServer_init, simple_server.PORT.
  rewrite Hfree.
  match goal with
  | |- context [serve_forever ?m ?h ?e ?w0] =>
      pose proof (serve_forever_sent m h e w0) as Hs;
      pose proof (serve_forever_connections m h rs w0) as Hr;
      pose proof (serve_forever_world m h e w0) as Hw;
      destruct (serve_forever m h e w0) as [e' w1]
  end.
  cbn [fst snd] in Hs, Hr, Hw. subst e'. destruct Hw as (_ & Hl & _).
  cbn [fst snd]. split; [reflexivity|]. split.
  - rewrite Hs. cbn [sent print set_listening cwd RequestHandlerClass].
    f_equal. clear. induction rs as [|r rs IH]; [reflexivity|].
    cbn [List.map served]. now rewrite IH.
  - rewrite Hl. cbn. apply elem_of_union. left. now apply elem_of_singleton.
Qed.

(** A directory is not a file, and a request for one is not answered with
    404: without the trailing slash the server redirects, with it the
    server lists the directory.  A path with an escaped NUL character
    names no file either, and is not answered at all: [open] raises
    [ValueError], which [send_head] does not catch. *)
Lemma C3_directory_not_404 :
  stat host "/srv/www/docs" = Some (Directory true [])
  /\ status (handle serve_test.Handler host "/srv/www" (GET "/docs" "HTTP/1.1" []))
     = Some 301
  /\ header "Location" (handle serve_test.Handler host "/srv/www" (GET "/docs" "HTTP/1.1" []))
     = Some (Text "/docs/")
  /\ status (handle serve_test.Handler host "/srv/www" (GET "/docs/" "HTTP/1.1" []))
     = Some 200
  /\ status (handle simple_server.handler host "/srv/www" (GET "/docs" "HTTP/1.1" []))
     = Some 301
  /\ stat host "/srv/www/a%00" = None
  /\ handle serve_test.Handler host "/srv/www" (GET "/a%00" "HTTP/1.1" []) = []
  /\ (handle_one_request simple_server.handler host
        (new_handler "/srv/www" (GET "/a%00" "HTTP/1.1" []))).1
     = Raise ValueError.
Proof. vm_compute. repeat split. Qed.

(** C3, as the code has it.  Let the path handed to the static file code
    unquote to ASCII text and translate to a file system path that names
    no directory and for which [open] fails with [OSError] (no such file,
    no permission; a path with a NUL character is not among these).  Then
    the GET request, of a version other than HTTP/0.9 and on a machine
    whose clock is in the years 1 to 9999, is answered with status 404 and
    the library's error page ("File not found").  The script goes on: with
    the request anywhere among the connections that arrive, it is still
    serving after them, and it has answered each of them, those after the
    404 as well. *)
Theorem C3_no_file_no_directory_404 :
  forall (m : machine) (dir : string) (p q v : string)
         (hs : list (string * hvalue)) (cls : handler_class),
    resolved cls p q ->
    let fspath :=
      SimpleHTTPRequestHandler.translate_path (new_handler dir (GET q v hs)) q in
    is_ascii (urllib_parse.unquote (file_part q)) = true ->
    isdir m fspath = false ->
    open m fspath = inr os.OSError ->
    v <> "HTTP/0.9" ->
    in_years (clock m) = true ->
    let w := handle cls m dir (GET p v hs) in
    status w = Some 404
    /\ body w = not_found_page
    /\ header "Content-Type" w = Some (Text "text/html;charset=utf-8")
    /\ (cls = serve_test.Handler ->
        forall (rs1 rs2 : list request) (w0 : world),
          address_in_use w0 ("", 8000) = false ->
          let r :=
            serve_test.main m dir
              (List.map Connection (rs1 ++ GET p v hs :: rs2)) w0 in
          r.1 = Serving
          /\ sent r.2
             = (sent w0 ++ List.map (handle cls m dir) rs1
                ++ w :: List.map (handle cls m dir) rs2)%list)
    /\ (cls = simple_server.handler ->
        forall (rs1 rs2 : list request) (w0 : world),
          address_in_use w0 ("", 8000) = false ->
          cwd w0 = dir ->
          let r :=
            simple_server.main m
              (List.map Connection (rs1 ++ GET p v hs :: rs2)) w0 in
          r.1 = Serving
          /\ sent r.2
             = (sent w0 ++ List.map (handle cls m dir) rs1
                ++ w :: List.map (handle cls m dir) rs2)%list).
Proof.
  intros m dir p q v hs cls Hres fspath _ Hdir Hopen Hv _ w.
  unfold w. rewrite (handle_GET_resolved cls m dir p q v hs Hres).
  set (self := new_handler dir (GET q v hs)).
  rewrite (do_GET_not_directory m self (unsent_new_handler _ _) Hdir).
  destruct (file_reply_missing m self fspath) as (_ & Hs & Hb & Hc).
  { now apply has_headers_new_handler. }
  { now right. }
  { cbn. discriminate. }
  split; [exact Hs|]. split; [exact Hb|]. split; [exact Hc|].
  assert (Hw : handle cls m dir (GET p v hs)
               = file_reply m self
                   (SimpleHTTPRequestHandler.translate_path self (path self))).
  { rewrite (handle_GET_resolved cls m dir p q v hs Hres).
    exact (do_GET_not_directory m self (unsent_new_handler _ _) Hdir). }
  rewrite <- Hw. split.
  - intros -> rs1 rs2 w0 Hfree.
    destruct (serve_test_serving m dir (rs1 ++ GET p v hs :: rs2) w0 Hfree) as (Ht & Hsent & _).
    split; [exact Ht|]. rewrite Hsent, map_app. reflexivity.
  - intros -> rs1 rs2 w0 Hfree Hcwd.
    destruct (simple_server_serving m (rs1 ++ GET p v hs :: rs2) w0 Hfree) as (Ht & Hsent & _).
    split; [exact Ht|]. rewrite Hsent, Hcwd, map_app. reflexivity.
Qed.

Lemma C3_witness :
  status (handle serve_test.Handler host "/srv/www" (GET "/missing.html" "HTTP/1.1" []))
  = Some 404.
Proof.
  apply (C3_no_file_no_directory_404 host "/srv/www" "/missing.html" "/missing.html"
           "HTTP/1.1" [] serve_test.Handler).
  - right. split; reflexivity.
  - vm_compute. reflexivity.
  - vm_compute. reflexivity.
  - vm_compute. reflexivity.
  - discriminate.
  - reflexivity.
Defined.

(** ** The root path without a default document *)


Lemma join_after_slash a w :
  str.startswith w "/" = false -> posixpath.join (a ++ "/") w = a ++ "/" ++ w.
Proof.
  intros Hw. unfold posixpath.join. rewrite Hw, endswith_app, orb_true_r.
  apply append_assoc.
Qed.

(** *** The order of a listing *)






(** *** The answer with a listing *)



Section RootDirectory.

Import SimpleHTTPRequestHandler.

Variable m : machine.
Variable self : handler.
Hypothesis Hunsent : unsent self.
Hypothesis Hpath : path self = "/".
Hypothesis Hdir : isdir m (directory self ++ "/") = true.



End RootDirectory.

Lemma stat_isfile m p r data mtime :
  stat m p = Some (RegularFile r data mtime) -> isfile m p = true.
Proof. intros H. unfold isfile. now rewrite H. Qed.

Lemma stat_unreadable m p data mtime :
  stat m p = Some (RegularFile false data mtime) -> open m p = inr os.OSError.
Proof. intros H. unfold open. now rewrite (stat_no_nul m p _ H), H. Qed.


(** The answer with an index file: the file when it can be opened, 404
    when it cannot. *)
Lemma index_reply m self fspath r data mtime :
  fresh self ->
  command self <> "HEAD" ->
  str.endswith fspath "/" = false ->
  stat m fspath = Some (RegularFile r data mtime) ->
  let w := file_reply m self fspath in
  if r then
    ~ holds_copy (headers self) mtime -> status w = Some 200 /\ body w = data
  else status w = Some 404 /\ body w = not_found_page.
Proof.
  intros [_ Hh] Hcmd Hend Hstat w. destruct r.
  - intros Hcopy. destruct (stat_open m _ _ _ Hstat) as [Hopen _].
    destruct (file_reply_file m self fspath _ Hh Hend Hopen) as (_ & Hs & Hb & _).
    { now apply no_copy_not_modified. }
    split; assumption.
  - destruct (file_reply_missing m self fspath Hh) as (_ & Hs & Hb & _);
      [right; now apply (stat_unreadable m _ data mtime)|exact Hcmd|].
    split; assumption.
Qed.




(** ** Confinement to the working directory *)

Lemma split_nonempty c s : str.split c s <> [].
Proof.
  destruct s as [|a s]; cbn; [discriminate|].
  destruct (Ascii.eqb a c); [discriminate|].
  destruct (str.split c s); discriminate.
Qed.

Lemma split_app_sep c a b :
  str.split c (a ++ String c b) = (str.split c a ++ str.split c b)%list.
Proof.
  induction a as [|x a IH]; cbn.
  - rewrite Ascii.eqb_refl. reflexivity.
  - destruct (Ascii.eqb x c); [now rewrite IH|].
    rewrite IH. pose proof (split_nonempty c a) as Hne.
    destruct (str.split c a); [congruence|reflexivity].
Qed.





Lemma endswith_slash_inv s :
  str.endswith s "/" = true -> exists a, s = a ++ "/".
Proof.
  induction s as [|x s IH]; cbn; [discriminate|].
  intros H. apply orb_true_iff in H as [H|H].
  - destruct s; [|destruct (Ascii.eqb x "/"); discriminate].
    rewrite orb_false_r in H || idtac.
    exists "". cbn. destruct (Ascii.eqb_spec x "/") as [->|]; [reflexivity|].
    cbn in H. discriminate.
  - destruct (IH H) as [a ->]. now exists (String x a).
Qed.











(** The path that tries to leave the root names [etc/passwd] under it. *)
Example escape_lands_under_root :
  SimpleHTTPRequestHandler.translate_path
    (new_handler "/srv/www" (GET "/../../etc/passwd" "HTTP/1.1" [])) "/../../etc/passwd"
  = "/srv/www/etc/passwd".
Proof. reflexivity. Qed.

(** ** The content type *)

Lemma splittype_absolute p :
  str.startswith p "/" = true -> urllib_parse.splittype p = (None, p).
Proof.
  intros Hp. unfold urllib_parse.splittype.
  destruct (0 <? str.find ":" p) eqn:Hi; [|reflexivity].
  apply Z.ltb_lt in Hi.
  assert (Hc : str.contains "/" (str.upto (str.find ":" p) p) = true).
  { destruct p as [|c u]; [discriminate|].
    unfold str.startswith in Hp. cbn [String.prefix] in Hp.
    destruct (ascii_dec "/" c) as [<-|]; [|discriminate].
    unfold str.upto. destruct (Z.to_nat (str.find ":" (String "/" u))) eqn:En; [lia|].
    reflexivity. }
  rewrite Hc. reflexivity.
Qed.

(** The type of an absolute path with an ordinary extension is the one the
    machine's MIME table gives for the extension in lower case, and
    [application/octet-stream] when the table has none. *)
Lemma guess_type_ordinary m p :
  str.startswith p "/" = true ->
  ordinary (extension p) = true ->
  SimpleHTTPRequestHandler.guess_type m p = from_table (types_map m) (extension p).
Proof.
  intros Hp Ho. unfold ordinary in Ho.
  apply andb_true_iff in Ho as [Ho Henc].
  apply andb_true_iff in Ho as [Ho Hsuf].
  apply andb_true_iff in Ho as [Hext Hlow].
  apply bool_decide_eq_true in Henc, Hsuf, Hext, Hlow.
  unfold SimpleHTTPRequestHandler.guess_type, mimetypes.guess_type, extension in *.
  rewrite (splittype_absolute p Hp).
  destruct (posixpath.splitext p) as [base ext]. cbn [snd] in *.
  rewrite Hext, Hlow.
  rewrite bool_decide_eq_false_2 by discriminate.
  cbn [mimetypes.suffix_loop]. rewrite Hsuf.
  rewrite bool_decide_eq_false_2 by (rewrite Henc; intros [? ?]; discriminate).
  unfold from_table. destruct (types_map m !! str.lower ext); reflexivity.
Qed.

Lemma startswith_slash_app s t :
  str.startswith s "/" = true -> str.startswith (s ++ t) "/" = true.
Proof.
  destruct s as [|c u]; [discriminate|].
  unfold str.startswith. cbn [append String.prefix].
  destruct (ascii_dec "/" c); [|discriminate].
  intros _. destruct (u ++ t); reflexivity.
Qed.

Lemma under_absolute root ws :
  str.startswith root "/" = true ->
  Forall (fun w => plain_name w = true) ws ->
  str.startswith (under root ws) "/" = true.
Proof.
  intros Hr Hall. revert root Hr. induction Hall as [|w ws Hw Hall IH]; intros root Hr.
  - exact Hr.
  - cbn [under fold_left]. apply IH. unfold posixpath.join.
    destruct (str.startswith w "/") eqn:Es; [exact Es|].
    destruct (_ || _); now apply startswith_slash_app.
Qed.

(** *** The extension of a file name *)

Lemma length_app (s t : string) :
  String.length (s ++ t) = (String.length s + String.length t)%nat.
Proof. induction s as [|a s IH]; cbn; [reflexivity|now rewrite IH]. Qed.

Lemma rfind_bounds c s : -1 <= str.rfind c s < Z.of_nat (String.length s).
Proof.
  induction s as [|a s IH]; cbn [str.rfind String.length]; [lia|].
  destruct (0 <=? str.rfind c s) eqn:E; [lia|].
  destruct (Ascii.eqb a c); lia.
Qed.

Lemma rfind_app_absent c s t :
  str.contains c t = false -> str.rfind c (s ++ t) = str.rfind c s.
Proof.
  intros Ht. induction s as [|a s IH]; cbn [append str.rfind].
  - rewrite (rfind_absent c t Ht). reflexivity.
  - now rewrite IH.
Qed.

Lemma rfind_app_last c s t :
  str.contains c t = false ->
  str.rfind c (s ++ String c t) = Z.of_nat (String.length s).
Proof.
  intros Ht. induction s as [|a s IH]; cbn [append str.rfind String.length].
  - rewrite (rfind_absent c t Ht), Ascii.eqb_refl. reflexivity.
  - rewrite IH. destruct (0 <=? Z.of_nat (String.length s)) eqn:E; [lia|].
    apply Z.leb_gt in E. lia.
Qed.

Lemma substring_prefix s t : String.substring 0 (String.length s) (s ++ t) = s.
Proof.
  induction s as [|a s IH]; cbn; [destruct t; reflexivity|now rewrite IH].
Qed.

Lemma substring_whole t : String.substring 0 (String.length t) t = t.
Proof. induction t as [|a t IH]; cbn; [reflexivity|now rewrite IH]. Qed.

Lemma substring_suffix s t :
  String.substring (String.length s) (String.length t) (s ++ t) = t.
Proof.
  induction s as [|a s IH]; cbn [append String.length String.substring].
  - apply substring_whole.
  - exact IH.
Qed.

Lemma upto_app s t : str.upto (Z.of_nat (String.length s)) (s ++ t) = s.
Proof. unfold str.upto. rewrite Nat2Z.id. apply substring_prefix. Qed.

Lemma from_app s t : str.from (Z.of_nat (String.length s)) (s ++ t) = t.
Proof.
  unfold str.from. rewrite Nat2Z.id, length_app.
  replace (String.length s + String.length t - String.length s)%nat
    with (String.length t) by lia.
  apply substring_suffix.
Qed.

Lemma get_app s c t : String.get (String.length s) (s ++ String c t) = Some c.
Proof. induction s as [|a s IH]; cbn; [reflexivity|exact IH]. Qed.

(** The loop that skips leading dots stops at a character that is no dot. *)
Lemma has_stem_hit p c k n i :
  String.get k p = Some c -> c <> "."%char ->
  (i <= k < i + n)%nat -> posixpath.has_stem p i n = true.
Proof.
  intros Hk Hc. revert i. induction n as [|n IH]; intros i Hi; [lia|].
  cbn [posixpath.has_stem].
  destruct (String.get i p) as [x|] eqn:Ex; [|reflexivity].
  destruct (Ascii.eqb_spec x ".") as [->|]; [|reflexivity].
  apply IH. assert (i <> k) by (intros ->; congruence). lia.
Qed.

(** [splitext] of a name that ends in a dot and an extension, after a stem
    with a character that is no dot. *)
Lemma splitext_name a c b e :
  c <> "."%char ->
  str.contains "/" (String c b) = false ->
  str.contains "." e = false ->
  str.contains "/" e = false ->
  posixpath.splitext (a ++ String c b ++ String "." e)
  = (a ++ String c b, String "." e).
Proof.
  intros Hc Hb He Hes.
  set (s := a ++ String c b).
  assert (Ep : a ++ String c b ++ String "." e = s ++ String "." e).
  { unfold s. now rewrite append_assoc. }
  rewrite Ep. unfold posixpath.splitext.
  rewrite (rfind_app_last "." s e He).
  assert (Hsep : str.rfind "/" (s ++ String "." e) = str.rfind "/" a).
  { rewrite rfind_app_absent by (cbn; exact Hes).
    unfold s. now apply rfind_app_absent. }
  rewrite Hsep.
  pose proof (rfind_bounds "/" a) as Hbd.
  assert (Hlen : String.length s = (String.length a + S (String.length b))%nat).
  { unfold s. rewrite length_app. reflexivity. }
  assert (Hlt : (str.rfind "/" a <? Z.of_nat (String.length s)) = true).
  { apply Z.ltb_lt. lia. }
  rewrite Hlt. cbn [andb].
  rewrite (has_stem_hit (s ++ String "." e) c (String.length a)).
  - rewrite upto_app, from_app. reflexivity.
  - unfold s. rewrite append_assoc. cbn [append]. apply get_app.
  - exact Hc.
  - lia.
Qed.

Lemma has_name_char_inv stem :
  has_name_char stem = true ->
  exists a c b, stem = a ++ String c b /\ c <> "."%char.
Proof.
  unfold has_name_char. induction stem as [|x stem IH]; cbn; [discriminate|].
  destruct (Ascii.eqb_spec x ".") as [->|Hx]; cbn.
  - intros H. destruct (IH H) as (a & c & b & -> & Hc).
    exists (String "." a), c, b. split; [reflexivity|exact Hc].
  - intros _. exists "", x, stem. split; [reflexivity|exact Hx].
Qed.

(** The extension of [pre + stem + "." + e] is ["." + e], when [stem] and
    [e] have no slash, [e] has no dot, and [stem] is more than dots. *)
Lemma extension_of_name pre stem e :
  has_name_char stem = true ->
  str.contains "/" stem = false ->
  str.contains "." e = false ->
  str.contains "/" e = false ->
  extension (pre ++ stem ++ String "." e) = String "." e.
Proof.
  intros Hn Hs He Hes. destruct (has_name_char_inv stem Hn) as (a & c & b & -> & Hc).
  rewrite contains_app in Hs. apply orb_false_iff in Hs as [_ Hs].
  unfold extension.
  replace (pre ++ (a ++ String c b) ++ String "." e)
    with ((pre ++ a) ++ String c b ++ String "." e)
    by (rewrite !append_assoc; reflexivity).
  rewrite splitext_name by assumption. reflexivity.
Qed.

(** The loop over [suffix_map] needs one turn: what it appends ends in an
    extension that is no key of the table, so more fuel changes nothing. *)
Lemma suffix_loop_fuel n base ext :
  mimetypes.suffix_loop (S n) base ext = mimetypes.suffix_loop 1 base ext.
Proof.
  cbn [mimetypes.suffix_loop].
  destruct (mimetypes.suffix_map !! str.lower ext) as [full|] eqn:E; [|reflexivity].
  apply elem_of_list_to_map_2 in E.
  assert (Hfull : full = ".svg.gz" \/ full = ".tar.gz" \/ full = ".tar.bz2"
                  \/ full = ".tar.xz").
  { repeat (apply elem_of_cons in E as [E|E]; [injection E as _ ->; tauto|]).
    inversion E. }
  assert (Hsplit : exists stem e,
            posixpath.splitext (base ++ full) = (stem, e)
            /\ mimetypes.suffix_map !! str.lower e = None).
  { destruct Hfull as [-> | [-> | [-> | ->]]].
    - exists (base ++ ".svg"), ".gz". split; [|reflexivity].
      replace (base ++ ".svg.gz")
        with ((base ++ ".") ++ String "s" "vg" ++ String "." "gz")
        by (rewrite append_assoc; reflexivity).
      rewrite splitext_name by (reflexivity || discriminate).
      now rewrite append_assoc.
    - exists (base ++ ".tar"), ".gz". split; [|reflexivity].
      replace (base ++ ".tar.gz")
        with ((base ++ ".") ++ String "t" "ar" ++ String "." "gz")
        by (rewrite append_assoc; reflexivity).
      rewrite splitext_name by (reflexivity || discriminate).
      now rewrite append_assoc.
    - exists (base ++ ".tar"), ".bz2". split; [|reflexivity].
      replace (base ++ ".tar.bz2")
        with ((base ++ ".") ++ String "t" "ar" ++ String "." "bz2")
        by (rewrite append_assoc; reflexivity).
      rewrite splitext_name by (reflexivity || discriminate).
      now rewrite append_assoc.
    - exists (base ++ ".tar"), ".xz". split; [|reflexivity].
      replace (base ++ ".tar.xz")
        with ((base ++ ".") ++ String "t" "ar" ++ String "." "xz")
        by (rewrite append_assoc; reflexivity).
      rewrite splitext_name by (reflexivity || discriminate).
      now rewrite append_assoc. }
  destruct Hsplit as (stem & e & -> & Hk).
  destruct n; cbn [mimetypes.suffix_loop]; [reflexivity|]. now rewrite Hk.
Qed.

(** On a machine whose MIME table lists [text/javascript] for [js], a
    script is served with that type, not with [application/javascript]. *)
Lemma C8_js_type_follows_system_table :
  types_map debian !! ".js" = Some "text/javascript"
  /\ status (handle serve_test.Handler debian "/srv/www" (GET "/app.js" "HTTP/1.1" [])) = Some 200
  /\ header "Content-type" (handle serve_test.Handler debian "/srv/www" (GET "/app.js" "HTTP/1.1" []))
     = Some (Text "text/javascript")
  /\ header "Content-type" (handle simple_server.handler debian "/srv/www" (GET "/app.js" "HTTP/1.1" []))
     = Some (Text "text/javascript").
Proof. vm_compute. repeat split. Qed.

(** C8, as the code has it.  Let a file named [stem.e] under the working
    directory be served: plain names in ASCII, a stem that is more than
    dots, an absolute working directory, a request of a version other than
    HTTP/0.9, no copy held by the client, the clock and the file's time in
    the years 1 to 9999.  Let the extension be one that none of the special
    tables knows: not in the handler's own [extensions_map] ([.gz], [.Z],
    [.bz2], [.xz]) as it is or in lower case, no abbreviation of
    [suffix_map] ([.svgz], [.tgz], [.taz], [.tz], [.tbz2], [.txz]) in lower
    case, and no encoding of [encodings_map] ([.gz], [.Z], [.bz2], [.xz],
    [.br]).  Then the [Content-type] is the type the machine's MIME table
    gives for [.e] in lower case, and [application/octet-stream] when the
    table has no entry.  So [.html] is served as [text/html], [.css] as
    [text/css] and [.js] as [application/javascript] on a machine whose
    table has these entries, as CPython's built-in table does. *)
Theorem C8_content_type_from_mime_table :
  forall (m : machine) (dir : string) (ws : list string) (stem e v : string)
         (hs : list (string * hvalue)) (data : string) (mtime : Z)
         (cls : handler_class),
    let name := stem ++ String "." e in
    Forall (fun w => plain_name w = true) ws ->
    plain_name name = true ->
    has_name_char stem = true ->
    str.contains "." e = false ->
    str.startswith dir "/" = true ->
    ordinary (String "." e) = true ->
    stat m (under dir (ws ++ [name])) = Some (RegularFile true data mtime) ->
    v <> "HTTP/0.9" ->
    ~ holds_copy hs mtime ->
    in_years (clock m) = true ->
    in_years mtime = true ->
    cls = simple_server.handler \/ cls = serve_test.Handler ->
    let w := handle cls m dir (GET (url_of (ws ++ [name])) v hs) in
    status w = Some 200
    /\ header "Content-type" w = Some (Text (from_table (types_map m) (String "." e)))
    /\ (forall t, types_map m !! str.lower (String "." e) = Some t -> t <> "" ->
          header "Content-type" w = Some (Text t))
    /\ (types_map m !! str.lower (String "." e) = None ->
          header "Content-type" w = Some (Text "application/octet-stream")).
Proof.
  intros m dir ws stem e v hs data mtime cls name Hall Hname Hstem He Hdir Hord
    Hstat Hv Hcopy _ _ Hcls w.
  assert (Hall' : Forall (fun w => plain_name w = true) (ws ++ [name])).
  { apply Forall_app. split; [exact Hall|now repeat constructor]. }
  assert (Hne : (ws ++ [name])%list <> []) by (destruct ws; discriminate).
  assert (Hw : w = handle SimpleHTTPRequestHandler.class m dir
                     (GET (url_of (ws ++ [name])) v hs)).
  { destruct Hcls as [->| ->]; [reflexivity|].
    apply handle_GET_not_root. now apply url_of_not_root. }
  set (self := new_handler dir (GET (url_of (ws ++ [name])) v hs)).
  set (f := {| content := data; st_size := String.length data; f_mtime := mtime |}).
  assert (Htr : SimpleHTTPRequestHandler.translate_path self (path self)
                = under dir (ws ++ [name])).
  { apply (translate_path_plain self _ Hne Hall'). }
  destruct (stat_open m _ _ _ Hstat) as [Hopen Hisdir].
  assert (Hreply : w = file_reply m self (under dir (ws ++ [name]))).
  { rewrite Hw, <- Htr.
    apply (do_GET_not_directory m self (unsent_new_handler _ _)).
    rewrite Htr. exact Hisdir. }
  destruct (file_reply_file m self (under dir (ws ++ [name])) f) as (_ & Hs & _ & Hc & _).
  { now apply has_headers_new_handler. }
  { now apply under_ends_with_name. }
  { exact Hopen. }
  { now apply no_copy_not_modified. }
  rewrite <- Hreply in Hs, Hc.
  assert (Hext : extension (under dir (ws ++ [name])) = String "." e).
  { rewrite under_snoc. destruct (join_plain (under dir ws) name Hname) as [pre ->].
    pose proof (plain_name_lacks "/" name eq_refl Hname) as Hsl.
    unfold name in Hsl |- *. rewrite contains_app in Hsl.
    apply orb_false_iff in Hsl as [Hsl1 Hsl2]. cbn in Hsl2.
    apply extension_of_name; assumption. }
  assert (Hg : SimpleHTTPRequestHandler.guess_type m (under dir (ws ++ [name]))
               = from_table (types_map m) (String "." e)).
  { rewrite guess_type_ordinary; rewrite ?Hext; try reflexivity; try assumption.
    now apply under_absolute. }
  rewrite Hg in Hc.
  split; [exact Hs|]. split; [exact Hc|]. split.
  - intros t Ht Hnz. rewrite Hc. unfold from_table. rewrite Ht.
    apply String.eqb_neq in Hnz. now rewrite Hnz.
  - intros Ht. rewrite Hc. unfold from_table. now rewrite Ht.
Qed.

Lemma C8_witness :
  header "Content-type"
    (handle serve_test.Handler host "/srv/www"
       (GET "/test-claude-ui.html" "HTTP/1.1" []))
  = Some (Text "text/html").
Proof.
  assert (Hcopy : ~ holds_copy [] 1700000000).
  { intros (d & H & _). discriminate. }
  assert (Hstat : stat host (under "/srv/www" ([] ++ ["test-claude-ui" ++ String "." "html"]))
                  = Some (RegularFile true "<html>claude</html>" 1700000000)).
  { vm_compute. reflexivity. }
  assert (Hv : "HTTP/1.1" <> "HTTP/0.9") by discriminate.
  destruct (C8_content_type_from_mime_table host "/srv/www" [] "test-claude-ui" "html"
              "HTTP/1.1" [] "<html>claude</html>" 1700000000 serve_test.Handler
              (List.Forall_nil _) eq_refl eq_refl eq_refl eq_refl eq_refl Hstat Hv Hcopy
              eq_refl eq_refl (or_intror eq_refl))
    as (_ & _ & H & _).
  apply (H "text/html"); [vm_compute; reflexivity|discriminate].
Defined.

(** With CPython's built-in table: a style sheet, a script, and a file with
    an extension the table does not know. *)
Example builtin_table_types :
  from_table mimetypes.types_map_default ".html" = "text/html"
  /\ from_table mimetypes.types_map_default ".css" = "text/css"
  /\ from_table mimetypes.types_map_default ".js" = "application/javascript"
  /\ from_table mimetypes.types_map_default ".CSS" = "text/css"
  /\ from_table mimetypes.types_map_default ".claude" = "application/octet-stream"
  /\ header "Content-type" (handle serve_test.Handler host "/srv/www" (GET "/app.js" "HTTP/1.1" []))
     = Some (Text "application/javascript").
Proof. vm_compute. repeat split. Qed.

(** * Further properties *)

(** ** Connections and responses *)

(** X1.  Each script answers the connections that arrive before the first
    interrupt, one response for each and in the order of arrival, and none
    that arrive after it.  A response is what the handler class gives for
    that request alone, whatever was asked before.  [serve-test.py] looks
    the files up in the directory of the script, to which it has changed;
    [simple-server.py] in the directory it was started in.  When the port
    is taken, nothing is sent. *)
Theorem responses_follow_connections :
  forall (m : machine) (script_dir : string) (evs : list event) (w : world),
    sent (serve_test.main m script_dir evs w).2
    = (sent w ++ if address_in_use w ("", 8000) then []
                 else List.map (handle serve_test.Handler m script_dir) (served evs))%list
    /\ sent (simple_server.main m evs w).2
       = (sent w ++ if address_in_use w ("", 8000) then []
                    else List.map (handle simple_server.handler m (cwd w)) (served evs))%list.
Proof.
  intros m d evs w. split.
  - unfold serve_test.main, TCPServer_init, serve_test.PORT.
    change (address_in_use (set_cwd d w) ("", 8000)) with (address_in_use w ("", 8000)).
    destruct (address_in_use w ("", 8000)); [cbn; now rewrite app_nil_r|].
    match goal with
    | |- context [serve_forever ?m ?h ?e ?w0] =>
        pose proof (serve_forever_sent m h e w0) as Hs;
        pose proof (serve_forever_result m h e w0) as Hr;
        destruct (serve_forever m h e w0) as [e' w1]
    end.
    cbn [fst snd] in Hs, Hr. subst e'.
    destruct (interrupted evs); cbn; exact Hs.
  - unfold simple_server.main, TCPServer_init, simple_server.PORT.
    destruct (address_in_use w ("", 8000)); [cbn; now rewrite app_nil_r|].
    match goal with
    | |- context [serve_forever ?m ?h ?e ?w0] =>
        pose proof (serve_forever_sent m h e w0) as Hs;
        pose proof (serve_forever_result m h e w0) as Hr;
        destruct (serve_forever m h e w0) as [e' w1]
    end.
    cbn [fst snd] in Hs, Hr. subst e'.
    destruct (interrupted evs); cbn; exact Hs.
Qed.

(** X2.  A script ends in two ways only.  When the address is in use, the
    constructor of [TCPServer] fails and the exit status is 1, with the
    listening addresses as they were.  When an interrupt arrives,
    [serve-test.py] exits with status 0 and [simple-server.py] is ended by
    the signal, and the address is no longer listened on.  In every other
    case the script is still serving, and its address is among the
    listening ones.  The system calls are, in this order: the change of
    directory ([serve-test.py] only, before it binds), one [bind], one
    [listen] when the bind succeeded, and the [close] of the listening
    socket when an interrupt arrived; there is no second [bind], and the
    listening socket is not closed without an interrupt. *)
Theorem scripts_end_by_bind_error_or_interrupt :
  forall (m : machine) (script_dir : string) (evs : list event) (w : world),
    let a : address := ("", 8000) in
    (let (t, w') := serve_test.main m script_dir evs w in
     t = (if address_in_use w a then Exited 1
          else if interrupted evs then Exited 0 else Serving)
     /\ listening w'
        = (if address_in_use w a then listening w
           else if interrupted evs then ({[ a ]} ∪ listening w) ∖ {[ a ]}
           else {[ a ]} ∪ listening w)
     /\ trace w'
        = (trace w ++ Chdir script_dir
             :: if address_in_use w a then [Bind a false]
                else Bind a true :: Listen a
                     :: if interrupted evs then [Close a] else [])%list)
    /\ (let (t, w') := simple_server.main m evs w in
        t = (if address_in_use w a then Exited 1
             else if interrupted evs then Killed 2 else Serving)
        /\ listening w'
           = (if address_in_use w a then listening w
              else if interrupted evs then ({[ a ]} ∪ listening w) ∖ {[ a ]}
              else {[ a ]} ∪ listening w)
        /\ trace w'
           = (trace w ++ if address_in_use w a then [Bind a false]
                         else Bind a true :: Listen a
                              :: if interrupted evs then [Close a] else [])%list).
Proof.
  intros m d evs w a. split.
  - unfold serve_test.main, TCPServer_init, serve_test.PORT.
    change (address_in_use (set_cwd d w) ("", 8000)) with (address_in_use w a).
    destruct (address_in_use w a).
    { cbn. rewrite <- app_assoc. repeat split. }
    match goal with
    | |- context [serve_forever ?m ?h ?e ?w0] =>
        pose proof (serve_forever_world m h e w0) as Hw;
        pose proof (serve_forever_result m h e w0) as Hr;
        destruct (serve_forever m h e w0) as [e' w1]
    end.
    cbn [fst snd] in Hw, Hr. subst e'. destruct Hw as (_ & Hl & _ & _ & Ht).
    destruct (interrupted evs); cbn; rewrite Hl, Ht; cbn;
      rewrite <- !app_assoc; repeat split.
  - unfold simple_server.main, TCPServer_init, simple_server.PORT.
    fold a. destruct (address_in_use w a); [cbn; repeat split|].
    match goal with
    | |- context [serve_forever ?m ?h ?e ?w0] =>
        pose proof (serve_forever_world m h e w0) as Hw;
        pose proof (serve_forever_result m h e w0) as Hr;
        destruct (serve_forever m h e w0) as [e' w1]
    end.
    cbn [fst snd] in Hw, Hr. subst e'. destruct Hw as (_ & Hl & _ & _ & Ht).
    destruct (interrupted evs); cbn; rewrite Hl, Ht; cbn;
      rewrite <- ?app_assoc; repeat split.
Qed.

(** ** What the scripts print *)

(** X3.  [serve-test.py] prints its banner once, after the socket is bound
    and before it serves, and the notice ["Server stopped by user"] when an
    interrupt arrives; [simple-server.py] prints its two lines after the
    socket is bound and nothing on an interrupt.  Neither prints anything
    to standard output when the address is in use, and neither prints
    there for a request. *)
Theorem standard_output_of_the_scripts :
  forall (m : machine) (script_dir : string) (evs : list event) (w : world),
    stdout (serve_test.main m script_dir evs w).2
    = (stdout w
       ++ if address_in_use w ("", 8000) then []
          else serve_test.banner
               :: if interrupted evs then [(nl ++ "Server stopped by user")%string] else [])%list
    /\ stdout (simple_server.main m evs w).2
       = (stdout w
          ++ if address_in_use w ("", 8000) then []
             else ["Server running at http://localhost:8000"; "Press Ctrl+C to stop"])%list.
Proof.
  intros m d evs w. split.
  - unfold serve_test.main, TCPServer_init, serve_test.PORT.
    change (address_in_use (set_cwd d w) ("", 8000)) with (address_in_use w ("", 8000)).
    destruct (address_in_use w ("", 8000)); [cbn; now rewrite app_nil_r|].
    match goal with
    | |- context [serve_forever ?m ?h ?e ?w0] =>
        pose proof (serve_forever_world m h e w0) as Hw;
        pose proof (serve_forever_result m h e w0) as Hr;
        destruct (serve_forever m h e w0) as [e' w1]
    end.
    cbn [fst snd] in Hw, Hr. subst e'. destruct Hw as (_ & _ & Ho & _).
    destruct (interrupted evs); cbn; rewrite Ho; cbn; rewrite <- ?app_assoc; reflexivity.
  - unfold simple_server.main, TCPServer_init, simple_server.PORT.
    destruct (address_in_use w ("", 8000)); [cbn; now rewrite app_nil_r|].
    match goal with
    | |- context [serve_forever ?m ?h ?e ?w0] =>
        pose proof (serve_forever_world m h e w0) as Hw;
        pose proof (serve_forever_result m h e w0) as Hr;
        destruct (serve_forever m h e w0) as [e' w1]
    end.
    cbn [fst snd] in Hw, Hr. subst e'. destruct Hw as (_ & _ & Ho & _).
    destruct (interrupted evs); cbn; rewrite Ho; cbn; rewrite <- ?app_assoc; reflexivity.
Qed.

(** ** The shape of an answer *)

Lemma error_page_not_empty code msg : error_page code msg <> "".
Proof. unfold error_page, BaseHTTPRequestHandler.error_message_format. discriminate. Qed.

Lemma one_response_error m c code msg :
  code = 404 \/ code = 501 -> one_response m (error_reply m true c code msg).
Proof.
  intros Hc. unfold error_reply, error_head.
  exists code, msg,
    [ Header "Connection" (Text "close");
      Header "Content-Type" (Text "text/html;charset=utf-8");
      Header "Content-Length" (Text (str.of_nat (String.length (error_page code msg)))) ],
    (if String.eqb c "HEAD" then [] else [error_page code msg]).
  split; [now destruct (String.eqb c "HEAD")|].
  split; [destruct Hc as [-> | ->]; cbn; tauto|].
  split; [repeat constructor; eexists _, _; reflexivity|].
  split.
  { destruct (String.eqb c "HEAD"); repeat constructor. apply error_page_not_empty. }
  split; [intros ->; destruct Hc; discriminate|].
  split; [intros _; destruct (String.eqb c "HEAD"); cbn; lia|].
  intros [-> | ->]; destruct Hc; discriminate.
Qed.

Lemma one_response_headers m code reason fields :
  In code [301; 304] ->
  Forall (fun l => exists k v, l = Header k v) fields ->
  one_response m [Lines (opening m code reason ++ fields ++ [BlankLine])].
Proof.
  intros Hc Hf. exists code, reason, fields, [].
  split; [reflexivity|]. split; [cbn in *; tauto|]. split; [exact Hf|].
  split; [constructor|]. split; [constructor|]. split; [cbn; lia|reflexivity].
Qed.

Lemma one_response_body m fields s tail :
  Forall (fun l => exists k v, l = Header k v) fields ->
  tail = [] \/ tail = blocks s ->
  one_response m (Lines (opening m 200 "OK" ++ fields ++ [BlankLine]) :: tail).
Proof.
  intros Hf Ht.
  assert (Hp : exists pieces,
             tail = List.map Bytes pieces
             /\ Forall (fun b => b <> ""
                         /\ Z.of_nat (String.length b)
                            <= SimpleHTTPRequestHandler.COPY_BUFSIZE) pieces).
  { destruct Ht as [-> | ->]; [exists []; split; [reflexivity|constructor]|].
    apply blocks_pieces. }
  destruct Hp as (pieces & -> & Hall).
  exists 200, "OK", fields, pieces.
  split; [reflexivity|]. split; [cbn; tauto|]. split; [exact Hf|].
  split; [revert Hall; apply List.Forall_impl; now intros b [? _]|].
  split; [intros _; revert Hall; apply List.Forall_impl; now intros b [_ ?]|].
  split; [congruence|]. intros [H|H]; discriminate.
Qed.

(** With the header lines of a version other than HTTP/0.9, [do_GET] and
    [do_HEAD] send one response, or nothing when [send_head] raised. *)
Lemma one_response_send_head m self :
  fresh self ->
  (wfile (SimpleHTTPRequestHandler.do_GET m self).2 = []
   \/ one_response m (wfile (SimpleHTTPRequestHandler.do_GET m self).2))
  /\ (wfile (SimpleHTTPRequestHandler.do_HEAD m self).2 = []
      \/ one_response m (wfile (SimpleHTTPRequestHandler.do_HEAD m self).2)).
Proof.
  intros [Hunsent Hh]. rewrite do_GET_wfile, do_HEAD_wfile.
  pose proof (send_head_answer m self Hunsent) as H. rewrite Hh in H.
  assert (Hk : forall k v, exists k' v', Header k v = Header k' v')
    by (intros k v; now exists k, v).
  destruct H as [ctype f Hsz|f Hsz|loc| |msg|]; cbn [app block].
  - split; right;
      apply (one_response_body m
               [Header "Content-type" (Text ctype);
                Header "Content-Length" (Text (str.of_nat (st_size f)));
                Header "Last-Modified" (BaseHTTPRequestHandler.date_time_string (f_mtime f))]
               (content f));
      first [now repeat (constructor; [apply Hk|]) | now right | now left].
  - split; right;
      apply (one_response_body m
               [Header "Content-type" (Text ("text/html; charset=" ++ filesystemencoding m));
                Header "Content-Length" (Text (str.of_nat (String.length (content f))))]
               (content f));
      first [now repeat (constructor; [apply Hk|]) | now right | now left].
  - split; right;
      apply (one_response_headers m 301 "Moved Permanently"
               [Header "Location" (Text loc); Header "Content-Length" (Text "0")]);
      first [cbn; tauto | now repeat (constructor; [apply Hk|])].
  - split; right; apply (one_response_headers m 304 "Not Modified" []);
      first [cbn; tauto | now constructor].
  - split; right; apply one_response_error; now left.
  - split; now left.
Qed.

(** X4.  Whatever the request that [parse_request] accepted with a version
    other than HTTP/0.9 (a request line of three words with its header
    fields), the client receives nothing at all, which is the case when the
    method raised before its first write (a path with a NUL, for one), or
    one response: one block of header lines (the status line of HTTP/1.0
    with code 200, 301, 304, 404 or 501, the [Server] and the [Date] field,
    more header fields, the blank line) and after it the writes of the
    body, none of them empty: for status 200 the blocks of at most 64 KiB
    that [copyfileobj] reads, none for an empty file; for an error at most
    one write, the page; for 301 and 304 none.  The handler methods send no
    other status, 403 and 500 among them. *)
Theorem every_answer_is_one_response :
  forall (m : machine) (cwd : string) (r : request),
    r_version r <> "HTTP/0.9" ->
    (handle simple_server.handler m cwd r = []
     \/ one_response m (handle simple_server.handler m cwd r))
    /\ (handle serve_test.Handler m cwd r = []
        \/ one_response m (handle serve_test.Handler m cwd r)).
Proof.
  intros m cwd r Hv. rewrite handle_simple_server, handle_serve_test.
  pose proof (fresh_new_handler cwd r Hv) as Hfresh.
  apply String.eqb_neq in Hv. rewrite Hv. cbn [negb].
  destruct (String.eqb (r_command r) "GET").
  - split; apply one_response_send_head;
      [exact Hfresh|now apply fresh_default_to_test_page].
  - destruct (String.eqb (r_command r) "HEAD").
    + split; now apply one_response_send_head.
    + split; right; apply one_response_error; now right.
Qed.

Lemma every_answer_is_one_response_witness :
  one_response host (handle serve_test.Handler host "/srv/www" (GET "/" "HTTP/1.1" [])).
Proof.
  assert (Hv : r_version (GET "/" "HTTP/1.1" []) <> "HTTP/0.9") by discriminate.
  destruct (every_answer_is_one_response host "/srv/www" (GET "/" "HTTP/1.1" []) Hv)
    as [_ [H|H]]; [|exact H].
  vm_compute in H. discriminate.
Defined.

(** ** The length of the body *)

Lemma length_announced_error m c code msg :
  String.eqb c "HEAD" = false -> length_announced (error_reply m true c code msg).
Proof.
  intros Hc. unfold error_reply. rewrite Hc. unfold length_announced.
  change (header "Content-Length" _)
    with (Some (Text (str.of_nat (String.length (error_page code msg))))).
  cbn [body block app]. now rewrite append_nil_r.
Qed.

Lemma length_announced_do_GET m self :
  fresh self -> String.eqb (command self) "HEAD" = false ->
  length_announced (wfile (SimpleHTTPRequestHandler.do_GET m self).2).
Proof.
  intros [Hunsent Hh] Hc. rewrite do_GET_wfile.
  pose proof (send_head_answer m self Hunsent) as H. rewrite Hh in H.
  destruct H as [ctype f Hsz|f Hsz|loc| |msg|]; cbn [app block].
  - unfold length_announced.
    change (header "Content-Length" _) with (Some (Text (str.of_nat (st_size f)))).
    cbn [body]. now rewrite body_blocks, Hsz.
  - unfold length_announced.
    change (header "Content-Length" _)
      with (Some (Text (str.of_nat (String.length (content f))))).
    cbn [body]. now rewrite body_blocks.
  - reflexivity.
  - reflexivity.
  - now apply length_announced_error.
  - reflexivity.
Qed.

(** X5.  In the answer to a request other than HEAD, of a version other
    than HTTP/0.9, the [Content-Length] field gives the number of bytes of
    the body, be it a file, a listing or an error page; an answer without
    the field (status 304, or no answer at all) has no body. *)
Theorem content_length_is_body_length :
  forall (m : machine) (cwd : string) (r : request),
    r_command r <> "HEAD" ->
    r_version r <> "HTTP/0.9" ->
    length_announced (handle simple_server.handler m cwd r)
    /\ length_announced (handle serve_test.Handler m cwd r).
Proof.
  intros m cwd r Hc Hv. apply String.eqb_neq in Hc.
  rewrite handle_simple_server, handle_serve_test, Hc.
  pose proof (fresh_new_handler cwd r Hv) as Hfresh.
  apply String.eqb_neq in Hv. rewrite Hv. cbn [negb].
  destruct (String.eqb (r_command r) "GET").
  - split; apply length_announced_do_GET; try exact Hc.
    + exact Hfresh.
    + now apply fresh_default_to_test_page.
    + unfold serve_test.MyHandler.default_to_test_page.
      destruct (String.eqb _ "/"); exact Hc.
  - split; now apply length_announced_error.
Qed.

Lemma content_length_is_body_length_witness :
  length_announced (handle serve_test.Handler host "/srv/www" (GET "/" "HTTP/1.1" [])).
Proof.
  apply (content_length_is_body_length host "/srv/www" (GET "/" "HTTP/1.1" []));
    discriminate.
Defined.

(** ** HEAD and GET *)

Lemma lines_of_block h ls : List.filter is_lines (block h ls) = block h ls.
Proof. destruct h; reflexivity. Qed.

Lemma lines_of_blocks s : List.filter is_lines (blocks s) = [].
Proof. unfold blocks. induction (reads _ s) as [|b l IH]; [reflexivity|exact IH]. Qed.

Lemma lines_of_error m h c code msg :
  List.filter is_lines (error_reply m h c code msg) = block h (error_head m code msg).
Proof.
  unfold error_reply. rewrite List.filter_app, lines_of_block.
  destruct (String.eqb c "HEAD"); cbn; apply app_nil_r.
Qed.

Section TwoHandlers.

Import SimpleHTTPRequestHandler.

Variable m : machine.
Variables s1 s2 : handler.
Hypothesis Hunsent1 : unsent s1.
Hypothesis Hunsent2 : unsent s2.
Hypothesis Hdirectory : directory s1 = directory s2.
Hypothesis Hpath : path s1 = path s2.
Hypothesis Hheaders : headers s1 = headers s2.
Hypothesis Hversion : request_version s1 = request_version s2.

Lemma has_headers_two :
  BaseHTTPRequestHandler.has_headers s2 = BaseHTTPRequestHandler.has_headers s1.
Proof. unfold BaseHTTPRequestHandler.has_headers. now rewrite Hversion. Qed.

Lemma send_head_file_lines fspath :
  List.filter is_lines (wfile (send_head_file m s1 fspath).2)
  = List.filter is_lines (wfile (send_head_file m s2 fspath).2).
Proof.
  pose proof (send_head_file_unsent m s1 Hunsent1 fspath) as H1.
  pose proof (send_head_file_unsent m s2 Hunsent2 fspath) as H2.
  cbv zeta in H1, H2.
  apply (f_equal snd) in H1, H2. cbn [snd] in H1, H2. rewrite H1, H2.
  assert (Hnm : forall f, not_modified s2 f = not_modified s1 f).
  { intros f. unfold not_modified. now rewrite Hheaders. }
  rewrite has_headers_two.
  destruct (str.endswith fspath "/"); cbn [snd]; [now rewrite !lines_of_error|].
  destruct (open m fspath) as [f|[]]; cbn [snd];
    [|now rewrite !lines_of_error|reflexivity].
  rewrite Hnm. destruct (not_modified s1 f); reflexivity.
Qed.

Lemma list_directory_lines fspath :
  List.filter is_lines (wfile (list_directory m fspath s1).2)
  = List.filter is_lines (wfile (list_directory m fspath s2).2).
Proof.
  pose proof (list_directory_unsent m s1 Hunsent1 fspath) as H1.
  pose proof (list_directory_unsent m s2 Hunsent2 fspath) as H2.
  cbv zeta in H1, H2. rewrite has_headers_two in H2.
  unfold list_directory in *. rewrite <- Hpath in *.
  destruct (listdir m fspath) as [names|[]]; cbv zeta in *.
  - destruct H1 as (f1 & E1 & _ & ->). destruct H2 as (f2 & E2 & _ & ->).
    cbn [fst] in E1, E2. rewrite E1 in E2. injection E2 as <-. reflexivity.
  - destruct H1 as [_ ->]. destruct H2 as [_ ->]. now rewrite !lines_of_error.
  - destruct H1 as [_ ->]. destruct H2 as [_ ->]. reflexivity.
Qed.

(** The header lines [send_head] writes do not depend on the command. *)
Lemma send_head_lines :
  List.filter is_lines (wfile (send_head m s1).2)
  = List.filter is_lines (wfile (send_head m s2).2).
Proof.
  unfold send_head. cbv zeta.
  assert (Htr : translate_path s2 (path s2) = translate_path s1 (path s1)).
  { unfold translate_path. now rewrite Hdirectory, Hpath. }
  rewrite Htr, <- Hpath.
  set (fspath := translate_path s1 (path s1)).
  destruct (isdir m fspath); [|apply send_head_file_lines].
  destruct (negb _).
  { cbn [snd]. rewrite !end_headers_wfile, !send_header_wfile, !send_header_buffer.
    same_headers. rewrite has_headers_two.
    destruct (send_response_unsent m 301 None s1 Hunsent1) as [-> ->].
    destruct (send_response_unsent m 301 None s2 Hunsent2) as [-> ->].
    rewrite has_headers_two. reflexivity. }
  destruct (isfile m (posixpath.join fspath "index.html"));
    [apply send_head_file_lines|].
  destruct (isfile m (posixpath.join fspath "index.htm"));
    [apply send_head_file_lines|].
  apply list_directory_lines.
Qed.

End TwoHandlers.

(** [do_HEAD] writes header lines only. *)
Lemma do_HEAD_only_lines m self :
  unsent self -> command self = "HEAD" ->
  List.filter is_lines (wfile (SimpleHTTPRequestHandler.send_head m self).2)
  = wfile (SimpleHTTPRequestHandler.send_head m self).2.
Proof.
  intros Hunsent Hc. pose proof (send_head_answer m self Hunsent) as H.
  destruct H; try apply lines_of_block; [|reflexivity].
  rewrite lines_of_error. unfold error_reply. rewrite Hc. cbn. now rewrite app_nil_r.
Qed.

Lemma lines_of_do_GET m self :
  List.filter is_lines (wfile (SimpleHTTPRequestHandler.do_GET m self).2)
  = List.filter is_lines (wfile (SimpleHTTPRequestHandler.send_head m self).2).
Proof.
  rewrite do_GET_wfile.
  destruct (SimpleHTTPRequestHandler.send_head m self).1 as [[f|]|e]; try reflexivity.
  rewrite List.filter_app, lines_of_blocks. apply app_nil_r.
Qed.

(** X6.  A HEAD request is answered with the header lines of the answer
    to the GET request for the same path, version and header fields, and
    with no body.  With [simple-server.py] this holds for every path; with
    [serve-test.py] for every path other than ["/"].  The answer of
    [serve-test.py] to HEAD for ["/"] describes the directory, as
    [simple-server.py] answers GET for ["/"], not the test page. *)
Theorem head_is_get_without_body :
  forall (m : machine) (cwd : string) (p v : string) (hs : list (string * hvalue)),
    handle simple_server.handler m cwd (HEAD p v hs)
    = List.filter is_lines (handle simple_server.handler m cwd (GET p v hs))
    /\ (p <> "/" ->
        handle serve_test.Handler m cwd (HEAD p v hs)
        = List.filter is_lines (handle serve_test.Handler m cwd (GET p v hs)))
    /\ handle serve_test.Handler m cwd (HEAD "/" v hs)
       = List.filter is_lines (handle simple_server.handler m cwd (GET "/" v hs))
    /\ body (handle simple_server.handler m cwd (HEAD p v hs)) = ""
    /\ body (handle serve_test.Handler m cwd (HEAD p v hs)) = "".
Proof.
  intros m cwd p v hs.
  assert (H : forall q,
    wfile (SimpleHTTPRequestHandler.do_HEAD m (new_handler cwd (HEAD q v hs))).2
    = List.filter is_lines
        (wfile (SimpleHTTPRequestHandler.do_GET m (new_handler cwd (GET q v hs))).2)).
  { intros q. rewrite do_HEAD_wfile, lines_of_do_GET.
    rewrite <- do_HEAD_only_lines by (apply unsent_new_handler || reflexivity).
    apply send_head_lines; try apply unsent_new_handler; reflexivity. }
  assert (Hb : forall w, body (List.filter is_lines w) = "").
  { induction w as [|[ls|d] w IH]; cbn; assumption || reflexivity. }
  rewrite !handle_simple_server, !handle_serve_test. cbn [r_command GET HEAD].
  change (String.eqb "HEAD" "GET") with false.
  change (String.eqb "GET" "GET") with true.
  change (String.eqb "HEAD" "HEAD") with true. cbv iota.
  split; [apply H|]. split.
  { intros Hp. rewrite H. unfold serve_test.MyHandler.default_to_test_page.
    cbn [path new_handler r_path GET]. apply String.eqb_neq in Hp. now rewrite Hp. }
  split; [apply H|].
  rewrite H. split; apply Hb.
Qed.

(** ** Methods the handler classes lack *)

(** X7.  A request with a method other than GET and HEAD (a name of
    printable characters, without quote and backslash) and of a version
    other than HTTP/0.9, at a time in the years 1 to 9999, is answered with
    status 501, [Connection: close] and the error page that names the
    method.  The answer is the same for every path, every version but
    HTTP/0.9, every header fields, every working directory and every
    content of the file system: no file is looked at. *)
Theorem unsupported_method_is_501 :
  forall (m : machine) (cwd : string) (r : request) (cls : handler_class),
    r_command r <> "GET" -> r_command r <> "HEAD" ->
    urllib_parse.all_chars token_char (r_command r) = true ->
    r_version r <> "HTTP/0.9" ->
    in_years (clock m) = true ->
    cls = simple_server.handler \/ cls = serve_test.Handler ->
    let w := handle cls m cwd r in
    status w = Some 501
    /\ header "Connection" w = Some (Text "close")
    /\ header "Content-Type" w = Some (Text "text/html;charset=utf-8")
    /\ header "Content-Length" w
       = Some (Text (str.of_nat (String.length (error_page 501 (unsupported (r_command r))))))
    /\ w = [Lines (error_head m 501 (unsupported (r_command r)));
            Bytes (error_page 501 (unsupported (r_command r)))]
    /\ forall (m' : machine) (cwd' p' v' : string) (hs' : list (string * hvalue)),
         clock m' = clock m ->
         v' <> "HTTP/0.9" ->
         handle cls m' cwd'
           {| r_command := r_command r; r_path := p'; r_version := v'; r_headers := hs' |}
         = w.
Proof.
  intros m cwd r cls Hg Hh _ Hv _ Hcls w.
  apply String.eqb_neq in Hg, Hh.
  assert (Hw : forall m0 cwd0 r0, r_command r0 = r_command r ->
            r_version r0 <> "HTTP/0.9" ->
            handle cls m0 cwd0 r0
            = error_reply m0 true (r_command r) 501 (unsupported (r_command r))).
  { intros m0 cwd0 r0 Hc Hv0. apply String.eqb_neq in Hv0.
    destruct Hcls as [-> | ->];
      rewrite ?handle_simple_server, ?handle_serve_test, Hc, Hg, Hh, Hv0; reflexivity. }
  unfold w. rewrite (Hw m cwd r eq_refl Hv).
  unfold error_reply. rewrite Hh. cbn [block app].
  split; [reflexivity|]. split; [reflexivity|]. split; [reflexivity|].
  split; [reflexivity|]. split; [reflexivity|].
  intros m' cwd' p' v' hs' Hclock Hv'.
  rewrite (Hw m' cwd' {| r_command := r_command r; r_path := p'; r_version := v';
                         r_headers := hs' |} eq_refl Hv').
  unfold error_reply, error_head, opening. now rewrite Hh, Hclock.
Qed.

Lemma unsupported_method_is_501_witness :
  status (handle serve_test.Handler host "/srv/www"
            {| r_command := "POST"; r_path := "/"; r_version := "HTTP/1.1";
               r_headers := [] |})
  = Some 501.
Proof.
  apply (unsupported_method_is_501 host "/srv/www"
           {| r_command := "POST"; r_path := "/"; r_version := "HTTP/1.1";
              r_headers := [] |}
           serve_test.Handler);
    [discriminate|discriminate|reflexivity|discriminate|reflexivity|now right].
Defined.

(** ** The two scripts side by side *)

(** X8.  The two scripts answer every request alike, except the GET
    request for exactly ["/"]. *)
Theorem servers_differ_only_at_root :
  forall (m : machine) (cwd : string) (r : request),
    ~ (r_command r = "GET" /\ r_path r = "/") ->
    handle serve_test.Handler m cwd r = handle simple_server.handler m cwd r.
Proof.
  intros m cwd r Hr. rewrite handle_serve_test, handle_simple_server.
  destruct (String.eqb_spec (r_command r) "GET") as [Hc|_]; [|reflexivity].
  unfold serve_test.MyHandler.default_to_test_page. cbn [path new_handler].
  destruct (String.eqb_spec (r_path r) "/") as [Hp|_]; [|reflexivity].
  exfalso. now apply Hr.
Qed.

Lemma servers_differ_only_at_root_witness :
  handle serve_test.Handler host "/srv/www" (GET "/app.js" "HTTP/1.1" [])
  = handle simple_server.handler host "/srv/www" (GET "/app.js" "HTTP/1.1" []).
Proof.
  apply (servers_differ_only_at_root host "/srv/www" (GET "/app.js" "HTTP/1.1" [])).
  intros [_ H]. discriminate.
Defined.

(** ** Quoted paths *)

Lemma ord_bounds c : 0 <= str.ord c < 256.
Proof. unfold str.ord. pose proof (nat_ascii_bounded c). lia. Qed.

Lemma chr_ord c : urllib_parse.chr (str.ord c) = c.
Proof.
  unfold urllib_parse.chr, str.ord. rewrite Nat2Z.id. apply ascii_nat_embedding.
Qed.

Lemma hexval_hexdigit n :
  0 <= n < 16 ->
  urllib_parse.hexval (urllib_parse.hexdigit n) = Some n
  /\ urllib_parse.safe (urllib_parse.hexdigit n) = true
  /\ Ascii.eqb (urllib_parse.hexdigit n) "/" = false.
Proof.
  intros Hn.
  assert (Hk : (Z.to_nat n < 16)%nat) by lia.
  rewrite <- (Z2Nat.id n) by lia. generalize dependent (Z.to_nat n).
  intros k Hk. clear Hn.
  do 16 (destruct k as [|k]; [repeat split|]). lia.
Qed.

Lemma safe_not_percent a : urllib_parse.safe a = true -> Ascii.eqb a "%" = false.
Proof.
  intros H. destruct (Ascii.eqb_spec a "%") as [->|]; [discriminate|reflexivity].
Qed.

Lemma quote_cons a s :
  urllib_parse.quote (String a s)
  = (if urllib_parse.safe a then String a ""
     else String "%" (String (urllib_parse.hexdigit (str.ord a / 16))
                        (String (urllib_parse.hexdigit (str.ord a mod 16)) "")))
    ++ urllib_parse.quote s.
Proof. cbn [urllib_parse.quote]. destruct (urllib_parse.safe a); reflexivity. Qed.

(** [unquote] undoes [quote]. *)
Lemma unquote_quote s : urllib_parse.unquote (urllib_parse.quote s) = s.
Proof.
  induction s as [|a s IH]; [reflexivity|].
  cbn [urllib_parse.quote]. destruct (urllib_parse.safe a) eqn:Ea.
  - cbn [urllib_parse.unquote]. rewrite (safe_not_percent a Ea), IH. reflexivity.
  - pose proof (ord_bounds a) as Hb.
    destruct (hexval_hexdigit (str.ord a / 16)) as (H1 & _).
    { split; [apply Z.div_pos; lia|apply Z.div_lt_upper_bound; lia]. }
    destruct (hexval_hexdigit (str.ord a mod 16)) as (H2 & _).
    { apply Z.mod_pos_bound. lia. }
    cbn [urllib_parse.unquote]. rewrite Ascii.eqb_refl, H1, H2, IH.
    rewrite <- (Z.div_mod (str.ord a) 16) by lia. now rewrite chr_ord.
Qed.

Lemma quote_app s t :
  urllib_parse.quote (s ++ t) = urllib_parse.quote s ++ urllib_parse.quote t.
Proof.
  induction s as [|a s IH]; [reflexivity|].
  cbn [append]. rewrite !quote_cons, IH. now rewrite append_assoc.
Qed.

(** [quote] gives safe characters and percent signs only. *)
Lemma quote_chars s : urllib_parse.all_chars url_char (urllib_parse.quote s) = true.
Proof.
  induction s as [|a s IH]; [reflexivity|].
  cbn [urllib_parse.quote]. destruct (urllib_parse.safe a) eqn:Ea.
  - cbn [urllib_parse.all_chars]. unfold url_char at 1. now rewrite Ea, IH.
  - pose proof (ord_bounds a) as Hb.
    destruct (hexval_hexdigit (str.ord a / 16)) as (_ & H1 & _).
    { split; [apply Z.div_pos; lia|apply Z.div_lt_upper_bound; lia]. }
    destruct (hexval_hexdigit (str.ord a mod 16)) as (_ & H2 & _).
    { apply Z.mod_pos_bound. lia. }
    cbn [urllib_parse.all_chars]. unfold url_char at 1 2 3.
    rewrite H1, H2, IH. reflexivity.
Qed.

(** It adds no slash. *)
Lemma quote_no_slash s :
  str.contains "/" s = false -> str.contains "/" (urllib_parse.quote s) = false.
Proof.
  induction s as [|a s IH]; [reflexivity|].
  cbn [str.contains]. intros H. apply orb_false_iff in H as [Ha Hs].
  cbn [urllib_parse.quote]. destruct (urllib_parse.safe a).
  - cbn [str.contains]. now rewrite Ha, IH.
  - pose proof (ord_bounds a) as Hb.
    destruct (hexval_hexdigit (str.ord a / 16)) as (_ & _ & H1).
    { split; [apply Z.div_pos; lia|apply Z.div_lt_upper_bound; lia]. }
    destruct (hexval_hexdigit (str.ord a mod 16)) as (_ & _ & H2).
    { apply Z.mod_pos_bound. lia. }
    cbn [str.contains]. rewrite H1, H2, IH by exact Hs. reflexivity.
Qed.

Lemma quote_nonempty s : s <> "" -> urllib_parse.quote s <> "".
Proof.
  destruct s as [|a s]; [congruence|]. intros _.
  cbn [urllib_parse.quote]. destruct (urllib_parse.safe a); discriminate.
Qed.

Lemma url_char_lacks (d : ascii) s :
  url_char d = false -> urllib_parse.all_chars url_char s = true ->
  str.contains d s = false.
Proof. intros Hd Hs. now apply (all_chars_contains url_char). Qed.

Lemma url_char_no_space s :
  urllib_parse.all_chars url_char s = true ->
  urllib_parse.all_chars (fun c => negb (str.isspace c)) s = true.
Proof.
  induction s as [|a s IH]; [reflexivity|].
  cbn [urllib_parse.all_chars]. intros H. apply andb_true_iff in H as [Ha Hs].
  rewrite (IH Hs), andb_true_r.
  destruct (str.isspace a) eqn:E; [|reflexivity].
  exfalso. revert Ha E. clear.
  destruct a as [[] [] [] [] [] [] [] []]; vm_compute; congruence.
Qed.

Lemma file_name_inv w :
  file_name w = true ->
  w <> "" /\ w <> "." /\ w <> ".." /\ str.contains "/" w = false.
Proof.
  unfold file_name. intros H.
  repeat (apply andb_true_iff in H as [H ?]).
  repeat split; try (intros ->; cbn in *; congruence).
  now apply negb_true_iff.
Qed.

Lemma plain_name_file_name w : plain_name w = true -> file_name w = true.
Proof.
  intros H. pose proof (plain_name_lacks "/" w eq_refl H) as Hs.
  apply plain_name_inv in H as (H0 & H1 & H2 & _).
  apply String.eqb_neq in H0, H1, H2. unfold file_name.
  now rewrite H0, H1, H2, Hs.
Qed.

Lemma names_no_slash ws :
  Forall (fun w => file_name w = true) ws ->
  Forall (fun w => str.contains "/" w = false) ws.
Proof.
  intros H. eapply Forall_impl; [exact H|]. intros w Hw. now apply file_name_inv in Hw.
Qed.

Lemma normpath_fold_names n ws acc :
  Forall (fun w => file_name w = true) ws ->
  fold_left (posixpath.normpath_step n) ws acc = (rev ws ++ acc)%list.
Proof.
  intros Hall. revert acc. induction Hall as [|w ws Hw Hall IH]; intros acc.
  - reflexivity.
  - cbn [fold_left]. rewrite IH. cbn [rev]. rewrite <- app_assoc. cbn [app].
    f_equal. unfold posixpath.normpath_step.
    apply file_name_inv in Hw as (H0 & H1 & H2 & _).
    apply String.eqb_neq in H0, H1, H2. rewrite H0, H1, H2. reflexivity.
Qed.

Lemma url_of_names_cons w ws :
  file_name w = true ->
  exists a u, Ascii.eqb a "/" = false /\ url_of (w :: ws) = String "/" (String a u).
Proof.
  intros Hw. apply file_name_inv in Hw as (H0 & _ & _ & Hs).
  destruct w as [|a w]; [congruence|].
  cbn in Hs. apply orb_false_iff in Hs as [Ha _].
  destruct ws as [|w' ws].
  - exists a, w. split; [exact Ha|reflexivity].
  - exists a, (w ++ "/" ++ str.join "/" (w' :: ws)). split; [exact Ha|reflexivity].
Qed.

Lemma split_url_of ws :
  ws <> [] -> Forall (fun w => file_name w = true) ws ->
  str.split "/" (url_of ws) = "" :: ws.
Proof.
  intros Hne Hall. unfold url_of.
  change ("/" ++ str.join "/" ws) with ("" ++ String "/" (str.join "/" ws)).
  rewrite split_app by reflexivity. f_equal.
  apply split_join; [exact Hne|now apply names_no_slash].
Qed.

(** The path of names is in normal form, and a slash after it is dropped. *)
Lemma normpath_names ws tail :
  ws <> [] -> Forall (fun w => file_name w = true) ws ->
  tail = "" \/ tail = "/" ->
  posixpath.normpath (url_of ws ++ tail) = url_of ws.
Proof.
  intros Hne Hall Htail.
  destruct ws as [|w ws]; [congruence|].
  destruct (url_of_names_cons w ws) as (a & u & Ha & E); [now inversion Hall|].
  unfold posixpath.normpath.
  assert (Hsplit : exists e, str.split "/" (url_of (w :: ws) ++ tail)
                             = ("" :: w :: ws ++ e)%list
                             /\ (e = [] \/ e = [""])).
  { destruct Htail as [-> | ->].
    - exists []. rewrite append_nil_r, app_nil_r. split; [|now left].
      now apply split_url_of.
    - exists [""]. split; [|now right].
      change "/" with (String "/" ""). rewrite split_app_sep, split_url_of by assumption.
      reflexivity. }
  destruct Hsplit as (e & Hsplit & He).
  assert (H0 : String.eqb (url_of (w :: ws) ++ tail) "" = false) by (rewrite E; reflexivity).
  assert (H1 : str.startswith (url_of (w :: ws) ++ tail) "/" = true) by (rewrite E; reflexivity).
  assert (H2 : str.startswith (url_of (w :: ws) ++ tail) "//" = false).
  { rewrite E. unfold str.startswith. cbn [append String.prefix].
    destruct (ascii_dec "/" "/") as [_|]; [|congruence].
    destruct (ascii_dec "/" a) as [<-|_]; [discriminate|reflexivity]. }
  rewrite Hsplit, H0, H1, H2. cbn [andb Z.eqb Pos.eqb].
  change (fold_left (posixpath.normpath_step 1) ("" :: w :: ws ++ e) [])
    with (fold_left (posixpath.normpath_step 1) ((w :: ws) ++ e) []).
  rewrite fold_left_app, (normpath_fold_names 1 (w :: ws) [] Hall).
  assert (He' : fold_left (posixpath.normpath_step 1) e (rev (w :: ws) ++ [])%list
                = rev (w :: ws)).
  { rewrite app_nil_r. destruct He as [-> | ->]; reflexivity. }
  rewrite He', rev_involutive.
  fold (url_of (w :: ws)).
  assert (H3 : String.eqb (url_of (w :: ws)) "" = false) by (rewrite E; reflexivity).
  rewrite H3. reflexivity.
Qed.

Lemma translate_fold_names ws root :
  Forall (fun w => file_name w = true) ws ->
  fold_left SimpleHTTPRequestHandler.translate_step ws root = under root ws.
Proof.
  intros Hall. revert root. induction Hall as [|w ws Hw Hall IH]; intros root.
  - reflexivity.
  - cbn [fold_left under]. unfold under in IH. rewrite IH. f_equal.
    unfold SimpleHTTPRequestHandler.translate_step.
    apply file_name_inv in Hw as (_ & H1 & H2 & Hs).
    rewrite dirname_word by exact Hs.
    apply String.eqb_neq in H1, H2. rewrite H1, H2. reflexivity.
Qed.

Lemma filter_nonempty_names ws :
  Forall (fun w => file_name w = true) ws ->
  List.filter (fun w => negb (String.eqb w "")) ws = ws.
Proof.
  intros Hall. induction Hall as [|w ws Hw Hall IH]; [reflexivity|].
  cbn [List.filter]. apply file_name_inv in Hw as (H0 & _).
  apply String.eqb_neq in H0. rewrite H0. cbn. now rewrite IH.
Qed.

(** The translation of a quoted path is the translation of the path as the
    file system has it: [unquote] undoes [quote], and [quote] leaves no
    ["?"], no ["#"] and no white space for the first steps to act on. *)
Lemma translate_path_quote self raw :
  SimpleHTTPRequestHandler.translate_path self (urllib_parse.quote raw)
  = let words :=
      List.filter (fun w => negb (String.eqb w ""))
        (str.split "/" (posixpath.normpath raw)) in
    let fspath :=
      fold_left SimpleHTTPRequestHandler.translate_step words (directory self) in
    if str.endswith (urllib_parse.quote raw) "/" then fspath ++ "/" else fspath.
Proof.
  unfold SimpleHTTPRequestHandler.translate_path.
  pose proof (quote_chars raw) as Hq.
  rewrite (before_absent "?") by (apply url_char_lacks; [reflexivity|exact Hq]).
  rewrite (before_absent "#") by (apply url_char_lacks; [reflexivity|exact Hq]).
  rewrite rstrip_no_space by (apply url_char_no_space; exact Hq).
  rewrite unquote_quote. reflexivity.
Qed.

Lemma quote_url_ends_with_name ws :
  ws <> [] -> Forall (fun w => file_name w = true) ws ->
  str.endswith (urllib_parse.quote (url_of ws)) "/" = false.
Proof.
  intros Hne Hall. destruct (exists_last Hne) as (ws' & w & ->).
  apply Forall_app in Hall as [_ Hw]. apply Forall_inv in Hw.
  apply file_name_inv in Hw as (H0 & _ & _ & Hs).
  destruct (join_last ws' w) as [pre E]. unfold url_of. rewrite E.
  rewrite <- append_assoc, quote_app. apply endswith_slash_app.
  - now apply quote_nonempty.
  - now apply quote_no_slash.
Qed.

(** A quoted path of names translates to these names under the root. *)
Lemma translate_path_names self ws :
  ws <> [] -> Forall (fun w => file_name w = true) ws ->
  SimpleHTTPRequestHandler.translate_path self (urllib_parse.quote (url_of ws))
  = under (directory self) ws.
Proof.
  intros Hne Hall. rewrite translate_path_quote. cbv zeta.
  rewrite quote_url_ends_with_name by assumption.
  rewrite <- (append_nil_r (url_of ws)) at 1.
  rewrite normpath_names by (assumption || now left).
  rewrite split_url_of by assumption. cbn [List.filter String.eqb negb].
  rewrite filter_nonempty_names by exact Hall.
  now apply translate_fold_names.
Qed.

(** With a slash at its end it translates to the same path and a slash. *)
Lemma translate_path_names_slash self ws :
  ws <> [] -> Forall (fun w => file_name w = true) ws ->
  SimpleHTTPRequestHandler.translate_path self (urllib_parse.quote (url_of ws) ++ "/")
  = under (directory self) ws ++ "/".
Proof.
  intros Hne Hall.
  change (urllib_parse.quote (url_of ws) ++ "/")
    with (urllib_parse.quote (url_of ws) ++ urllib_parse.quote "/").
  rewrite <- quote_app, translate_path_quote. cbv zeta.
  rewrite quote_app, endswith_app.
  rewrite normpath_names by (assumption || now right).
  rewrite split_url_of by assumption. cbn [List.filter String.eqb negb].
  rewrite filter_nonempty_names by exact Hall.
  now rewrite translate_fold_names.
Qed.

Lemma join_name a w :
  file_name w = true -> exists pre, posixpath.join a w = pre ++ w.
Proof.
  intros Hw. unfold posixpath.join.
  assert (Hs : str.startswith w "/" = false).
  { apply file_name_inv in Hw as (_ & _ & _ & Hc).
    destruct w as [|c w]; [reflexivity|].
    cbn in Hc. apply orb_false_iff in Hc as [Hc _].
    unfold str.startswith. cbn [String.prefix].
    destruct (ascii_dec "/" c) as [<-|_]; [discriminate|reflexivity]. }
  rewrite Hs. destruct (_ || _).
  - now exists a.
  - exists (a ++ "/"). now rewrite append_assoc.
Qed.

Lemma under_names_ends_with_name root ws :
  ws <> [] -> Forall (fun w => file_name w = true) ws ->
  str.endswith (under root ws) "/" = false.
Proof.
  intros Hne Hall. destruct (exists_last Hne) as (ws' & w & ->).
  apply Forall_app in Hall as [_ Hw]. apply Forall_inv in Hw.
  rewrite under_snoc. destruct (join_name (under root ws') w Hw) as [pre ->].
  apply file_name_inv in Hw as (H0 & _ & _ & Hs).
  now apply endswith_slash_app.
Qed.

Lemma quote_url_not_root ws tail :
  ws <> [] -> Forall (fun w => file_name w = true) ws ->
  urllib_parse.quote (url_of ws) ++ tail <> "/".
Proof.
  intros Hne Hall. destruct ws as [|w ws]; [congruence|].
  destruct (url_of_names_cons w ws) as (a & u & Ha & E); [now inversion Hall|].
  rewrite E. cbn [urllib_parse.quote].
  change (urllib_parse.safe "/") with true. cbv iota.
  destruct (urllib_parse.safe a); discriminate.
Qed.

Lemma ascii_name_file_name w : ascii_name w = true -> file_name w = true.
Proof. unfold ascii_name. intros H. now apply andb_true_iff in H as [H _]. Qed.

Lemma ascii_names_file_names ws :
  Forall (fun w => ascii_name w = true) ws -> Forall (fun w => file_name w = true) ws.
Proof.
  apply List.Forall_impl. intros w H. unfold ascii_name in H.
  now apply andb_true_iff in H as [H _].
Qed.

(** X9.  Every file under the working directory that can be opened and
    whose names, from the working directory on, are in ASCII is served at
    its path as [urllib.parse.quote] writes it.  The translation of the
    quoted path gives the file's path back, whatever ASCII characters the
    names hold (white space, ["?"], ["#"] and ["%"] among them).  To a GET
    request for that path, of a version other than HTTP/0.9, from a client
    that holds no copy still good, with the clock and the file's time in
    the years 1 to 9999, the answer has status 200, the bytes of the file,
    their number and the file's modification time. *)
Theorem every_file_is_served_at_its_quoted_url :
  forall (m : machine) (cwd : string) (ws : list string) (v : string)
         (hs : list (string * hvalue)) (data : string) (mtime : Z)
         (cls : handler_class),
    ws <> [] ->
    Forall (fun w => ascii_name w = true) ws ->
    stat m (under cwd ws) = Some (RegularFile true data mtime) ->
    v <> "HTTP/0.9" ->
    ~ holds_copy hs mtime ->
    in_years (clock m) = true ->
    in_years mtime = true ->
    cls = simple_server.handler \/ cls = serve_test.Handler ->
    let p := urllib_parse.quote (url_of ws) in
    let w := handle cls m cwd (GET p v hs) in
    SimpleHTTPRequestHandler.translate_path (new_handler cwd (GET p v hs)) p = under cwd ws
    /\ status w = Some 200
    /\ body w = data
    /\ header "Content-Length" w = Some (Text (str.of_nat (String.length data)))
    /\ header "Last-Modified" w = Some (BaseHTTPRequestHandler.date_time_string mtime).
Proof.
  intros m cwd ws v hs data mtime cls Hne Hascii Hstat Hv Hcopy _ _ Hcls p w.
  pose proof (ascii_names_file_names ws Hascii) as Hall.
  set (self := new_handler cwd (GET p v hs)).
  assert (Htr : SimpleHTTPRequestHandler.translate_path self (path self) = under cwd ws)
    by (apply (translate_path_names self ws Hne Hall)).
  split; [exact Htr|].
  assert (Hw : w = wfile (SimpleHTTPRequestHandler.do_GET m self).2).
  { unfold w. destruct Hcls as [->| ->]; [reflexivity|].
    apply handle_GET_not_root. unfold p.
    rewrite <- (append_nil_r (urllib_parse.quote (url_of ws))).
    now apply quote_url_not_root. }
  destruct (stat_open m _ _ _ Hstat) as [Hopen Hdir].
  rewrite Hw, do_GET_not_directory by (rewrite ?Htr; assumption || apply unsent_new_handler).
  rewrite Htr.
  destruct (file_reply_file m self (under cwd ws) _
              (has_headers_new_handler cwd (GET p v hs) Hv)
              (under_names_ends_with_name cwd ws Hne Hall) Hopen)
    as (_ & Hs & Hb & _ & Hl & Ht).
  { now apply no_copy_not_modified. }
  repeat split; assumption.
Qed.

Lemma every_file_is_served_at_its_quoted_url_witness :
  urllib_parse.quote (url_of ["a b?.txt"]) = "/a%20b%3F.txt"
  /\ body (handle serve_test.Handler library "/srv/www"
             (GET "/a%20b%3F.txt" "HTTP/1.1" [])) = "text".
Proof.
  split; [reflexivity|].
  assert (Hcopy : ~ holds_copy [] 1700000000) by (intros (d & H & _); discriminate).
  assert (Hstat : stat library (under "/srv/www" ["a b?.txt"])
                  = Some (RegularFile true "text" 1700000000))
    by (vm_compute; reflexivity).
  assert (Hne : ["a b?.txt"] <> @nil string) by discriminate.
  assert (Hall : Forall (fun w => ascii_name w = true) ["a b?.txt"])
    by (repeat constructor).
  assert (Hv : "HTTP/1.1" <> "HTTP/0.9") by discriminate.
  destruct (every_file_is_served_at_its_quoted_url library "/srv/www" ["a b?.txt"]
              "HTTP/1.1" [] "text" 1700000000 serve_test.Handler Hne Hall Hstat Hv Hcopy
              eq_refl eq_refl (or_intror eq_refl))
    as (_ & _ & Hb & _).
  exact Hb.
Defined.

(** ** A file asked for with a slash at the end *)

Lemma rstrip_char_app c p :
  str.rstrip_char c (p ++ String c "") = str.rstrip_char c p.
Proof.
  induction p as [|a p IH]; cbn [append str.rstrip_char].
  - now rewrite Ascii.eqb_refl.
  - now rewrite IH.
Qed.

Lemma rstrip_char_id c p :
  str.endswith p (String c "") = false -> str.rstrip_char c p = p.
Proof.
  induction p as [|a p IH]; [reflexivity|].
  cbn [str.endswith str.rstrip_char]. intros H.
  apply orb_false_iff in H as [Ha Hp]. rewrite (IH Hp).
  destruct p as [|b p]; [|reflexivity].
  destruct (Ascii.eqb_spec a c) as [->|]; [|reflexivity].
  now rewrite String.eqb_refl in Ha.
Qed.

(** A regular file is no directory, with or without a slash after its
    name. *)
Lemma regular_file_slash m p r data mtime :
  stat m p = Some (RegularFile r data mtime) ->
  str.endswith p "/" = false ->
  isdir m (p ++ "/") = false.
Proof.
  intros Hstat Hend. unfold isdir, stat in *.
  rewrite rstrip_char_app. rewrite rstrip_char_id in * by exact Hend.
  destruct (String.eqb_spec p "") as [->|Hp]; [discriminate|].
  rewrite Hend in Hstat. rewrite endswith_app.
  destruct (str.contains NUL (p ++ "/")); [reflexivity|].
  destruct (str.contains NUL p); [discriminate|].
  destruct (files m !! p) as [[r' d' t'|l es]|]; try discriminate; reflexivity.
Qed.

(** X10.  A regular file under the working directory, with names in
    ASCII, that is asked for with a slash after its quoted path is answered
    with status 404 ("File not found") and the page of that error, though
    the file exists.  (A GET request of a version other than HTTP/0.9, the
    clock in the years 1 to 9999.) *)
Theorem file_with_trailing_slash_is_404 :
  forall (m : machine) (cwd : string) (ws : list string) (v : string)
         (hs : list (string * hvalue)) (r : bool) (data : string) (mtime : Z)
         (cls : handler_class),
    ws <> [] ->
    Forall (fun w => ascii_name w = true) ws ->
    stat m (under cwd ws) = Some (RegularFile r data mtime) ->
    v <> "HTTP/0.9" ->
    in_years (clock m) = true ->
    cls = simple_server.handler \/ cls = serve_test.Handler ->
    let w := handle cls m cwd (GET (urllib_parse.quote (url_of ws) ++ "/") v hs) in
    status w = Some 404 /\ body w = not_found_page.
Proof.
  intros m cwd ws v hs r data mtime cls Hne Hascii Hstat Hv _ Hcls w.
  pose proof (ascii_names_file_names ws Hascii) as Hall.
  set (p := urllib_parse.quote (url_of ws) ++ "/") in *.
  set (self := new_handler cwd (GET p v hs)).
  assert (Htr : SimpleHTTPRequestHandler.translate_path self (path self)
                = under cwd ws ++ "/")
    by (apply (translate_path_names_slash self ws Hne Hall)).
  assert (Hw : w = wfile (SimpleHTTPRequestHandler.do_GET m self).2).
  { unfold w. destruct Hcls as [->| ->]; [reflexivity|].
    apply handle_GET_not_root. now apply quote_url_not_root. }
  rewrite Hw, do_GET_not_directory.
  - rewrite Htr.
    destruct (file_reply_missing m self (under cwd ws ++ "/")
                (has_headers_new_handler cwd (GET p v hs) Hv))
      as (_ & Hs & Hb & _).
    + left. apply endswith_app.
    + cbn. discriminate.
    + split; assumption.
  - apply unsent_new_handler.
  - rewrite Htr. apply (regular_file_slash m _ r data mtime Hstat).
    now apply under_names_ends_with_name.
Qed.

Lemma file_with_trailing_slash_is_404_witness :
  status (handle simple_server.handler library "/srv/www" (GET "/README/" "HTTP/1.1" []))
  = Some 404.
Proof.
  assert (Hstat : stat library (under "/srv/www" ["README"])
                  = Some (RegularFile true "read me" 1700000000))
    by (vm_compute; reflexivity).
  assert (Hne : ["README"] <> @nil string) by discriminate.
  assert (Hall : Forall (fun w => ascii_name w = true) ["README"])
    by (repeat constructor).
  assert (Hv : "HTTP/1.1" <> "HTTP/0.9") by discriminate.
  destruct (file_with_trailing_slash_is_404 library "/srv/www" ["README"] "HTTP/1.1" []
              true "read me" 1700000000 simple_server.handler Hne Hall Hstat Hv eq_refl
              (or_introl eq_refl))
    as [Hs _].
  exact Hs.
Defined.

(** ** The query and the fragment *)

Lemma before_app c p s :
  str.contains c p = false -> str.before c (p ++ String c s) = p.
Proof.
  induction p as [|a p IH]; cbn [append str.before str.contains].
  - now rewrite Ascii.eqb_refl.
  - intros H. apply orb_false_iff in H as [Ha Hp]. now rewrite Ha, IH.
Qed.

Lemma before_app_other c p s :
  str.contains c p = false -> str.before c (p ++ s) = p ++ str.before c s.
Proof.
  induction p as [|a p IH]; cbn [append str.before str.contains]; [reflexivity|].
  intros H. apply orb_false_iff in H as [Ha Hp]. now rewrite Ha, IH.
Qed.

(** [translate_path] drops what follows the first ["?"] or ["#"]. *)
Lemma translate_path_query self p q :
  str.contains "?" p = false ->
  SimpleHTTPRequestHandler.translate_path self (p ++ "?" ++ q)
  = SimpleHTTPRequestHandler.translate_path self p.
Proof.
  intros Hp. unfold SimpleHTTPRequestHandler.translate_path.
  change (p ++ "?" ++ q) with (p ++ String "?" q).
  now rewrite (before_app "?" p q Hp), (before_absent "?" p Hp).
Qed.

Lemma translate_path_fragment self p q :
  str.contains "?" p = false -> str.contains "#" p = false ->
  SimpleHTTPRequestHandler.translate_path self (p ++ "#" ++ q)
  = SimpleHTTPRequestHandler.translate_path self p.
Proof.
  intros Hp Hf. unfold SimpleHTTPRequestHandler.translate_path.
  rewrite (before_app_other "?" p ("#" ++ q) Hp), (before_absent "?" p Hp).
  change (str.before "?" ("#" ++ q)) with (String "#" (str.before "?" q)).
  now rewrite (before_app "#" p _ Hf), (before_absent "#" p Hf).
Qed.

Lemma app_not_root p (c : ascii) q :
  str.contains c p = false -> p ++ String c q <> "/" \/ c = "/"%char.
Proof.
  intros Hp. destruct p as [|a [|b p]]; cbn.
  - destruct (Ascii.eqb_spec c "/") as [->|]; [now right|left; congruence].
  - left. discriminate.
  - left. discriminate.
Qed.

(** X11.  For a path that names no directory, what follows a ["?"] or a
    ["#"] changes nothing: the answer to [p?q] and to [p#q] is the answer
    to [p].  ([serve-test.py] answers ["/"] alone differently: the path
    with a query is not rewritten.) *)
Theorem query_does_not_change_the_file :
  forall (m : machine) (cwd : string) (p q v : string)
         (hs : list (string * hvalue)) (cls : handler_class),
    str.contains "?" p = false ->
    str.contains "#" p = false ->
    isdir m (SimpleHTTPRequestHandler.translate_path (new_handler cwd (GET p v hs)) p) = false ->
    cls = simple_server.handler \/ (cls = serve_test.Handler /\ p <> "/") ->
    handle cls m cwd (GET (p ++ "?" ++ q) v hs) = handle cls m cwd (GET p v hs)
    /\ handle cls m cwd (GET (p ++ "#" ++ q) v hs) = handle cls m cwd (GET p v hs).
Proof.
  intros m cwd p q v hs cls Hq Hf Hdir Hcls.
  assert (Hparent : forall p', p' = p \/ p' <> "/" ->
            handle cls m cwd (GET p' v hs)
            = wfile (SimpleHTTPRequestHandler.do_GET m (new_handler cwd (GET p' v hs))).2).
  { intros p' Hp'. destruct Hcls as [->|[-> Hp]]; [reflexivity|].
    apply handle_GET_not_root. destruct Hp' as [->|]; assumption. }
  assert (Hsame : forall p',
            SimpleHTTPRequestHandler.translate_path (new_handler cwd (GET p' v hs)) p'
            = SimpleHTTPRequestHandler.translate_path (new_handler cwd (GET p v hs)) p ->
            wfile (SimpleHTTPRequestHandler.do_GET m (new_handler cwd (GET p' v hs))).2
            = wfile (SimpleHTTPRequestHandler.do_GET m (new_handler cwd (GET p v hs))).2).
  { intros p' Htr.
    rewrite !do_GET_not_directory;
      try apply unsent_new_handler; cbn [path new_handler r_path GET];
      rewrite ?Htr; try exact Hdir.
    reflexivity. }
  split.
  - rewrite !Hparent.
    + apply Hsame. apply (translate_path_query (new_handler cwd (GET p v hs)) p q Hq).
    + now left.
    + right. destruct (app_not_root p "?" q Hq); [assumption|discriminate].
  - rewrite !Hparent.
    + apply Hsame. apply (translate_path_fragment (new_handler cwd (GET p v hs)) p q Hq Hf).
    + now left.
    + right. destruct (app_not_root p "#" q Hf); [assumption|discriminate].
Qed.

Lemma query_does_not_change_the_file_witness :
  handle serve_test.Handler host "/srv/www" (GET "/app.js?v=3" "HTTP/1.1" [])
  = handle serve_test.Handler host "/srv/www" (GET "/app.js" "HTTP/1.1" []).
Proof.
  apply (query_does_not_change_the_file host "/srv/www" "/app.js" "v=3" "HTTP/1.1" []
           serve_test.Handler); try reflexivity.
  right. split; [reflexivity|discriminate].
Defined.

(** ** A directory asked for without the slash *)

Lemma remove_absent c s : str.contains c s = false -> str.remove c s = s.
Proof.
  induction s as [|a s IH]; cbn [str.remove str.contains]; [reflexivity|].
  intros H. apply orb_false_iff in H as [Ha Hs]. now rewrite Ha, IH.
Qed.

Lemma after_app c p s :
  str.contains c p = false -> str.after c (p ++ String c s) = s.
Proof.
  induction p as [|a p IH]; cbn [append str.after str.contains].
  - now rewrite Ascii.eqb_refl.
  - intros H. apply orb_false_iff in H as [Ha Hp]. now rewrite Ha, IH.
Qed.

Lemma query_text_lacks (d : ascii) q :
  str.isspace d || Ascii.eqb d "#" = true -> query_text q = true ->
  str.contains d q = false.
Proof.
  intros Hd Hq. apply (all_chars_contains _ d q Hq).
  destruct (str.isspace d); [reflexivity|].
  cbn in Hd. rewrite Hd. reflexivity.
Qed.

Lemma with_query_lacks (d : ascii) u q :
  url_char d = false -> str.isspace d || Ascii.eqb d "#" = true ->
  urllib_parse.all_chars url_char u = true -> query_text q = true ->
  str.contains d (with_query u q) = false.
Proof.
  intros Hd Hd' Hu Hq. unfold with_query.
  pose proof (url_char_lacks d u Hd Hu) as H1.
  destruct (String.eqb q ""); [exact H1|].
  rewrite contains_app, H1. change ("?" ++ q) with (String "?" q).
  cbn [str.contains orb]. rewrite (query_text_lacks d q Hd' Hq), orb_false_r.
  destruct (Ascii.eqb_spec "?" d) as [<-|]; [discriminate|reflexivity].
Qed.

Lemma startswith_two_slashes b s :
  str.startswith (String "/" (String b s)) "//" = Ascii.eqb b "/".
Proof.
  unfold str.startswith.
  change (String.prefix "//" (String "/" (String b s)))
    with (if ascii_dec "/" "/"
          then (if ascii_dec "/" b then String.prefix "" s else false)
          else false).
  destruct (ascii_dec "/" "/") as [_|]; [|congruence].
  destruct (ascii_dec "/" b) as [<-|Hb].
  - destruct s; reflexivity.
  - destruct (Ascii.eqb_spec b "/") as [->|]; [congruence|reflexivity].
Qed.

(** [urlsplit] of a quoted path with a query: no scheme, no host, no
    fragment. *)
Lemma urlsplit_path u q :
  urllib_parse.all_chars url_char u = true ->
  str.startswith u "/" = true ->
  str.startswith u "//" = false ->
  query_text q = true ->
  urllib_parse.urlsplit (with_query u q)
  = {| urllib_parse.scheme := ""; urllib_parse.netloc := "";
       urllib_parse.path := u; urllib_parse.query := q;
       urllib_parse.fragment := "" |}.
Proof.
  intros Hu Hs1 Hs2 Hq.
  destruct u as [|c u']; [discriminate|].
  assert (Hc : c = "/"%char).
  { unfold str.startswith in Hs1. cbn [String.prefix] in Hs1.
    destruct (ascii_dec "/" c) as [<-|]; [reflexivity|discriminate]. }
  subst c.
  set (v := with_query (String "/" u') q).
  assert (Ev : exists rest, v = String "/" rest
                            /\ str.startswith (String "/" rest) "//" = false).
  { unfold v, with_query. destruct (String.eqb q "").
    - exists u'. split; [reflexivity|exact Hs2].
    - exists (u' ++ "?" ++ q). split; [reflexivity|].
      destruct u' as [|b u'']; [reflexivity|].
      rewrite startswith_two_slashes in Hs2.
      change (String b u'' ++ "?" ++ q) with (String b (u'' ++ "?" ++ q)).
      now rewrite startswith_two_slashes. }
  destruct Ev as (rest & Ev & Hv2).
  unfold urllib_parse.urlsplit. fold v.
  assert (H1 : str.lstrip urllib_parse.c0_control_or_space v = v)
    by (rewrite Ev; reflexivity).
  rewrite H1.
  rewrite (remove_absent "009" v), (remove_absent "013" v), (remove_absent "010" v)
    by (apply with_query_lacks; try reflexivity; assumption).
  assert (H2 : (0 <? str.find ":" v)
               && match v with
                  | String c _ => str.isascii c && str.isalpha c
                  | EmptyString => false
                  end
               && urllib_parse.all_chars urllib_parse.scheme_chars
                    (str.upto (str.find ":" v) v) = false).
  { rewrite Ev. destruct (0 <? _); reflexivity. }
  rewrite H2. cbv beta iota zeta.
  assert (H4 : str.startswith v "//" = false) by (rewrite Ev; exact Hv2).
  rewrite H4.
  assert (H3 : str.contains "#" v = false)
    by (apply with_query_lacks; try reflexivity; assumption).
  rewrite H3.
  pose proof (url_char_lacks "?" _ eq_refl Hu) as Hu'.
  unfold v, with_query. destruct (String.eqb_spec q "") as [->|Hne].
  - rewrite Hu'. reflexivity.
  - change (String "/" u' ++ "?" ++ q) with (String "/" u' ++ String "?" q).
    rewrite contains_app, Hu'. cbn [str.contains orb Ascii.eqb].
    change (Ascii.eqb "?" "?") with true. cbn [orb].
    rewrite (before_app "?" _ q Hu'), (after_app "?" _ q Hu'). reflexivity.
Qed.

Lemma urlunsplit_path u q :
  urllib_parse.urlunsplit
    {| urllib_parse.scheme := ""; urllib_parse.netloc := "";
       urllib_parse.path := u; urllib_parse.query := q;
       urllib_parse.fragment := "" |}
  = with_query u q.
Proof.
  unfold urllib_parse.urlunsplit, with_query.
  cbn [urllib_parse.scheme urllib_parse.netloc urllib_parse.path
       urllib_parse.query urllib_parse.fragment].
  change (String.eqb "" "") with true. cbn [negb andb orb].
  destruct (String.eqb q ""); reflexivity.
Qed.

Lemma quote_url_starts ws :
  ws <> [] -> Forall (fun w => file_name w = true) ws ->
  str.startswith (urllib_parse.quote (url_of ws)) "/" = true
  /\ str.startswith (urllib_parse.quote (url_of ws)) "//" = false.
Proof.
  intros Hne Hall. destruct ws as [|w ws]; [congruence|].
  destruct (url_of_names_cons w ws) as (a & u & Ha & E); [now inversion Hall|].
  rewrite E. cbn [urllib_parse.quote].
  change (urllib_parse.safe "/") with true. cbv iota.
  destruct (urllib_parse.safe a); (split; [reflexivity|]);
    rewrite startswith_two_slashes; [exact Ha|reflexivity].
Qed.

Lemma translate_path_names_query self ws q :
  ws <> [] -> Forall (fun w => file_name w = true) ws ->
  SimpleHTTPRequestHandler.translate_path self
    (with_query (urllib_parse.quote (url_of ws)) q)
  = under (directory self) ws.
Proof.
  intros Hne Hall. unfold with_query. destruct (String.eqb q "").
  - now apply translate_path_names.
  - rewrite translate_path_query; [now apply translate_path_names|].
    apply url_char_lacks; [reflexivity|apply quote_chars].
Qed.

Lemma with_query_not_root ws q :
  ws <> [] -> Forall (fun w => file_name w = true) ws ->
  with_query (urllib_parse.quote (url_of ws)) q <> "/".
Proof.
  intros Hne Hall. unfold with_query. destruct (String.eqb q "").
  - rewrite <- (append_nil_r (urllib_parse.quote (url_of ws))).
    now apply quote_url_not_root.
  - now apply quote_url_not_root.
Qed.

(** X12.  A directory under the working directory, with names in ASCII,
    that is asked for by its quoted path without the slash at the end,
    with or without a query (ASCII text without white space and ["#"]), is
    answered with status 301, no body, [Content-Length: 0] and the
    [Location] of the same path with the slash, the query kept after it.
    (A GET request of a version other than HTTP/0.9, the clock in the
    years 1 to 9999.) *)
Theorem directory_without_slash_is_redirected :
  forall (m : machine) (cwd : string) (ws : list string) (q v : string)
         (hs : list (string * hvalue)) (cls : handler_class),
    ws <> [] ->
    Forall (fun w => ascii_name w = true) ws ->
    query_text q = true ->
    is_ascii q = true ->
    isdir m (under cwd ws) = true ->
    v <> "HTTP/0.9" ->
    in_years (clock m) = true ->
    cls = simple_server.handler \/ cls = serve_test.Handler ->
    let u := urllib_parse.quote (url_of ws) in
    let w := handle cls m cwd (GET (with_query u q) v hs) in
    w = [Lines (redirect_head m (with_query (u ++ "/") q))]
    /\ status w = Some 301
    /\ header "Location" w = Some (Text (with_query (u ++ "/") q))
    /\ header "Content-Length" w = Some (Text "0")
    /\ body w = "".
Proof.
  intros m cwd ws q v hs cls Hne Hascii Hq _ Hdir Hv _ Hcls u w.
  pose proof (ascii_names_file_names ws Hascii) as Hall.
  set (self := new_handler cwd (GET (with_query u q) v hs)).
  assert (Hw : w = [Lines (redirect_head m (with_query (u ++ "/") q))]).
  { assert (Hw : w = wfile (SimpleHTTPRequestHandler.do_GET m self).2).
    { unfold w. destruct Hcls as [->| ->]; [reflexivity|].
      apply handle_GET_not_root. now apply with_query_not_root. }
    rewrite Hw. unfold SimpleHTTPRequestHandler.do_GET, SimpleHTTPRequestHandler.send_head.
    cbv zeta. change (path self) with (with_query u q).
    unfold u at 1. rewrite translate_path_names_query by assumption.
    change (directory self) with cwd. rewrite Hdir.
    destruct (quote_url_starts ws Hne Hall) as [Hs1 Hs2].
    unfold u. rewrite urlsplit_path by (assumption || apply quote_chars).
    cbn [urllib_parse.scheme urllib_parse.netloc urllib_parse.path
         urllib_parse.query urllib_parse.fragment].
    rewrite quote_url_ends_with_name by assumption. cbn [negb snd].
    rewrite urlunsplit_path.
    rewrite end_headers_wfile, !send_header_wfile, !send_header_buffer. same_headers.
    destruct (send_response_unsent m 301 None self (unsent_new_handler _ _)) as [-> ->].
    pose proof (has_headers_new_handler cwd
                  (GET (with_query (urllib_parse.quote (url_of ws)) q) v hs) Hv) as Hh.
    fold u self in Hh. rewrite Hh. reflexivity. }
  rewrite Hw. repeat split.
Qed.

Lemma directory_without_slash_is_redirected_witness :
  header "Location"
    (handle serve_test.Handler host "/srv/www" (GET "/docs?sort=name" "HTTP/1.1" []))
  = Some (Text "/docs/?sort=name").
Proof.
  assert (Hne : ["docs"] <> @nil string) by discriminate.
  assert (Hall : Forall (fun w => ascii_name w = true) ["docs"])
    by (repeat constructor).
  assert (Hdir : isdir host (under "/srv/www" ["docs"]) = true)
    by (vm_compute; reflexivity).
  assert (Hv : "HTTP/1.1" <> "HTTP/0.9") by discriminate.
  destruct (directory_without_slash_is_redirected host "/srv/www" ["docs"] "sort=name"
              "HTTP/1.1" [] serve_test.Handler Hne Hall eq_refl eq_refl Hdir Hv eq_refl
              (or_intror eq_refl))
    as (_ & _ & Hl & _).
  exact Hl.
Defined.

(** ** Dot segments *)

Lemma segment_inv w :
  segment w = true -> w <> "" /\ str.contains "/" w = false.
Proof.
  unfold segment. intros H. apply andb_true_iff in H as [H0 H1].
  split; [intros ->; discriminate|now apply negb_true_iff].
Qed.

Lemma file_name_segment w : file_name w = true -> segment w = true.
Proof.
  intros H. apply file_name_inv in H as (H0 & _ & _ & Hs).
  apply String.eqb_neq in H0. unfold segment. now rewrite H0, Hs.
Qed.

Lemma names_segments ws :
  Forall (fun w => file_name w = true) ws -> Forall (fun w => segment w = true) ws.
Proof.
  intros H. eapply Forall_impl; [exact H|]. intros w. apply file_name_segment.
Qed.

Lemma url_of_segments_cons w ws :
  segment w = true ->
  exists a u, Ascii.eqb a "/" = false /\ url_of (w :: ws) = String "/" (String a u).
Proof.
  intros Hw. apply segment_inv in Hw as (H0 & Hs).
  destruct w as [|a w]; [congruence|].
  cbn in Hs. apply orb_false_iff in Hs as [Ha _].
  destruct ws as [|w' ws].
  - exists a, w. split; [exact Ha|reflexivity].
  - exists a, (w ++ "/" ++ str.join "/" (w' :: ws)). split; [exact Ha|reflexivity].
Qed.

Lemma split_url_of_segments ws :
  ws <> [] -> Forall (fun w => segment w = true) ws ->
  str.split "/" (url_of ws) = "" :: ws.
Proof.
  intros Hne Hall. unfold url_of.
  change ("/" ++ str.join "/" ws) with ("" ++ String "/" (str.join "/" ws)).
  rewrite split_app by reflexivity. f_equal.
  apply split_join; [exact Hne|].
  eapply Forall_impl; [exact Hall|]. intros w Hw. now apply segment_inv in Hw.
Qed.

(** [normpath] of a path of segments: the loop runs over the segments, and
    what it keeps is joined after one slash. *)
Lemma normpath_segments ws :
  ws <> [] -> Forall (fun w => segment w = true) ws ->
  posixpath.normpath (url_of ws)
  = "/" ++ str.join "/" (rev (fold_left (posixpath.normpath_step 1) ws [])).
Proof.
  intros Hne Hall. destruct ws as [|w ws]; [congruence|].
  destruct (url_of_segments_cons w ws) as (a & u & Ha & E); [now inversion Hall|].
  unfold posixpath.normpath.
  rewrite (split_url_of_segments (w :: ws) Hne Hall).
  assert (H0 : String.eqb (url_of (w :: ws)) "" = false) by (rewrite E; reflexivity).
  assert (H1 : str.startswith (url_of (w :: ws)) "/" = true) by (rewrite E; reflexivity).
  assert (H2 : str.startswith (url_of (w :: ws)) "//" = false).
  { rewrite E. now rewrite startswith_two_slashes. }
  rewrite H0, H1, H2. cbn [andb Z.eqb Pos.eqb].
  change (fold_left (posixpath.normpath_step 1) ("" :: w :: ws) [])
    with (fold_left (posixpath.normpath_step 1) (w :: ws) []).
  reflexivity.
Qed.

Lemma quote_url_of_segments_ends ws :
  ws <> [] -> Forall (fun w => segment w = true) ws ->
  str.endswith (urllib_parse.quote (url_of ws)) "/" = false.
Proof.
  intros Hne Hall. destruct (exists_last Hne) as (ws' & w & ->).
  apply Forall_app in Hall as [_ Hw]. apply Forall_inv in Hw.
  apply segment_inv in Hw as (H0 & Hs).
  destruct (join_last ws' w) as [pre E]. unfold url_of. rewrite E.
  rewrite <- append_assoc, quote_app. apply endswith_slash_app.
  - now apply quote_nonempty.
  - now apply quote_no_slash.
Qed.

Lemma split_slash_names ns :
  Forall (fun w => file_name w = true) ns ->
  List.filter (fun w => negb (String.eqb w "")) (str.split "/" ("/" ++ str.join "/" ns))
  = ns.
Proof.
  intros Hall. destruct ns as [|n ns]; [reflexivity|].
  fold (url_of (n :: ns)). rewrite split_url_of by (discriminate || exact Hall).
  change (List.filter (fun w => negb (String.eqb w "")) ("" :: n :: ns))
    with (List.filter (fun w => negb (String.eqb w "")) (n :: ns)).
  now apply filter_nonempty_names.
Qed.

(** The translation of a quoted path of segments, by what [normpath] keeps
    of them. *)
Lemma translate_path_segments self ws ns :
  ws <> [] -> Forall (fun w => segment w = true) ws ->
  Forall (fun w => file_name w = true) ns ->
  fold_left (posixpath.normpath_step 1) ws [] = rev ns ->
  SimpleHTTPRequestHandler.translate_path self (urllib_parse.quote (url_of ws))
  = under (directory self) ns.
Proof.
  intros Hne Hall Hns Hfold. rewrite translate_path_quote. cbv zeta.
  rewrite quote_url_of_segments_ends by assumption.
  rewrite normpath_segments, Hfold, rev_involutive by assumption.
  rewrite split_slash_names by exact Hns.
  now apply translate_fold_names.
Qed.

(** A name and the [..] after it cancel; a [.] is skipped. *)
Lemma normpath_fold_dotdot ws1 w ws2 :
  Forall (fun w => file_name w = true) ws1 -> file_name w = true ->
  Forall (fun w => file_name w = true) ws2 ->
  fold_left (posixpath.normpath_step 1) (ws1 ++ [w; ".."] ++ ws2) []
  = rev (ws1 ++ ws2).
Proof.
  intros H1 Hw H2. rewrite !fold_left_app, (normpath_fold_names 1 ws1 [] H1).
  rewrite app_nil_r. cbn [fold_left].
  assert (Hstep : posixpath.normpath_step 1
                    (posixpath.normpath_step 1 (rev ws1) w) ".." = rev ws1).
  { apply file_name_inv in Hw as (H0 & Hd & Hdd & _).
    apply String.eqb_neq in H0, Hd, Hdd.
    unfold posixpath.normpath_step at 2. rewrite H0, Hd, Hdd. cbn [orb negb].
    unfold posixpath.normpath_step.
    change (String.eqb ".." "") with false. change (String.eqb ".." ".") with false.
    change (String.eqb ".." "..") with true. cbn [orb negb andb Z.eqb].
    now rewrite Hdd. }
  rewrite Hstep, (normpath_fold_names 1 ws2 _ H2). now rewrite rev_app_distr.
Qed.

Lemma normpath_fold_dot ws1 ws2 :
  Forall (fun w => file_name w = true) ws1 ->
  Forall (fun w => file_name w = true) ws2 ->
  fold_left (posixpath.normpath_step 1) (ws1 ++ ["."] ++ ws2) []
  = rev (ws1 ++ ws2).
Proof.
  intros H1 H2. rewrite !fold_left_app, (normpath_fold_names 1 ws1 [] H1).
  rewrite app_nil_r. cbn [fold_left].
  change (posixpath.normpath_step 1 (rev ws1) ".") with (rev ws1).
  rewrite (normpath_fold_names 1 ws2 _ H2). now rewrite rev_app_distr.
Qed.

Lemma quote_url_of_segments_not_root ws :
  ws <> [] -> Forall (fun w => segment w = true) ws ->
  urllib_parse.quote (url_of ws) <> "/".
Proof.
  intros Hne Hall. destruct ws as [|w ws]; [congruence|].
  destruct (url_of_segments_cons w ws) as (a & u & Ha & E); [now inversion Hall|].
  rewrite E. cbn [urllib_parse.quote].
  change (urllib_parse.safe "/") with true. cbv iota.
  destruct (urllib_parse.safe a); discriminate.
Qed.

(** X13.  Dot segments are resolved in the path, before the file system is
    looked at: a name followed by [..] is dropped with it, whether or not
    the name exists, and a [.] is skipped.  For names in ASCII, written as
    [urllib.parse.quote] writes them, the path translates to the names
    that are left, and for a path that names no directory the answer to a
    GET request is the answer to the path without these segments. *)
Theorem dot_segments_are_resolved_in_the_path :
  forall (m : machine) (cwd : string) (ws1 ws2 : list string) (w v : string)
         (hs : list (string * hvalue)) (cls : handler_class),
    Forall (fun w => ascii_name w = true) ws1 ->
    ascii_name w = true ->
    Forall (fun w => ascii_name w = true) ws2 ->
    (ws1 ++ ws2)%list <> [] ->
    isdir m (under cwd (ws1 ++ ws2)) = false ->
    cls = simple_server.handler \/ cls = serve_test.Handler ->
    let dotdot := urllib_parse.quote (url_of (ws1 ++ [w; ".."] ++ ws2)) in
    let dot := urllib_parse.quote (url_of (ws1 ++ ["."] ++ ws2)) in
    let plain := urllib_parse.quote (url_of (ws1 ++ ws2)) in
    SimpleHTTPRequestHandler.translate_path (new_handler cwd (GET dotdot v hs)) dotdot
    = under cwd (ws1 ++ ws2)
    /\ SimpleHTTPRequestHandler.translate_path (new_handler cwd (GET dot v hs)) dot
       = under cwd (ws1 ++ ws2)
    /\ handle cls m cwd (GET dotdot v hs) = handle cls m cwd (GET plain v hs)
    /\ handle cls m cwd (GET dot v hs) = handle cls m cwd (GET plain v hs).
Proof.
  intros m cwd ws1 ws2 w v hs cls A1 Aw A2 Hne Hdir Hcls dotdot dot plain.
  pose proof (ascii_names_file_names ws1 A1) as H1.
  pose proof (ascii_names_file_names ws2 A2) as H2.
  assert (Hw : file_name w = true).
  { unfold ascii_name in Aw. now apply andb_true_iff in Aw as [Aw _]. }
  assert (Hns : Forall (fun w => file_name w = true) (ws1 ++ ws2))
    by (apply Forall_app; now split).
  assert (Hdd : segment ".." = true) by reflexivity.
  assert (Hd : segment "." = true) by reflexivity.
  assert (Hs1 : Forall (fun w => segment w = true) (ws1 ++ [w; ".."] ++ ws2)).
  { apply Forall_app. split; [now apply names_segments|].
    constructor; [now apply file_name_segment|].
    constructor; [exact Hdd|now apply names_segments]. }
  assert (Hs2 : Forall (fun w => segment w = true) (ws1 ++ ["."] ++ ws2)).
  { apply Forall_app. split; [now apply names_segments|].
    constructor; [exact Hd|now apply names_segments]. }
  assert (Hn1 : (ws1 ++ [w; ".."] ++ ws2)%list <> []) by (destruct ws1; discriminate).
  assert (Hn2 : (ws1 ++ ["."] ++ ws2)%list <> []) by (destruct ws1; discriminate).
  assert (Ht1 : forall self,
            SimpleHTTPRequestHandler.translate_path self dotdot
            = under (directory self) (ws1 ++ ws2)).
  { intros self. apply translate_path_segments; try assumption.
    now apply normpath_fold_dotdot. }
  assert (Ht2 : forall self,
            SimpleHTTPRequestHandler.translate_path self dot
            = under (directory self) (ws1 ++ ws2)).
  { intros self. apply translate_path_segments; try assumption.
    now apply normpath_fold_dot. }
  assert (Ht : forall self,
            SimpleHTTPRequestHandler.translate_path self plain
            = under (directory self) (ws1 ++ ws2)).
  { intros self. now apply translate_path_names. }
  assert (Hparent : forall p, p <> "/" ->
            handle cls m cwd (GET p v hs)
            = wfile (SimpleHTTPRequestHandler.do_GET m (new_handler cwd (GET p v hs))).2).
  { intros p Hp. destruct Hcls as [->| ->]; [reflexivity|].
    now apply handle_GET_not_root. }
  assert (Hreply : forall p,
            SimpleHTTPRequestHandler.translate_path (new_handler cwd (GET p v hs)) p
            = under cwd (ws1 ++ ws2) ->
            wfile (SimpleHTTPRequestHandler.do_GET m (new_handler cwd (GET p v hs))).2
            = file_reply m (new_handler cwd (GET "" v hs)) (under cwd (ws1 ++ ws2))).
  { intros p Htr. rewrite do_GET_not_directory;
      try apply unsent_new_handler; cbn [path new_handler r_path GET];
      rewrite ?Htr; try exact Hdir.
    reflexivity. }
  split; [apply Ht1|]. split; [apply Ht2|].
  split.
  - rewrite !Hparent.
    + rewrite (Hreply dotdot (Ht1 _)), (Hreply plain (Ht _)). reflexivity.
    + unfold plain. rewrite <- (append_nil_r (urllib_parse.quote _)).
      now apply quote_url_not_root.
    + now apply quote_url_of_segments_not_root.
  - rewrite !Hparent.
    + rewrite (Hreply dot (Ht2 _)), (Hreply plain (Ht _)). reflexivity.
    + unfold plain. rewrite <- (append_nil_r (urllib_parse.quote _)).
      now apply quote_url_not_root.
    + now apply quote_url_of_segments_not_root.
Qed.

Lemma dot_segments_are_resolved_in_the_path_witness :
  handle simple_server.handler library "/srv/www" (GET "/nothing/../README" "HTTP/1.1" [])
  = handle simple_server.handler library "/srv/www" (GET "/README" "HTTP/1.1" []).
Proof.
  assert (Hne : ([] ++ ["README"])%list <> @nil string) by discriminate.
  assert (Hall : Forall (fun w => ascii_name w = true) ["README"])
    by (repeat constructor).
  assert (Hdir : isdir library (under "/srv/www" ([] ++ ["README"])) = false)
    by (vm_compute; reflexivity).
  destruct (dot_segments_are_resolved_in_the_path library "/srv/www" [] ["README"]
              "nothing" "HTTP/1.1" [] simple_server.handler (List.Forall_nil _) eq_refl
              Hall Hne Hdir (or_introl eq_refl)) as (_ & _ & H & _).
  exact H.
Defined.

(** ** A directory asked for with the slash *)

Lemma stat_directory_slash m p l es :
  stat m p = Some (Directory l es) -> stat m (p ++ "/") = Some (Directory l es).
Proof.
  unfold stat. rewrite rstrip_char_app, contains_app.
  change (str.contains NUL "/") with false. rewrite orb_false_r.
  destruct (str.contains NUL p); [discriminate|].
  destruct (String.eqb (str.rstrip_char "/" p) "").
  - destruct (String.eqb_spec p "") as [->|_]; [discriminate|].
    destruct p; intros H; exact H.
  - destruct (files m !! str.rstrip_char "/" p) as [[r d t|l' es']|];
      [|intros H; exact H|discriminate].
    destruct (str.endswith p "/"); discriminate.
Qed.

Lemma isdir_slash m p : isdir m p = true -> isdir m (p ++ "/") = true.
Proof.
  unfold isdir. destruct (stat m p) as [[r d t|l es]|] eqn:E; try discriminate.
  intros _. now rewrite (stat_directory_slash m p l es E).
Qed.

Lemma under_names_nonempty root ws :
  ws <> [] -> Forall (fun w => file_name w = true) ws -> under root ws <> "".
Proof.
  intros Hne Hall. destruct (exists_last Hne) as (ws' & w & ->).
  apply Forall_app in Hall as [_ Hw]. apply Forall_inv in Hw.
  rewrite under_snoc. destruct (join_name (under root ws') w Hw) as [pre ->].
  apply file_name_inv in Hw as (H0 & _).
  destruct pre; [exact H0|discriminate].
Qed.

(** A name joined onto a path of names comes after a slash. *)
Lemma under_snoc_names root ws w :
  ws <> [] -> Forall (fun w => file_name w = true) ws ->
  str.startswith w "/" = false ->
  under root (ws ++ [w]) = under root ws ++ "/" ++ w.
Proof.
  intros Hne Hall Hw. rewrite under_snoc. unfold posixpath.join.
  rewrite Hw, (under_names_ends_with_name root ws Hne Hall).
  pose proof (under_names_nonempty root ws Hne Hall) as H0.
  apply String.eqb_neq in H0. rewrite H0. reflexivity.
Qed.

Lemma quote_url_shape ws :
  ws <> [] -> Forall (fun w => file_name w = true) ws ->
  exists b r, urllib_parse.quote (url_of ws) = String "/" (String b r)
              /\ Ascii.eqb b "/" = false.
Proof.
  intros Hne Hall. destruct ws as [|w ws]; [congruence|].
  destruct (url_of_names_cons w ws) as (a & u & Ha & E); [now inversion Hall|].
  rewrite E. cbn [urllib_parse.quote].
  change (urllib_parse.safe "/") with true. cbv iota.
  destruct (urllib_parse.safe a); eexists _, _; (split; [reflexivity|]);
    [exact Ha|reflexivity].
Qed.

Lemma urlsplit_names_slash ws :
  ws <> [] -> Forall (fun w => file_name w = true) ws ->
  urllib_parse.path (urllib_parse.urlsplit (urllib_parse.quote (url_of ws) ++ "/"))
  = urllib_parse.quote (url_of ws) ++ "/".
Proof.
  intros Hne Hall.
  change (urllib_parse.quote (url_of ws) ++ "/")
    with (with_query (urllib_parse.quote (url_of ws) ++ "/") "").
  rewrite urlsplit_path; try reflexivity.
  - rewrite all_chars_app, quote_chars. reflexivity.
  - apply startswith_slash_app. now apply quote_url_starts.
  - destruct (quote_url_shape ws Hne Hall) as (b & r & -> & Hb).
    change (String "/" (String b r) ++ "/") with (String "/" (String b (r ++ "/"))).
    now rewrite startswith_two_slashes.
Qed.

Section DirectoryWithSlash.

Import SimpleHTTPRequestHandler.

Variable m : machine.
Variable self : handler.
Variable ws : list string.
Hypothesis Hunsent : unsent self.
Hypothesis Hne : ws <> [].
Hypothesis Hnames : Forall (fun w => file_name w = true) ws.
Hypothesis Hpath : path self = urllib_parse.quote (url_of ws) ++ "/".
Hypothesis Hdir : isdir m (under (directory self) ws) = true.

(** [send_head] for a directory asked for with the slash: the index files
    are tried, then the directory is listed. *)
Lemma send_head_directory :
  send_head m self
  = if isfile m (under (directory self) (ws ++ ["index.html"]))
    then send_head_file m self (under (directory self) (ws ++ ["index.html"]))
    else if isfile m (under (directory self) (ws ++ ["index.htm"]))
    then send_head_file m self (under (directory self) (ws ++ ["index.htm"]))
    else list_directory m (under (directory self) ws ++ "/") self.
Proof.
  unfold send_head. cbv zeta.
  rewrite Hpath, translate_path_names_slash by assumption.
  rewrite (isdir_slash m _ Hdir).
  rewrite urlsplit_names_slash by assumption.
  rewrite endswith_app. cbn [negb].
  rewrite !join_after_slash by reflexivity.
  rewrite !under_snoc_names by (assumption || reflexivity).
  reflexivity.
Qed.

Lemma do_GET_directory :
  wfile (do_GET m self).2
  = if isfile m (under (directory self) (ws ++ ["index.html"]))
    then file_reply m self (under (directory self) (ws ++ ["index.html"]))
    else if isfile m (under (directory self) (ws ++ ["index.htm"]))
    then file_reply m self (under (directory self) (ws ++ ["index.htm"]))
    else listing_reply m self (under (directory self) ws ++ "/").
Proof.
  unfold do_GET. rewrite send_head_directory.
  destruct (isfile m (under (directory self) (ws ++ ["index.html"])));
    [now apply copy_after_head_file|].
  destruct (isfile m (under (directory self) (ws ++ ["index.htm"])));
    [now apply copy_after_head_file|].
  unfold listing_reply.
  destruct (list_directory m (under (directory self) ws ++ "/") self) as [[[f|]|e] s];
    cbn [snd]; [apply copyfile_wfile|reflexivity..].
Qed.

End DirectoryWithSlash.

Lemma index_name_ends p (ws : list string) (w : string) :
  file_name w = true ->
  str.endswith (under p (ws ++ [w])) "/" = false.
Proof.
  intros Hw. rewrite under_snoc. destruct (join_name (under p ws) w Hw) as [pre ->].
  apply file_name_inv in Hw as (H0 & _ & _ & Hs).
  now apply endswith_slash_app.
Qed.

(** X14.  Let a directory under the working directory, other than the
    working directory itself and with names in ASCII, be asked for by its
    quoted path with the slash at the end, in a GET request of a version
    other than HTTP/0.9, the clock and the file times in the years 1 to
    9999.  When [index.html] is a regular file that can be opened, it is
    sent with status 200 to a client that holds no copy still good,
    whether or not there is an [index.htm]; [index.htm] is sent in the
    same way when [index.html] is no regular file.  An index file that is
    a regular file and cannot be opened is answered with status 404 and
    the page of "File not found": neither the other index file nor the
    listing takes its place. *)
Theorem index_file_answers_for_its_directory :
  forall (m : machine) (cwd : string) (ws : list string) (v : string)
         (hs : list (string * hvalue)) (cls : handler_class),
    ws <> [] ->
    Forall (fun w => ascii_name w = true) ws ->
    isdir m (under cwd ws) = true ->
    v <> "HTTP/0.9" ->
    in_years (clock m) = true ->
    cls = simple_server.handler \/ cls = serve_test.Handler ->
    let w := handle cls m cwd (GET (urllib_parse.quote (url_of ws) ++ "/") v hs) in
    let html := under cwd (ws ++ ["index.html"]) in
    let htm := under cwd (ws ++ ["index.htm"]) in
    (forall r data mtime,
       stat m html = Some (RegularFile r data mtime) ->
       in_years mtime = true ->
       if r then ~ holds_copy hs mtime -> status w = Some 200 /\ body w = data
       else status w = Some 404 /\ body w = not_found_page)
    /\ (forall r data mtime,
          isfile m html = false ->
          stat m htm = Some (RegularFile r data mtime) ->
          in_years mtime = true ->
          if r then ~ holds_copy hs mtime -> status w = Some 200 /\ body w = data
          else status w = Some 404 /\ body w = not_found_page).
Proof.
  intros m cwd ws v hs cls Hne Hascii Hdir Hv _ Hcls w html htm.
  pose proof (ascii_names_file_names ws Hascii) as Hall.
  set (p := urllib_parse.quote (url_of ws) ++ "/") in *.
  set (self := new_handler cwd (GET p v hs)).
  assert (Hfresh : fresh self) by now apply fresh_new_handler.
  assert (Hcmd : command self <> "HEAD") by (cbn; discriminate).
  assert (Hw : w = wfile (SimpleHTTPRequestHandler.do_GET m self).2).
  { unfold w. destruct Hcls as [->| ->]; [reflexivity|].
    apply handle_GET_not_root. now apply quote_url_not_root. }
  rewrite Hw, (do_GET_directory m self ws (unsent_new_handler _ _) Hne Hall eq_refl Hdir).
  change (directory self) with cwd. fold html htm.
  split.
  - intros r data mtime Hstat _. rewrite (stat_isfile m _ _ _ _ Hstat).
    apply (index_reply m self html r data mtime Hfresh Hcmd); [|exact Hstat].
    now apply index_name_ends.
  - intros r data mtime Hno Hstat _. rewrite Hno, (stat_isfile m _ _ _ _ Hstat).
    apply (index_reply m self htm r data mtime Hfresh Hcmd); [|exact Hstat].
    now apply index_name_ends.
Qed.

Lemma index_file_answers_for_its_directory_witness :
  body (handle simple_server.handler library "/srv/www" (GET "/old/" "HTTP/1.1" []))
  = "<html>old</html>"
  /\ status (handle simple_server.handler library "/srv/www" (GET "/locked/" "HTTP/1.1" []))
     = Some 404.
Proof.
  assert (Hcopy : ~ holds_copy [] 1700000000) by (intros (d & H & _); discriminate).
  assert (Hv : "HTTP/1.1" <> "HTTP/0.9") by discriminate.
  split.
  - assert (Hne : ["old"] <> @nil string) by discriminate.
    assert (Hall : Forall (fun w => ascii_name w = true) ["old"])
      by (repeat constructor).
    assert (Hdir : isdir library (under "/srv/www" ["old"]) = true)
      by (vm_compute; reflexivity).
    destruct (index_file_answers_for_its_directory library "/srv/www" ["old"] "HTTP/1.1" []
                simple_server.handler Hne Hall Hdir Hv eq_refl (or_introl eq_refl))
      as (_ & H).
    apply (H true "<html>old</html>" 1700000000);
      [vm_compute; reflexivity|vm_compute; reflexivity|reflexivity|exact Hcopy].
  - assert (Hne : ["locked"] <> @nil string) by discriminate.
    assert (Hall : Forall (fun w => ascii_name w = true) ["locked"])
      by (repeat constructor).
    assert (Hdir : isdir library (under "/srv/www" ["locked"]) = true)
      by (vm_compute; reflexivity).
    destruct (index_file_answers_for_its_directory library "/srv/www" ["locked"] "HTTP/1.1"
                [] simple_server.handler Hne Hall Hdir Hv eq_refl (or_introl eq_refl))
      as (H & _).
    apply (H false "<html>secret</html>" 1700000000); [vm_compute; reflexivity|reflexivity].
Defined.

(** ** The listing of a directory *)




(** ** Names in a listing *)

Lemma replace_lacks_self c by_ s :
  str.contains c by_ = false -> str.contains c (str.replace c by_ s) = false.
Proof.
  intros Hb. induction s as [|a s IH]; cbn [str.replace]; [reflexivity|].
  destruct (Ascii.eqb a c) eqn:E.
  - now rewrite contains_app, Hb, IH.
  - cbn [str.contains]. now rewrite E, IH.
Qed.

Lemma replace_lacks_other (d c : ascii) by_ s :
  str.contains d by_ = false -> str.contains d s = false ->
  str.contains d (str.replace c by_ s) = false.
Proof.
  intros Hb. induction s as [|a s IH]; cbn [str.replace str.contains]; [reflexivity|].
  intros H. apply orb_false_iff in H as [Ha Hs].
  destruct (Ascii.eqb a c).
  - now rewrite contains_app, Hb, IH.
  - cbn [str.contains]. now rewrite Ha, IH.
Qed.

(** [html.escape] leaves no angle bracket. *)
Lemma escape_no_angle s :
  str.contains "<" (html.escape s) = false
  /\ str.contains ">" (html.escape s) = false.
Proof.
  unfold html.escape. split.
  - apply replace_lacks_other; [reflexivity|].
    now apply replace_lacks_self.
  - now apply replace_lacks_self.
Qed.

(** X16.  The item of a listing cannot break out of its markup, whatever
    the name of the file: the link is made of unreserved characters,
    slashes and percent escapes only (no quotation mark, no angle bracket),
    the text shown has no angle bracket, and unquoting the link gives the
    name back (with a slash after it for a directory). *)
Theorem listing_entry_is_escaped :
  forall (m : machine) (fspath name : string),
    exists href text,
      SimpleHTTPRequestHandler.list_item m fspath name
      = "<li><a href=" ++ str.dq ++ href ++ str.dq ++ ">" ++ text ++ "</a></li>"
      /\ urllib_parse.all_chars url_char href = true
      /\ str.contains (ascii_of_nat 34) href = false
      /\ str.contains "<" href = false
      /\ str.contains ">" href = false
      /\ str.contains "<" text = false
      /\ str.contains ">" text = false
      /\ (urllib_parse.unquote href = name \/ urllib_parse.unquote href = name ++ "/").
Proof.
  intros m fspath name. unfold SimpleHTTPRequestHandler.list_item. cbv zeta.
  destruct (isdir m (posixpath.join fspath name)).
  - exists (urllib_parse.quote (name ++ "/")),
      (html.escape (if islink m (posixpath.join fspath name)
                    then name ++ "@" else name ++ "/")).
    split; [reflexivity|]. split; [apply quote_chars|].
    repeat split; try (apply url_char_lacks; [reflexivity|apply quote_chars]);
      try apply escape_no_angle.
    right. apply unquote_quote.
  - exists (urllib_parse.quote name),
      (html.escape (if islink m (posixpath.join fspath name)
                    then name ++ "@" else name)).
    split; [reflexivity|]. split; [apply quote_chars|].
    repeat split; try (apply url_char_lacks; [reflexivity|apply quote_chars]);
      try apply escape_no_angle.
    left. apply unquote_quote.
Qed.

(** ** Content types the machine's table does not decide *)

Lemma under_names_absolute root ws :
  str.startswith root "/" = true ->
  Forall (fun w => file_name w = true) ws ->
  str.startswith (under root ws) "/" = true.
Proof.
  intros Hr Hall. revert root Hr. induction Hall as [|w ws Hw Hall IH]; intros root Hr.
  - exact Hr.
  - cbn [under fold_left]. apply IH. unfold posixpath.join.
    destruct (str.startswith w "/") eqn:Es; [exact Es|].
    destruct (_ || _); now apply startswith_slash_app.
Qed.

(** A name joined onto an absolute path comes after a slash. *)
Lemma join_name_slash a w :
  str.startswith a "/" = true -> file_name w = true ->
  exists a', posixpath.join a w = a' ++ String "/" w.
Proof.
  intros Ha Hw. unfold posixpath.join.
  assert (Hs : str.startswith w "/" = false).
  { apply file_name_inv in Hw as (_ & _ & _ & Hc).
    destruct w as [|c w]; [reflexivity|].
    cbn in Hc. apply orb_false_iff in Hc as [Hc _].
    unfold str.startswith. cbn [String.prefix].
    destruct (ascii_dec "/" c) as [<-|_]; [discriminate|reflexivity]. }
  rewrite Hs.
  destruct (String.eqb_spec a "") as [->|_]; [discriminate|]. cbn [orb].
  destruct (str.endswith a "/") eqn:E.
  - destruct (endswith_slash_inv a E) as [a' ->]. exists a'.
    now rewrite append_assoc.
  - now exists a.
Qed.

(** A name without a dot has no extension. *)
Lemma extension_without_dot a w :
  str.contains "." w = false -> str.contains "/" w = false ->
  extension (a ++ String "/" w) = "".
Proof.
  intros Hd Hs. unfold extension, posixpath.splitext.
  rewrite (rfind_app_last "/" a w Hs).
  rewrite (rfind_app_absent "." a (String "/" w)) by exact Hd.
  pose proof (rfind_bounds "." a) as Hb.
  assert (H : (Z.of_nat (String.length a) <? str.rfind "." a) = false)
    by (apply Z.ltb_ge; lia).
  rewrite H. reflexivity.
Qed.

Lemma has_stem_dots pre dots post n :
  urllib_parse.all_chars (fun c => Ascii.eqb c ".") dots = true ->
  (n <= String.length dots)%nat ->
  posixpath.has_stem (pre ++ dots ++ post) (String.length pre) n = false.
Proof.
  revert pre dots. induction n as [|n IH]; intros pre dots Hd Hn; [reflexivity|].
  destruct dots as [|c dots]; [cbn in Hn; lia|].
  cbn [urllib_parse.all_chars] in Hd. apply andb_true_iff in Hd as [Hc Hd].
  apply Ascii.eqb_eq in Hc. subst c.
  cbn [posixpath.has_stem]. change (String "." dots ++ post) with (String "." (dots ++ post)).
  rewrite get_app, Ascii.eqb_refl.
  replace (pre ++ String "." (dots ++ post)) with ((pre ++ ".") ++ dots ++ post)
    by (rewrite append_assoc; reflexivity).
  replace (S (String.length pre)) with (String.length (pre ++ "."))
    by (rewrite length_app; cbn; lia).
  apply IH; [exact Hd|cbn in Hn; lia].
Qed.

Lemma dots_snoc dots :
  urllib_parse.all_chars (fun c => Ascii.eqb c ".") dots = true -> dots <> "" ->
  exists d, dots = d ++ "."
            /\ urllib_parse.all_chars (fun c => Ascii.eqb c ".") d = true.
Proof.
  induction dots as [|c dots IH]; [congruence|].
  cbn [urllib_parse.all_chars]. intros H _. apply andb_true_iff in H as [Hc Hd].
  apply Ascii.eqb_eq in Hc. subst c.
  destruct dots as [|c' dots'].
  - exists "". split; reflexivity.
  - destruct (IH Hd) as (d & E & Hd'); [discriminate|].
    exists (String "." d). rewrite E. split; [reflexivity|].
    cbn [urllib_parse.all_chars]. now rewrite Hd'.
Qed.

Lemma dots_no_slash dots :
  urllib_parse.all_chars (fun c => Ascii.eqb c ".") dots = true ->
  str.contains "/" dots = false.
Proof. intros H. now apply (all_chars_contains _ "/" dots H). Qed.

(** Neither has a name with dots at its start only. *)
Lemma extension_leading_dots a dots rest :
  urllib_parse.all_chars (fun c => Ascii.eqb c ".") dots = true ->
  str.contains "." rest = false -> str.contains "/" rest = false ->
  extension (a ++ String "/" (dots ++ rest)) = "".
Proof.
  intros Hd Hr Hs.
  destruct (String.eqb_spec dots "") as [->|Hne];
    [now apply extension_without_dot|].
  destruct (dots_snoc dots Hd Hne) as (d & -> & Hd').
  unfold extension, posixpath.splitext.
  assert (Hsep : str.rfind "/" (a ++ String "/" ((d ++ ".") ++ rest))
                 = Z.of_nat (String.length a)).
  { apply rfind_app_last. now rewrite contains_app, (dots_no_slash _ Hd), Hs. }
  assert (Ep : a ++ String "/" ((d ++ ".") ++ rest)
               = ((a ++ "/") ++ d) ++ String "." rest).
  { rewrite !append_assoc. reflexivity. }
  assert (Hdot : str.rfind "." (a ++ String "/" ((d ++ ".") ++ rest))
                 = Z.of_nat (String.length ((a ++ "/") ++ d))).
  { rewrite Ep. now apply rfind_app_last. }
  rewrite Hsep, Hdot, !length_app. cbn [String.length].
  replace (Z.to_nat (Z.of_nat (String.length a) + 1)) with (String.length (a ++ "/"))
    by (rewrite length_app; cbn; lia).
  replace (Z.to_nat (Z.of_nat (String.length a + 1 + String.length d)
                     - (Z.of_nat (String.length a) + 1)))
    with (String.length d) by lia.
  replace (a ++ String "/" ((d ++ ".") ++ rest))
    with ((a ++ "/") ++ d ++ String "." rest)
    by (rewrite !append_assoc; reflexivity).
  rewrite (has_stem_dots (a ++ "/") d (String "." rest) _ Hd') by lia.
  now rewrite andb_false_r.
Qed.

Section FileType.

Variable m : machine.
Variable cwd : string.
Variable ws : list string.
Variable name : string.
Variable v : string.
Variable hs : list (string * hvalue).
Variable data : string.
Variable mtime : Z.
Hypothesis Hnames : Forall (fun w => file_name w = true) ws.
Hypothesis Hname : file_name name = true.
Hypothesis Hstat :
  stat m (under cwd (ws ++ [name])) = Some (RegularFile true data mtime).
Hypothesis Hcopy : ~ holds_copy hs mtime.
Hypothesis Hv : v <> "HTTP/0.9".

(** The answer for a file that is served. *)
Lemma served_file_answer cls :
  cls = simple_server.handler \/ cls = serve_test.Handler ->
  handle cls m cwd (GET (urllib_parse.quote (url_of (ws ++ [name]))) v hs)
  = Lines (file_head m
             (SimpleHTTPRequestHandler.guess_type m (under cwd (ws ++ [name])))
             {| content := data; st_size := String.length data; f_mtime := mtime |})
    :: blocks data.
Proof.
  intros Hcls.
  assert (Hall : Forall (fun w => file_name w = true) (ws ++ [name])).
  { apply Forall_app. split; [exact Hnames|now repeat constructor]. }
  assert (Hne : (ws ++ [name])%list <> []) by (destruct ws; discriminate).
  set (p := urllib_parse.quote (url_of (ws ++ [name]))) in *.
  set (self := new_handler cwd (GET p v hs)).
  assert (Htr : SimpleHTTPRequestHandler.translate_path self (path self)
                = under cwd (ws ++ [name]))
    by (apply (translate_path_names self _ Hne Hall)).
  assert (Hw : handle cls m cwd (GET p v hs)
               = wfile (SimpleHTTPRequestHandler.do_GET m self).2).
  { destruct Hcls as [->| ->]; [reflexivity|].
    apply handle_GET_not_root. unfold p.
    rewrite <- (append_nil_r (urllib_parse.quote _)).
    now apply quote_url_not_root. }
  destruct (stat_open m _ _ _ Hstat) as [Hopen Hdir].
  rewrite Hw, do_GET_not_directory by (rewrite ?Htr; assumption || apply unsent_new_handler).
  rewrite Htr.
  apply (file_reply_file m self (under cwd (ws ++ [name])) _
           (has_headers_new_handler cwd (GET p v hs) Hv)
           (under_names_ends_with_name cwd _ Hne Hall) Hopen).
  now apply no_copy_not_modified.
Qed.

(** The type a served file is sent with is the one [guess_type] gives for
    its path. *)
Lemma served_file_type cls :
  cls = simple_server.handler \/ cls = serve_test.Handler ->
  let w := handle cls m cwd (GET (urllib_parse.quote (url_of (ws ++ [name]))) v hs) in
  status w = Some 200
  /\ header "Content-type" w
     = Some (Text (SimpleHTTPRequestHandler.guess_type m (under cwd (ws ++ [name])))).
Proof.
  intros Hcls w. unfold w. rewrite (served_file_answer cls Hcls).
  split; reflexivity.
Qed.

End FileType.

(** X17.  Let a file named [stem.e] under the working directory be served:
    names in ASCII, a stem that is more than dots, a GET request for its
    quoted path of a version other than HTTP/0.9, no copy still good held
    by the client, the clock and the file's time in the years 1 to 9999.
    When the extension is one of the handler's own [extensions_map]
    ([.gz], [.Z], [.bz2], [.xz], as written or in lower case), the file is
    sent with the type listed there, whatever the MIME table of the
    machine says. *)
Theorem compressed_files_have_fixed_types :
  forall (m : machine) (cwd : string) (ws : list string) (stem e v : string)
         (hs : list (string * hvalue)) (data : string) (mtime : Z) (t : string)
         (cls : handler_class),
    let name := stem ++ String "." e in
    Forall (fun w => ascii_name w = true) ws ->
    ascii_name name = true ->
    has_name_char stem = true ->
    str.contains "." e = false ->
    SimpleHTTPRequestHandler.extensions_map !! (String "." e) = Some t
    \/ (SimpleHTTPRequestHandler.extensions_map !! (String "." e) = None
        /\ SimpleHTTPRequestHandler.extensions_map !! str.lower (String "." e) = Some t) ->
    stat m (under cwd (ws ++ [name])) = Some (RegularFile true data mtime) ->
    v <> "HTTP/0.9" ->
    ~ holds_copy hs mtime ->
    in_years (clock m) = true ->
    in_years mtime = true ->
    cls = simple_server.handler \/ cls = serve_test.Handler ->
    let w := handle cls m cwd (GET (urllib_parse.quote (url_of (ws ++ [name]))) v hs) in
    status w = Some 200 /\ header "Content-type" w = Some (Text t).
Proof.
  intros m cwd ws stem e v hs data mtime t cls name Hascii Aname Hstem He Hext Hstat
    Hv Hcopy _ _ Hcls w.
  pose proof (ascii_names_file_names ws Hascii) as Hall.
  pose proof (ascii_name_file_name name Aname) as Hname.
  destruct (served_file_type m cwd ws name v hs data mtime Hall Hname Hstat Hcopy Hv
              cls Hcls)
    as [Hs Hc].
  split; [exact Hs|]. unfold w. rewrite Hc. do 2 f_equal.
  assert (Hx : extension (under cwd (ws ++ [name])) = String "." e).
  { rewrite under_snoc. destruct (join_name (under cwd ws) name Hname) as [pre ->].
    apply file_name_inv in Hname as (_ & _ & _ & Hsl).
    unfold name in Hsl |- *. rewrite contains_app in Hsl.
    apply orb_false_iff in Hsl as [Hsl1 Hsl2]. cbn in Hsl2.
    apply extension_of_name; assumption. }
  unfold SimpleHTTPRequestHandler.guess_type. unfold extension in Hx.
  destruct (posixpath.splitext (under cwd (ws ++ [name]))) as [base ext].
  cbn [snd] in Hx. subst ext.
  destruct Hext as [-> | [-> ->]]; reflexivity.
Qed.

Lemma compressed_files_have_fixed_types_witness :
  header "Content-type"
    (handle serve_test.Handler library "/srv/www" (GET "/pkg.tar.gz" "HTTP/1.1" []))
  = Some (Text "application/gzip").
Proof.
  assert (Hcopy : ~ holds_copy [] 1700000000) by (intros (d & H & _); discriminate).
  assert (Hstat : stat library (under "/srv/www" ([] ++ ["pkg.tar" ++ String "." "gz"]))
                  = Some (RegularFile true "gz" 1700000000))
    by (vm_compute; reflexivity).
  assert (Hv : "HTTP/1.1" <> "HTTP/0.9") by discriminate.
  destruct (compressed_files_have_fixed_types library "/srv/www" [] "pkg.tar" "gz"
              "HTTP/1.1" [] "gz" 1700000000 "application/gzip" serve_test.Handler
              (List.Forall_nil _) eq_refl eq_refl eq_refl (or_introl eq_refl)
              Hstat Hv Hcopy eq_refl eq_refl (or_intror eq_refl)) as [_ H].
  exact H.
Defined.

(** X18.  Let a file under an absolute working directory be served: names
    in ASCII, a GET request for its quoted path of a version other than
    HTTP/0.9, no copy still good held by the client, the clock and the
    file's time in the years 1 to 9999.  When its name has no extension
    (no dot, or dots at its start only, as [README] and [.profile]), it is
    sent as [application/octet-stream], the machine's table having no
    entry for the empty extension. *)
Theorem file_without_extension_is_octet_stream :
  forall (m : machine) (cwd : string) (ws : list string) (dots rest v : string)
         (hs : list (string * hvalue)) (data : string) (mtime : Z)
         (cls : handler_class),
    let name := dots ++ rest in
    Forall (fun w => ascii_name w = true) ws ->
    ascii_name name = true ->
    urllib_parse.all_chars (fun c => Ascii.eqb c ".") dots = true ->
    str.contains "." rest = false ->
    str.startswith cwd "/" = true ->
    types_map m !! "" = None ->
    stat m (under cwd (ws ++ [name])) = Some (RegularFile true data mtime) ->
    v <> "HTTP/0.9" ->
    ~ holds_copy hs mtime ->
    in_years (clock m) = true ->
    in_years mtime = true ->
    cls = simple_server.handler \/ cls = serve_test.Handler ->
    let w := handle cls m cwd (GET (urllib_parse.quote (url_of (ws ++ [name]))) v hs) in
    status w = Some 200
    /\ header "Content-type" w = Some (Text "application/octet-stream").
Proof.
  intros m cwd ws dots rest v hs data mtime cls name Hascii Aname Hdots Hdot Hcwd Htab
    Hstat Hv Hcopy _ _ Hcls w.
  pose proof (ascii_names_file_names ws Hascii) as Hall.
  pose proof (ascii_name_file_name name Aname) as Hname.
  destruct (served_file_type m cwd ws name v hs data mtime Hall Hname Hstat Hcopy Hv
              cls Hcls)
    as [Hs Hc].
  split; [exact Hs|]. unfold w. rewrite Hc. do 2 f_equal.
  assert (Habs : str.startswith (under cwd (ws ++ [name])) "/" = true).
  { apply under_names_absolute; [exact Hcwd|].
    apply Forall_app. split; [exact Hall|now repeat constructor]. }
  assert (Hx : extension (under cwd (ws ++ [name])) = "").
  { rewrite under_snoc.
    destruct (join_name_slash (under cwd ws) name) as [a' ->];
      [now apply under_names_absolute|exact Hname|].
    apply file_name_inv in Hname as (_ & _ & _ & Hsl).
    unfold name in Hsl |- *. rewrite contains_app in Hsl.
    apply orb_false_iff in Hsl as [_ Hsl].
    now apply extension_leading_dots. }
  rewrite guess_type_ordinary by (rewrite ?Hx; reflexivity || exact Habs).
  rewrite Hx. unfold from_table. change (str.lower "") with "". now rewrite Htab.
Qed.

Lemma file_without_extension_is_octet_stream_witness :
  header "Content-type"
    (handle simple_server.handler library "/srv/www" (GET "/README" "HTTP/1.1" []))
  = Some (Text "application/octet-stream")
  /\ header "Content-type"
       (handle simple_server.handler library "/srv/www" (GET "/.profile" "HTTP/1.1" []))
     = Some (Text "application/octet-stream").
Proof.
  assert (Hcopy : ~ holds_copy [] 1700000000) by (intros (d & H & _); discriminate).
  assert (Htab : types_map library !! "" = None) by (vm_compute; reflexivity).
  assert (Hv : "HTTP/1.1" <> "HTTP/0.9") by discriminate.
  split.
  - assert (Hstat : stat library (under "/srv/www" ([] ++ ["" ++ "README"]))
                    = Some (RegularFile true "read me" 1700000000))
      by (vm_compute; reflexivity).
    destruct (file_without_extension_is_octet_stream library "/srv/www" [] "" "README"
                "HTTP/1.1" [] "read me" 1700000000 simple_server.handler
                (List.Forall_nil _) eq_refl eq_refl eq_refl eq_refl Htab
                Hstat Hv Hcopy eq_refl eq_refl (or_introl eq_refl)) as [_ H].
    exact H.
  - assert (Hstat : stat library (under "/srv/www" ([] ++ ["." ++ "profile"]))
                    = Some (RegularFile true "export" 1700000000))
      by (vm_compute; reflexivity).
    destruct (file_without_extension_is_octet_stream library "/srv/www" [] "." "profile"
                "HTTP/1.1" [] "export" 1700000000 simple_server.handler
                (List.Forall_nil _) eq_refl eq_refl eq_refl eq_refl Htab
                Hstat Hv Hcopy eq_refl eq_refl (or_introl eq_refl)) as [_ H].
    exact H.
Defined.

(** ** Extensions that stand for others *)

Lemma extensions_map_keys ext t :
  SimpleHTTPRequestHandler.extensions_map !! ext = Some t ->
  ext = ".gz" \/ ext = ".Z" \/ ext = ".bz2" \/ ext = ".xz".
Proof.
  intros E. apply elem_of_list_to_map_2 in E.
  repeat (apply elem_of_cons in E as [E|E]; [injection E as -> _; tauto|]).
  inversion E.
Qed.

Lemma extensions_map_other ext :
  str.lower ext <> ".gz" -> str.lower ext <> ".z" ->
  str.lower ext <> ".bz2" -> str.lower ext <> ".xz" ->
  SimpleHTTPRequestHandler.extensions_map !! ext = None.
Proof.
  intros H1 H2 H3 H4.
  destruct (SimpleHTTPRequestHandler.extensions_map !! ext) as [t|] eqn:E;
    [|reflexivity].
  exfalso. destruct (extensions_map_keys ext t E) as [-> | [-> | [-> | ->]]];
    [apply H1|apply H2|apply H3|apply H4]; reflexivity.
Qed.

Lemma splitext_of_name pre stem e :
  has_name_char stem = true ->
  str.contains "/" stem = false ->
  str.contains "." e = false ->
  str.contains "/" e = false ->
  posixpath.splitext (pre ++ stem ++ String "." e) = (pre ++ stem, String "." e).
Proof.
  intros Hn Hs He Hes. destruct (has_name_char_inv stem Hn) as (a & c & b & -> & Hc).
  rewrite contains_app in Hs. apply orb_false_iff in Hs as [_ Hs].
  replace (pre ++ (a ++ String c b) ++ String "." e)
    with ((pre ++ a) ++ String c b ++ String "." e)
    by (rewrite !append_assoc; reflexivity).
  rewrite splitext_name by assumption. now rewrite append_assoc.
Qed.

Lemma handler_type_from_table m p :
  SimpleHTTPRequestHandler.extensions_map !! (posixpath.splitext p).2 = None ->
  SimpleHTTPRequestHandler.extensions_map !! str.lower (posixpath.splitext p).2 = None ->
  SimpleHTTPRequestHandler.guess_type m p
  = match mimetypes.guess_type (types_map m) p with
    | Some guess => if String.eqb guess "" then "application/octet-stream" else guess
    | None => "application/octet-stream"
    end.
Proof.
  unfold SimpleHTTPRequestHandler.guess_type.
  destruct (posixpath.splitext p) as [base ext]. cbn [snd].
  now intros -> ->.
Qed.

(** The type of a name with an abbreviation: the loop over [suffix_map]
    writes the abbreviation out, the compression is taken off, and the
    table is asked for what is left. *)
Lemma guess_type_suffix m pre stem e (i o : string) :
  mimetypes.suffix_map !! str.lower (String "." e) = Some (String "." i ++ String "." o) ->
  has_name_char i = true ->
  str.contains "/" i = false -> str.contains "." i = false ->
  str.contains "/" o = false -> str.contains "." o = false ->
  mimetypes.suffix_map !! str.lower (String "." o) = None ->
  is_Some (mimetypes.encodings_map !! String "." o) ->
  SimpleHTTPRequestHandler.extensions_map !! String "." e = None ->
  SimpleHTTPRequestHandler.extensions_map !! str.lower (String "." e) = None ->
  has_name_char stem = true ->
  str.contains "/" stem = false ->
  str.contains "." e = false -> str.contains "/" e = false ->
  str.startswith (pre ++ stem ++ String "." e) "/" = true ->
  SimpleHTTPRequestHandler.guess_type m (pre ++ stem ++ String "." e)
  = from_table (types_map m) (String "." i).
Proof.
  intros Hsuf Hi Hi1 Hi2 Ho1 Ho2 Hosuf Henc Hx1 Hx2 Hstem Hs He1 He2 Habs.
  pose proof (splitext_of_name pre stem e Hstem Hs He1 He2) as Hsp.
  rewrite handler_type_from_table by (rewrite Hsp; assumption).
  unfold mimetypes.guess_type. rewrite (splittype_absolute _ Habs).
  rewrite bool_decide_eq_false_2 by discriminate.
  rewrite Hsp. cbn [mimetypes.suffix_loop]. rewrite Hsuf.
  assert (Hsp2 : posixpath.splitext ((pre ++ stem) ++ String "." i ++ String "." o)
                 = ((pre ++ stem) ++ String "." i, String "." o)).
  { replace ((pre ++ stem) ++ String "." i ++ String "." o)
      with (((pre ++ stem) ++ ".") ++ i ++ String "." o)
      by (rewrite !append_assoc; reflexivity).
    rewrite splitext_of_name by assumption. now rewrite !append_assoc. }
  rewrite Hsp2, Hosuf.
  rewrite bool_decide_eq_true_2 by exact Henc.
  replace ((pre ++ stem) ++ String "." i) with (pre ++ stem ++ String "." i)
    by (rewrite append_assoc; reflexivity).
  rewrite splitext_of_name by assumption.
  unfold from_table. destruct (types_map m !! str.lower (String "." i)); reflexivity.
Qed.

(** X19.  Let a file named [stem.e] under an absolute working directory be
    served: names in ASCII, a stem that is more than dots, a GET request
    for its quoted path of a version other than HTTP/0.9, no copy still
    good held by the client, the clock and the file's time in the years 1
    to 9999.  When the extension, in lower case, is an abbreviation of
    [mimetypes.suffix_map], the file is sent with the type the machine's
    table has for the extension the abbreviation stands for
    ([application/octet-stream] when it has none): [a.tgz] as [a.tar] (not
    as a gzip file), [a.svgz] as [a.svg]. *)
Theorem abbreviated_extension_has_the_type_it_stands_for :
  forall (m : machine) (cwd : string) (ws : list string) (stem e inner v : string)
         (hs : list (string * hvalue)) (data : string) (mtime : Z)
         (cls : handler_class),
    let name := stem ++ String "." e in
    Forall (fun w => ascii_name w = true) ws ->
    ascii_name name = true ->
    has_name_char stem = true ->
    str.contains "." e = false ->
    In (str.lower (String "." e), inner) abbreviations ->
    str.startswith cwd "/" = true ->
    stat m (under cwd (ws ++ [name])) = Some (RegularFile true data mtime) ->
    v <> "HTTP/0.9" ->
    ~ holds_copy hs mtime ->
    in_years (clock m) = true ->
    in_years mtime = true ->
    cls = simple_server.handler \/ cls = serve_test.Handler ->
    let w := handle cls m cwd (GET (urllib_parse.quote (url_of (ws ++ [name]))) v hs) in
    status w = Some 200
    /\ header "Content-type" w = Some (Text (from_table (types_map m) inner)).
Proof.
  intros m cwd ws stem e inner v hs data mtime cls name Hascii Aname Hstem He Hin Hcwd
    Hstat Hv Hcopy _ _ Hcls w.
  pose proof (ascii_names_file_names ws Hascii) as Hall.
  pose proof (ascii_name_file_name name Aname) as Hname.
  destruct (served_file_type m cwd ws name v hs data mtime Hall Hname Hstat Hcopy Hv
              cls Hcls)
    as [Hs Hc].
  split; [exact Hs|]. unfold w. rewrite Hc. do 2 f_equal.
  assert (Habs : str.startswith (under cwd (ws ++ [name])) "/" = true).
  { apply under_names_absolute; [exact Hcwd|].
    apply Forall_app. split; [exact Hall|now repeat constructor]. }
  revert Habs. rewrite under_snoc.
  destruct (join_name (under cwd ws) name Hname) as [pre ->].
  apply file_name_inv in Hname as (_ & _ & _ & Hsl).
  unfold name in Hsl |- *. rewrite contains_app in Hsl.
  apply orb_false_iff in Hsl as [Hsl1 Hsl2]. cbn in Hsl2.
  intros Habs.
  assert (Hx : SimpleHTTPRequestHandler.extensions_map !! String "." e = None).
  { cbn [In abbreviations] in Hin.
    apply extensions_map_other;
      intros E; rewrite E in Hin;
      repeat (destruct Hin as [Hin|Hin]; [discriminate Hin|]); exact Hin. }
  cbn [In abbreviations] in Hin.
  destruct Hin as [Hin|[Hin|[Hin|[Hin|[Hin|[Hin|[]]]]]]];
    apply pair_equal_spec in Hin as [Hlow <-].
  - apply (guess_type_suffix m pre stem e "svg" "gz");
      try assumption; try reflexivity; try (rewrite <- Hlow; reflexivity).
    eexists; reflexivity.
  - apply (guess_type_suffix m pre stem e "tar" "gz");
      try assumption; try reflexivity; try (rewrite <- Hlow; reflexivity).
    eexists; reflexivity.
  - apply (guess_type_suffix m pre stem e "tar" "gz");
      try assumption; try reflexivity; try (rewrite <- Hlow; reflexivity).
    eexists; reflexivity.
  - apply (guess_type_suffix m pre stem e "tar" "gz");
      try assumption; try reflexivity; try (rewrite <- Hlow; reflexivity).
    eexists; reflexivity.
  - apply (guess_type_suffix m pre stem e "tar" "bz2");
      try assumption; try reflexivity; try (rewrite <- Hlow; reflexivity).
    eexists; reflexivity.
  - apply (guess_type_suffix m pre stem e "tar" "xz");
      try assumption; try reflexivity; try (rewrite <- Hlow; reflexivity).
    eexists; reflexivity.
Qed.

Lemma abbreviated_extension_has_the_type_it_stands_for_witness :
  header "Content-type"
    (handle serve_test.Handler library "/srv/www" (GET "/src.TGZ" "HTTP/1.1" []))
  = Some (Text "application/x-tar").
Proof.
  assert (Hcopy : ~ holds_copy [] 1700000000) by (intros (d & H & _); discriminate).
  assert (Hstat : stat library (under "/srv/www" ([] ++ ["src" ++ String "." "TGZ"]))
                  = Some (RegularFile true "tgz" 1700000000))
    by (vm_compute; reflexivity).
  assert (Hv : "HTTP/1.1" <> "HTTP/0.9") by discriminate.
  destruct (abbreviated_extension_has_the_type_it_stands_for library "/srv/www" [] "src"
              "TGZ" ".tar" "HTTP/1.1" [] "tgz" 1700000000 serve_test.Handler
              (List.Forall_nil _) eq_refl eq_refl eq_refl
              (or_intror (or_introl eq_refl)) eq_refl
              Hstat Hv Hcopy eq_refl eq_refl (or_intror eq_refl)) as [_ H].
  exact H.
Defined.

(** X20.  Let a file named [stem.i.br] under an absolute working directory
    be served: names in ASCII, a stem that is more than dots, no dot in
    [i], a GET request for its quoted path of a version other than
    HTTP/0.9, no copy still good held by the client, the clock and the
    file's time in the years 1 to 9999.  It is sent with the type the
    machine's table has for [.i] in lower case ([application/octet-stream]
    when it has none): the extension of the Brotli compression is taken off
    before the table is asked, and the answer has no [Content-Encoding]
    field to say that the bytes are compressed. *)
Theorem brotli_extension_is_taken_off :
  forall (m : machine) (cwd : string) (ws : list string) (stem i v : string)
         (hs : list (string * hvalue)) (data : string) (mtime : Z)
         (cls : handler_class),
    let name := stem ++ String "." i ++ ".br" in
    Forall (fun w => ascii_name w = true) ws ->
    ascii_name name = true ->
    has_name_char stem = true ->
    str.contains "." i = false ->
    str.startswith cwd "/" = true ->
    stat m (under cwd (ws ++ [name])) = Some (RegularFile true data mtime) ->
    v <> "HTTP/0.9" ->
    ~ holds_copy hs mtime ->
    in_years (clock m) = true ->
    in_years mtime = true ->
    cls = simple_server.handler \/ cls = serve_test.Handler ->
    let w := handle cls m cwd (GET (urllib_parse.quote (url_of (ws ++ [name]))) v hs) in
    status w = Some 200
    /\ header "Content-type" w = Some (Text (from_table (types_map m) (String "." i)))
    /\ header "Content-Encoding" w = None.
Proof.
  intros m cwd ws stem i v hs data mtime cls name Hascii Aname Hstem Hi Hcwd
    Hstat Hv Hcopy _ _ Hcls w.
  pose proof (ascii_names_file_names ws Hascii) as Hall.
  pose proof (ascii_name_file_name name Aname) as Hname.
  destruct (served_file_type m cwd ws name v hs data mtime Hall Hname Hstat Hcopy Hv
              cls Hcls)
    as [Hs Hc].
  split; [exact Hs|].
  assert (Habs : str.startswith (under cwd (ws ++ [name])) "/" = true).
  { apply under_names_absolute; [exact Hcwd|].
    apply Forall_app. split; [exact Hall|now repeat constructor]. }
  assert (Hg : SimpleHTTPRequestHandler.guess_type m (under cwd (ws ++ [name]))
               = from_table (types_map m) (String "." i)).
  { revert Habs. rewrite under_snoc.
    destruct (join_name (under cwd ws) name Hname) as [pre ->].
    apply file_name_inv in Hname as (_ & _ & _ & Hsl).
    unfold name in Hsl |- *. rewrite !contains_app in Hsl.
    apply orb_false_iff in Hsl as [Hsl1 Hsl2].
    apply orb_false_iff in Hsl2 as [Hsl2 _].
    change (str.contains "/" (String "." i)) with (str.contains "/" i) in Hsl2.
    intros Habs.
    assert (Hsp : posixpath.splitext (pre ++ stem ++ String "." i ++ ".br")
                  = (pre ++ stem ++ String "." i, ".br")).
    { replace (pre ++ stem ++ String "." i ++ ".br")
        with (pre ++ (stem ++ String "." i) ++ String "." "br")
        by (rewrite !append_assoc; reflexivity).
      rewrite (splitext_of_name pre (stem ++ String "." i) "br").
      - reflexivity.
      - unfold has_name_char in *. rewrite all_chars_app.
        apply negb_true_iff in Hstem. rewrite Hstem. reflexivity.
      - rewrite contains_app, Hsl1.
        change (str.contains "/" (String "." i)) with (str.contains "/" i).
        now rewrite Hsl2.
      - reflexivity.
      - reflexivity. }
    rewrite handler_type_from_table by (rewrite Hsp; reflexivity).
    unfold mimetypes.guess_type. rewrite (splittype_absolute _ Habs).
    rewrite bool_decide_eq_false_2 by discriminate.
    rewrite Hsp. cbn [mimetypes.suffix_loop].
    change (mimetypes.suffix_map !! str.lower ".br") with (@None string).
    cbv beta iota zeta.
    rewrite bool_decide_eq_true_2 by (eexists; reflexivity).
    rewrite splitext_of_name by assumption.
    unfold from_table. destruct (types_map m !! str.lower (String "." i)); reflexivity. }
  unfold w. rewrite Hc, Hg. split; [reflexivity|].
  rewrite (served_file_answer m cwd ws name v hs data mtime Hall Hname Hstat Hcopy Hv
             cls Hcls).
  reflexivity.
Qed.

Lemma brotli_extension_is_taken_off_witness :
  header "Content-type"
    (handle simple_server.handler library "/srv/www" (GET "/app.js.br" "HTTP/1.1" []))
  = Some (Text "application/javascript").
Proof.
  assert (Hcopy : ~ holds_copy [] 1700000000) by (intros (d & H & _); discriminate).
  assert (Hstat : stat library
                    (under "/srv/www" ([] ++ ["app" ++ String "." "js" ++ ".br"]))
                  = Some (RegularFile true "br" 1700000000))
    by (vm_compute; reflexivity).
  assert (Hv : "HTTP/1.1" <> "HTTP/0.9") by discriminate.
  destruct (brotli_extension_is_taken_off library "/srv/www" [] "app" "js" "HTTP/1.1" []
              "br" 1700000000 simple_server.handler
              (List.Forall_nil _) eq_refl eq_refl eq_refl eq_refl
              Hstat Hv Hcopy eq_refl eq_refl (or_introl eq_refl)) as (_ & H & _).
  exact H.
Defined.

(** ** A client that holds a copy *)

(** X21.  Let a file under the working directory that can be opened, with
    names in ASCII, be asked for by its quoted path in a GET request of a
    version other than HTTP/0.9, the clock and the file's time in the
    years 1 to 9999.  The answer has status 304 exactly when the client
    holds a copy still good ([If-Modified-Since] in UTC not before the
    file's modification time, no [If-None-Match]), and status 200
    otherwise.  The answer with 304 is the status line, [Server], [Date]
    and the blank line: no body, no [Content-Length], no [Content-type]. *)
Theorem conditional_get_is_304 :
  forall (m : machine) (cwd : string) (ws : list string) (v : string)
         (hs : list (string * hvalue)) (data : string) (mtime : Z)
         (cls : handler_class),
    ws <> [] ->
    Forall (fun w => ascii_name w = true) ws ->
    stat m (under cwd ws) = Some (RegularFile true data mtime) ->
    v <> "HTTP/0.9" ->
    in_years (clock m) = true ->
    in_years mtime = true ->
    cls = simple_server.handler \/ cls = serve_test.Handler ->
    let w := handle cls m cwd (GET (urllib_parse.quote (url_of ws)) v hs) in
    (status w = Some 304 <-> holds_copy hs mtime)
    /\ (status w = Some 200 <-> ~ holds_copy hs mtime)
    /\ (holds_copy hs mtime ->
        w = [Lines [ StatusLine "HTTP/1.0" 304 "Not Modified";
                     Header "Server" (Text "SimpleHTTP/0.6 Python/3.11.2");
                     Header "Date" (BaseHTTPRequestHandler.date_time_string (clock m));
                     BlankLine ]]
        /\ body w = "").
Proof.
  intros m cwd ws v hs data mtime cls Hne Hascii Hstat Hv _ _ Hcls w.
  pose proof (ascii_names_file_names ws Hascii) as Hall.
  set (p := urllib_parse.quote (url_of ws)) in *.
  set (self := new_handler cwd (GET p v hs)).
  set (f := {| content := data; st_size := String.length data; f_mtime := mtime |}).
  assert (Htr : SimpleHTTPRequestHandler.translate_path self (path self) = under cwd ws)
    by (apply (translate_path_names self ws Hne Hall)).
  assert (Hw : w = if SimpleHTTPRequestHandler.not_modified self f
                   then [Lines (not_modified_head m)]
                   else Lines (file_head m
                                 (SimpleHTTPRequestHandler.guess_type m (under cwd ws)) f)
                        :: blocks data).
  { assert (Hw : w = wfile (SimpleHTTPRequestHandler.do_GET m self).2).
    { unfold w. destruct Hcls as [->| ->]; [reflexivity|].
      apply handle_GET_not_root. unfold p.
      rewrite <- (append_nil_r (urllib_parse.quote _)).
      now apply quote_url_not_root. }
    destruct (stat_open m _ _ _ Hstat) as [Hopen Hdir].
    rewrite Hw, do_GET_not_directory by (rewrite ?Htr; assumption || apply unsent_new_handler).
    rewrite Htr. unfold file_reply. cbv zeta.
    pose proof (has_headers_new_handler cwd (GET p v hs) Hv) as Hh.
    fold self in Hh. rewrite Hh.
    rewrite under_names_ends_with_name, Hopen by assumption. reflexivity. }
  pose proof (not_modified_holds_copy self f) as Hiff.
  change (headers self) with hs in Hiff. change (f_mtime f) with mtime in Hiff.
  rewrite Hw. destruct (SimpleHTTPRequestHandler.not_modified self f).
  - assert (Hc : holds_copy hs mtime) by now apply Hiff.
    split; [split; [intros _; exact Hc|reflexivity]|].
    split; [split; [discriminate|intros H; contradiction]|].
    intros _. split; reflexivity.
  - assert (Hc : ~ holds_copy hs mtime) by (intros H; apply Hiff in H; discriminate).
    split; [split; [discriminate|intros H; contradiction]|].
    split; [split; [intros _; exact Hc|reflexivity]|].
    intros H. contradiction.
Qed.

Lemma conditional_get_is_304_witness :
  status (handle simple_server.handler host "/srv/www"
            (GET "/app.js" "HTTP/1.1"
               [("If-Modified-Since", Date {| tzinfo := None; timestamp := 1700000001 |})]))
  = Some 304.
Proof.
  assert (Hne : ["app.js"] <> @nil string) by discriminate.
  assert (Hall : Forall (fun w => ascii_name w = true) ["app.js"])
    by (repeat constructor).
  assert (Hstat : stat host (under "/srv/www" ["app.js"])
                  = Some (RegularFile true "console.log(1)" 1700000000))
    by (vm_compute; reflexivity).
  assert (Hv : "HTTP/1.1" <> "HTTP/0.9") by discriminate.
  destruct (conditional_get_is_304 host "/srv/www" ["app.js"] "HTTP/1.1"
              [("If-Modified-Since", Date {| tzinfo := None; timestamp := 1700000001 |})]
              "console.log(1)" 1700000000 simple_server.handler Hne Hall Hstat Hv
              eq_refl eq_refl (or_introl eq_refl)) as [[_ H] _].
  apply H. exists {| tzinfo := None; timestamp := 1700000001 |}.
  repeat split; try reflexivity. cbn. lia.
Defined.

(** ** One request for each connection *)

Lemma send_header_closes k v self :
  keeps_open k v = false -> close_connection self = true ->
  close_connection (BaseHTTPRequestHandler.send_header k v self) = true.
Proof.
  unfold keeps_open, BaseHTTPRequestHandler.send_header. cbv zeta.
  intros Hk H.
  assert (H' : close_connection
                 (if BaseHTTPRequestHandler.has_headers self
                  then set_headers_buffer (_headers_buffer self ++ [Header k v]) self
                  else self) = true)
    by (destruct (BaseHTTPRequestHandler.has_headers self); exact H).
  revert H'. generalize (if BaseHTTPRequestHandler.has_headers self
                         then set_headers_buffer (_headers_buffer self ++ [Header k v]) self
                         else self).
  intros s H'.
  destruct (String.eqb (str.lower k) "connection"); [|exact H'].
  destruct v as [t|d]; [|exact H'].
  destruct (String.eqb (str.lower t) "close"); [reflexivity|].
  destruct (String.eqb (str.lower t) "keep-alive"); [discriminate|].
  exact H'.
Qed.

Lemma end_headers_closes self :
  close_connection (BaseHTTPRequestHandler.end_headers self) = close_connection self.
Proof.
  unfold BaseHTTPRequestHandler.end_headers.
  destruct (BaseHTTPRequestHandler.has_headers self); reflexivity.
Qed.

Lemma write_closes c self : close_connection (write c self) = close_connection self.
Proof. reflexivity. Qed.

Lemma copyfile_closes f self :
  close_connection (SimpleHTTPRequestHandler.copyfile f self) = close_connection self.
Proof.
  unfold SimpleHTTPRequestHandler.copyfile.
  assert (H : forall fuel s self',
            close_connection (SimpleHTTPRequestHandler.copyfileobj fuel s self')
            = close_connection self').
  { induction fuel as [|fuel IH]; intros s self'; [reflexivity|].
    cbn [SimpleHTTPRequestHandler.copyfileobj].
    destruct (SimpleHTTPRequestHandler.read SimpleHTTPRequestHandler.COPY_BUFSIZE s)
      as [buf rest].
    destruct (String.eqb buf ""); [reflexivity|].
    now rewrite IH. }
  apply H.
Qed.

Lemma send_response_closes v m code msg self :
  close_connection self = true ->
  close_connection (BaseHTTPRequestHandler.send_response v m code msg self) = true.
Proof.
  intros H. unfold BaseHTTPRequestHandler.send_response.
  apply send_header_closes; [reflexivity|].
  apply send_header_closes; [reflexivity|].
  unfold BaseHTTPRequestHandler.send_response_only.
  destruct (BaseHTTPRequestHandler.has_headers self); exact H.
Qed.

Lemma send_header_close self :
  close_connection
    (BaseHTTPRequestHandler.send_header "Connection" (Text "close") self) = true.
Proof.
  unfold BaseHTTPRequestHandler.send_header.
  destruct (BaseHTTPRequestHandler.has_headers self); reflexivity.
Qed.

(** Peels the library calls off a handler whose connection is to close. *)
Ltac closing :=
  repeat lazymatch goal with
    | |- close_connection
           (BaseHTTPRequestHandler.send_header "Connection" (Text "close") _) = true =>
        apply send_header_close
    | |- close_connection (BaseHTTPRequestHandler.send_header _ _ _) = true =>
        apply send_header_closes; [reflexivity|]
    | |- close_connection (BaseHTTPRequestHandler.end_headers _) = true =>
        rewrite end_headers_closes
    | |- close_connection (write _ _) = true =>
        rewrite write_closes
    | |- close_connection (BaseHTTPRequestHandler.send_response _ _ _ _ _) = true =>
        apply send_response_closes
    end.

Lemma send_error_closes v m code msg self :
  close_connection (BaseHTTPRequestHandler.send_error v m code msg self) = true.
Proof.
  unfold BaseHTTPRequestHandler.send_error.
  destruct (BaseHTTPRequestHandler.responses code) as [[shortmsg longmsg]|];
    destruct ((200 <=? code) && _); cbv beta iota zeta;
    try match goal with
      | |- close_connection (if ?b then _ else _) = true => destruct b
      end;
    closing.
Qed.

Lemma send_head_file_closes m self fspath :
  close_connection self = true ->
  close_connection (SimpleHTTPRequestHandler.send_head_file m self fspath).2 = true.
Proof.
  intros H. unfold SimpleHTTPRequestHandler.send_head_file. cbv zeta.
  destruct (str.endswith fspath "/"); [apply send_error_closes|].
  destruct (open m fspath) as [f0|[]]; [|apply send_error_closes|exact H].
  destruct (SimpleHTTPRequestHandler.not_modified self f0);
    cbv beta iota zeta delta [snd]; closing; exact H.
Qed.

Lemma send_head_closes m self :
  close_connection self = true ->
  close_connection (SimpleHTTPRequestHandler.send_head m self).2 = true.
Proof.
  intros H. unfold SimpleHTTPRequestHandler.send_head. cbv zeta.
  set (fspath := SimpleHTTPRequestHandler.translate_path self (path self)).
  destruct (isdir m fspath); [|now apply send_head_file_closes].
  destruct (negb _); [cbv beta iota zeta delta [snd]; closing; exact H|].
  destruct (isfile m (posixpath.join fspath "index.html"));
    [now apply send_head_file_closes|].
  destruct (isfile m (posixpath.join fspath "index.htm"));
    [now apply send_head_file_closes|].
  unfold SimpleHTTPRequestHandler.list_directory.
  destruct (listdir m fspath) as [names|[]]; cbv beta iota zeta delta [snd];
    [closing; exact H|apply send_error_closes|exact H].
Qed.

Lemma do_GET_closes m self :
  close_connection self = true ->
  close_connection (SimpleHTTPRequestHandler.do_GET m self).2 = true.
Proof.
  intros H. unfold SimpleHTTPRequestHandler.do_GET.
  pose proof (send_head_closes m self H) as Hs.
  destruct (SimpleHTTPRequestHandler.send_head m self) as [[[f|]|e] s];
    cbn [snd] in *; [now rewrite copyfile_closes|exact Hs..].
Qed.

Lemma do_HEAD_closes m self :
  close_connection self = true ->
  close_connection (SimpleHTTPRequestHandler.do_HEAD m self).2 = true.
Proof.
  intros H. unfold SimpleHTTPRequestHandler.do_HEAD.
  pose proof (send_head_closes m self H) as Hs.
  destruct (SimpleHTTPRequestHandler.send_head m self) as [[f|e] s]; exact Hs.
Qed.

(** X22.  After its one request a connection is to be closed, whatever
    the request and its header fields ([Connection: keep-alive] included).
    [parse_request] leaves [close_connection] true, the protocol version of
    both handler classes being HTTP/1.0, and no response sets it to false:
    the one [Connection] field the server sends says [close]. *)
Theorem connection_closes_after_one_request :
  forall (m : machine) (cwd : string) (r : request),
    close_connection (handle_one_request simple_server.handler m (new_handler cwd r)).2
    = true
    /\ close_connection (handle_one_request serve_test.Handler m (new_handler cwd r)).2
       = true.
Proof.
  intros m cwd r. unfold handle_one_request.
  change (getattr simple_server.handler ("do_" ++ command (new_handler cwd r)))
    with (if String.eqb (r_command r) "GET" then Some SimpleHTTPRequestHandler.do_GET
          else if String.eqb (r_command r) "HEAD" then Some SimpleHTTPRequestHandler.do_HEAD
          else None).
  change (getattr serve_test.Handler ("do_" ++ command (new_handler cwd r)))
    with (if String.eqb (r_command r) "GET" then Some serve_test.MyHandler.do_GET
          else if String.eqb (r_command r) "GET" then Some SimpleHTTPRequestHandler.do_GET
          else if String.eqb (r_command r) "HEAD" then Some SimpleHTTPRequestHandler.do_HEAD
          else None).
  destruct (String.eqb (r_command r) "GET").
  - split; [now apply do_GET_closes|].
    unfold serve_test.MyHandler.do_GET. apply do_GET_closes.
    unfold serve_test.MyHandler.default_to_test_page.
    destruct (String.eqb _ "/"); reflexivity.
  - destruct (String.eqb (r_command r) "HEAD").
    + split; now apply do_HEAD_closes.
    + split; apply send_error_closes.
Qed.

(** ** Requests of version HTTP/0.9 *)

Lemma bytes_of_block h ls : List.filter is_bytes (block h ls) = [].
Proof. destruct h; reflexivity. Qed.

Lemma bytes_of_blocks s : List.filter is_bytes (blocks s) = blocks s.
Proof.
  unfold blocks. induction (reads _ s) as [|b l IH]; [reflexivity|].
  cbn [List.map List.filter is_bytes]. now rewrite IH.
Qed.

Lemma bytes_of_error m h c code msg :
  List.filter is_bytes (error_reply m h c code msg) = error_reply m false c code msg.
Proof.
  unfold error_reply. rewrite List.filter_app, bytes_of_block.
  destruct (String.eqb c "HEAD"); reflexivity.
Qed.

Section TwoVersions.

Import SimpleHTTPRequestHandler.

Variable m : machine.
Variables s1 s2 : handler.
Hypothesis Hunsent1 : unsent s1.
Hypothesis Hunsent2 : unsent s2.
Hypothesis Hdirectory : directory s1 = directory s2.
Hypothesis Hcommand : command s1 = command s2.
Hypothesis Hpath : path s1 = path s2.
Hypothesis Hheaders : headers s1 = headers s2.
Hypothesis Hold : BaseHTTPRequestHandler.has_headers s1 = false.

Lemma send_head_file_bytes fspath :
  (send_head_file m s1 fspath).1 = (send_head_file m s2 fspath).1
  /\ wfile (send_head_file m s1 fspath).2
     = List.filter is_bytes (wfile (send_head_file m s2 fspath).2).
Proof.
  pose proof (send_head_file_unsent m s1 Hunsent1 fspath) as H1.
  pose proof (send_head_file_unsent m s2 Hunsent2 fspath) as H2.
  cbv zeta in H1, H2. rewrite Hold, Hcommand in H1.
  assert (Hnm : forall f, not_modified s1 f = not_modified s2 f).
  { intros f. unfold not_modified. now rewrite Hheaders. }
  destruct (send_head_file m s1 fspath) as [o1 t1].
  destruct (send_head_file m s2 fspath) as [o2 t2].
  cbn [fst snd] in *.
  destruct (str.endswith fspath "/").
  { injection H1 as -> ->. injection H2 as -> ->. now rewrite bytes_of_error. }
  destruct (open m fspath) as [f|[]].
  - rewrite Hnm in H1. destruct (not_modified s2 f);
      injection H1 as -> ->; injection H2 as -> ->; now rewrite bytes_of_block.
  - injection H1 as -> ->. injection H2 as -> ->. now rewrite bytes_of_error.
  - injection H1 as -> ->. injection H2 as -> ->. split; reflexivity.
Qed.

Lemma list_directory_bytes fspath :
  (list_directory m fspath s1).1 = (list_directory m fspath s2).1
  /\ wfile (list_directory m fspath s1).2
     = List.filter is_bytes (wfile (list_directory m fspath s2).2).
Proof.
  pose proof (list_directory_unsent m s1 Hunsent1 fspath) as H1.
  pose proof (list_directory_unsent m s2 Hunsent2 fspath) as H2.
  cbv zeta in H1, H2. rewrite Hold, Hcommand in H1.
  unfold list_directory in *. rewrite Hpath in *.
  destruct (listdir m fspath) as [names|[]]; cbv zeta in *.
  - destruct H1 as (f1 & E1 & _ & ->). destruct H2 as (f2 & E2 & _ & ->).
    cbn [fst] in *. now rewrite bytes_of_block.
  - destruct H1 as [-> ->]. destruct H2 as [-> ->]. now rewrite bytes_of_error.
  - destruct H1 as [-> ->]. destruct H2 as [-> ->]. split; reflexivity.
Qed.

(** What [send_head] hands back does not depend on the version, and of what
    it writes the header lines alone do. *)
Lemma send_head_bytes :
  (send_head m s1).1 = (send_head m s2).1
  /\ wfile (send_head m s1).2 = List.filter is_bytes (wfile (send_head m s2).2).
Proof.
  unfold send_head. cbv zeta.
  assert (Htr : translate_path s1 (path s1) = translate_path s2 (path s2)).
  { unfold translate_path. now rewrite Hdirectory, Hpath. }
  rewrite Htr, Hpath.
  set (fspath := translate_path s2 (path s2)).
  destruct (isdir m fspath); [|apply send_head_file_bytes].
  destruct (negb _).
  { cbn [fst snd]. split; [reflexivity|].
    rewrite !end_headers_wfile, !send_header_wfile, !send_header_buffer.
    same_headers. rewrite Hold.
    destruct (send_response_unsent m 301 None s1 Hunsent1) as [-> _].
    destruct (send_response_unsent m 301 None s2 Hunsent2) as [-> _].
    cbn [block app]. now rewrite bytes_of_block. }
  destruct (isfile m (posixpath.join fspath "index.html"));
    [apply send_head_file_bytes|].
  destruct (isfile m (posixpath.join fspath "index.htm"));
    [apply send_head_file_bytes|].
  apply list_directory_bytes.
Qed.

Lemma do_GET_bytes :
  wfile (do_GET m s1).2 = List.filter is_bytes (wfile (do_GET m s2).2).
Proof.
  rewrite !do_GET_wfile. destruct send_head_bytes as [-> ->].
  destruct (send_head m s2).1 as [[f|]|e]; try reflexivity.
  now rewrite List.filter_app, bytes_of_blocks.
Qed.

Lemma do_HEAD_bytes :
  wfile (do_HEAD m s1).2 = List.filter is_bytes (wfile (do_HEAD m s2).2).
Proof. rewrite !do_HEAD_wfile. apply send_head_bytes. Qed.

End TwoVersions.

Lemma status_of_bytes w : status (List.filter is_bytes w) = None.
Proof. induction w as [|[ls|d] w IH]; cbn; assumption || reflexivity. Qed.

Lemma body_of_bytes w : body (List.filter is_bytes w) = body w.
Proof.
  induction w as [|[ls|d] w IH]; cbn [List.filter is_bytes is_lines negb body];
    [reflexivity|exact IH|now rewrite IH].
Qed.

(** X23.  A request of version HTTP/0.9 is answered without status line
    and without header fields.  What the client receives is what it
    receives for the same method, path and header fields in another
    version, the header lines left out: the body alone, which is nothing
    at all where the other answer has no body (a redirect, status 304, the
    answer to HEAD). *)
Theorem old_version_is_answered_by_the_body_alone :
  forall (m : machine) (cwd : string) (c p v : string)
         (hs : list (string * hvalue)) (cls : handler_class),
    v <> "HTTP/0.9" ->
    cls = simple_server.handler \/ cls = serve_test.Handler ->
    let old := handle cls m cwd
                 {| r_command := c; r_path := p; r_version := "HTTP/0.9";
                    r_headers := hs |} in
    let new := handle cls m cwd
                 {| r_command := c; r_path := p; r_version := v; r_headers := hs |} in
    old = List.filter is_bytes new
    /\ status old = None
    /\ body old = body new.
Proof.
  intros m cwd c p v hs cls Hv Hcls old new.
  assert (H : old = List.filter is_bytes new).
  { unfold old, new.
    set (r1 := {| r_command := c; r_path := p; r_version := "HTTP/0.9";
                  r_headers := hs |}).
    set (r2 := {| r_command := c; r_path := p; r_version := v; r_headers := hs |}).
    pose proof (unsent_new_handler cwd r1) as Hu1.
    pose proof (unsent_new_handler cwd r2) as Hu2.
    apply String.eqb_neq in Hv.
    destruct Hcls as [-> | ->];
      rewrite ?handle_simple_server, ?handle_serve_test;
      cbn [r_command r_version r1 r2]; rewrite Hv;
      change (String.eqb "HTTP/0.9" "HTTP/0.9") with true; cbn [negb];
      (destruct (String.eqb c "GET");
       [|destruct (String.eqb c "HEAD"); [|now rewrite bytes_of_error]]).
    - now apply do_GET_bytes.
    - now apply do_HEAD_bytes.
    - destruct (default_to_test_page_frame _ Hu1) as (Hd1 & _).
      destruct (default_to_test_page_frame _ Hu2) as (Hd2 & _).
      apply do_GET_bytes; try assumption; try reflexivity;
        unfold serve_test.MyHandler.default_to_test_page;
        cbn [path new_handler r_path r1 r2];
        destruct (String.eqb p "/"); reflexivity.
    - now apply do_HEAD_bytes. }
  rewrite H. split; [reflexivity|]. split; [apply status_of_bytes|apply body_of_bytes].
Qed.

Lemma old_version_is_answered_by_the_body_alone_witness :
  handle serve_test.Handler host "/srv/www"
    {| r_command := "GET"; r_path := "/app.js"; r_version := "HTTP/0.9"; r_headers := [] |}
  = [Bytes "console.log(1)"].
Proof.
  assert (Hv : "HTTP/1.0" <> "HTTP/0.9") by discriminate.
  destruct (old_version_is_answered_by_the_body_alone host "/srv/www" "GET" "/app.js"
              "HTTP/1.0" [] serve_test.Handler Hv (or_intror eq_refl)) as (H & _).
  rewrite H. vm_compute. reflexivity.
Defined.

(** ** A path with a NUL character *)

(** X24.  A GET request whose path, in ASCII once unquoted, translates to
    a path with a NUL character that does not end with a slash is not
    answered at all: [os.path.isdir] takes the path for no directory,
    [open] raises [ValueError], which [send_head] does not catch as it
    catches [OSError], and the method ends by that exception before
    anything is written.  The client receives neither the file nor the
    page of status 404. *)
Theorem path_with_nul_is_not_answered :
  forall (m : machine) (cwd : string) (p q v : string)
         (hs : list (string * hvalue)) (cls : handler_class),
    resolved cls p q ->
    let fspath := SimpleHTTPRequestHandler.translate_path (new_handler cwd (GET q v hs)) q in
    is_ascii (urllib_parse.unquote (file_part q)) = true ->
    str.contains NUL fspath = true ->
    str.endswith fspath "/" = false ->
    handle cls m cwd (GET p v hs) = []
    /\ (handle_one_request cls m (new_handler cwd (GET p v hs))).1 = Raise ValueError.
Proof.
  intros m cwd p q v hs cls Hres fspath _ Hnul Hend.
  set (self := new_handler cwd (GET q v hs)).
  assert (Hone : handle_one_request cls m (new_handler cwd (GET p v hs))
                 = SimpleHTTPRequestHandler.do_GET m self).
  { unfold self. destruct Hres as [[-> Hq]|[-> Hq]]; rewrite Hq; [reflexivity|].
    unfold handle_one_request. cbn.
    unfold serve_test.MyHandler.do_GET, serve_test.MyHandler.default_to_test_page.
    cbn. destruct (String.eqb p "/"); reflexivity. }
  assert (Hdo : SimpleHTTPRequestHandler.do_GET m self = (Raise ValueError, self)).
  { assert (Hdir : isdir m fspath = false).
    { unfold isdir, stat. now rewrite Hnul. }
    unfold SimpleHTTPRequestHandler.do_GET, SimpleHTTPRequestHandler.send_head.
    cbv zeta.
    change (SimpleHTTPRequestHandler.translate_path self (path self)) with fspath.
    rewrite Hdir. unfold SimpleHTTPRequestHandler.send_head_file. cbv zeta.
    rewrite Hend. unfold open. rewrite Hnul. reflexivity. }
  unfold handle. rewrite Hone, Hdo. split; reflexivity.
Qed.

Lemma path_with_nul_is_not_answered_witness :
  handle simple_server.handler host "/srv/www" (GET "/app.js%00" "HTTP/1.1" []) = [].
Proof.
  apply (path_with_nul_is_not_answered host "/srv/www" "/app.js%00" "/app.js%00"
           "HTTP/1.1" [] simple_server.handler).
  - left. split; reflexivity.
  - vm_compute. reflexivity.
  - vm_compute. reflexivity.
  - vm_compute. reflexivity.
Defined.
